(** * AnimePipeline: the per-task pipeline, its driver and its stage clients

    A shallow embedding of

    - [animepipeline/loop.py]: [build_task_info], [Loop.start], [Loop.pipeline];
    - [animepipeline/rss/type.py]: [TorrentInfo];
    - [animepipeline/post/tg.py]: [TGChannelSender.send_video];
    - [animepipeline/encode/finalrip.py]: [FinalRipClient.upload_and_new_task]
      and [FinalRipClient.download_completed_task];

    as monadic programs over an explicit state: the task-status store, the
    outside world the stage clients talk to, and the chronological trace of
    every client call, filesystem access and store write.  Python exceptions
    are values of [exn]; the unbounded polling loops take a fuel argument and
    answer [Pending] when it runs out (the execution is still polling).

    [loop.py] is written against members that the other files under src/
    do not declare.  One rule is applied to all of them: the member exists
    and behaves as [loop.py] uses it, its value or answer being a parameter.

    - [FinalRipClient.check_task_exist], [FinalRipClient.check_task_completed]
      and the keyword form of [FinalRipClient.start_task] (loop.py, lines
      142-152; also called by tests/test_encode.py) are the operations
      [fr_check_task_exist], [fr_check_task_completed] and [fr_start_task]
      of [Env];
    - [server_config.telegram] and [server_config.loop] (loop.py, lines
      70-72 and 95) are the arguments of [Loop_init];
    - [task_info.translation] (loop.py, line 187) is [task_translation] of
      [Env].

    No run of the model reports a missing attribute for any of them. *)

From stdpp Require Import base option list gmap strings pretty.
From Stdlib Require Import ZArith Lia Ascii.

Local Open Scope Z_scope.
Local Open Scope stdpp_scope.

(** ** Exceptions and outcomes *)

(** The exception classes that occur in the modelled code.  All of them are
    subclasses of Python's [Exception], so an [except Exception] clause
    catches every value of this type. *)
Inductive exn : Type :=
  | FileNotFoundError (msg : string)
  | ValueError (msg : string)
  | IOError (msg : string)
  | AttributeError (msg : string)
  | AssertionError
  | TaskNotCompletedError
  | NetworkError (msg : string)   (* telegram.error.NetworkError and subclasses *)
  | RetryError (last : exn)       (* tenacity.RetryError wrapping the last failure *)
  | NotFound (task_id : string)   (* store lookup miss *)
  | AlreadyExists (task_id : string) (* duplicate create in the store *)
  | OtherError (cls msg : string). (* any other Exception subclass *)

(** The text [str(e)] / [f"{e}"] puts into a message. *)
Fixpoint exn_str (e : exn) : string :=
  match e with
  | FileNotFoundError m | ValueError m | IOError m | AttributeError m
  | NetworkError m | OtherError _ m => m
  | AssertionError | TaskNotCompletedError => EmptyString
  | RetryError e' => "RetryError[" +:+ exn_str e' +:+ "]"
  | NotFound i | AlreadyExists i => i
  end.

(** [isinstance(e, telegram.error.NetworkError)] *)
Definition is_network_error (e : exn) : bool :=
  match e with NetworkError _ => true | _ => false end.

(** What one call of a collaborator gives back. *)
Inductive result (A : Type) : Type :=
  | Ok (a : A)
  | Err (e : exn).
Arguments Ok {A} a.
Arguments Err {A} e.

(** What running a piece of the program gives: a value, a raised exception,
    or [Pending] when the fuel of a polling loop ran out. *)
Inductive outcome (A : Type) : Type :=
  | Return (a : A)
  | Raise (e : exn)
  | Pending.
Arguments Return {A} a.
Arguments Raise {A} e.
Arguments Pending {A}.

(** ** [pathlib.Path] on a POSIX host

    A path is its root and its components.  The root is empty for a
    relative path, ["/"] for an absolute one and ["//"] when the text starts
    with exactly two slashes, which [PurePosixPath] keeps; [Path.of_string]
    drops empty and ["."] components the way [PurePosixPath] does. *)
Module Path.

Record t : Type := mk { root : string; parts : list string }.

Fixpoint split_go (cur : string) (s : string) : list string :=
  match s with
  | EmptyString => [String.rev cur]
  | String c s' =>
      if Ascii.eqb c "/"%char then String.rev cur :: split_go EmptyString s'
      else split_go (String c cur) s'
  end.

(** [s.split("/")] *)
Definition split (s : string) : list string := split_go EmptyString s.

Definition keep (c : string) : bool :=
  negb (String.eqb c EmptyString || String.eqb c ".").

(** The root of a path text: three or more leading slashes collapse to
    one, exactly two are kept. *)
Definition root_of (s : string) : string :=
  if String.prefix "///" s then "/"
  else if String.prefix "//" s then "//"
  else if String.prefix "/" s then "/"
  else EmptyString.

(** [Path(s)] *)
Definition of_string (s : string) : t :=
  {| root := root_of s;
     parts := filter (fun c => keep c = true) (split s) |}.

(** [p.is_absolute()] *)
Definition absolute (p : t) : bool := negb (String.eqb (root p) EmptyString).

Fixpoint join (sep : string) (l : list string) : string :=
  match l with
  | [] => EmptyString
  | [x] => x
  | x :: l' => x +:+ sep +:+ join sep l'
  end.

(** [str(p)] *)
Definition to_string (p : t) : string :=
  match parts p with
  | [] => if absolute p then root p else "."
  | l => root p +:+ join "/" l
  end.

(** [p.name] *)
Definition name (p : t) : string := List.last (parts p) EmptyString.

(** [p.parent] *)
Definition parent (p : t) : t :=
  {| root := root p; parts := removelast (parts p) |}.

(** [p / s] for a string [s] *)
Definition div (p : t) (s : string) : t :=
  let q := of_string s in
  if absolute q then q
  else {| root := root p; parts := parts p ++ parts q |}.

(** index of the last ["."] of [s], as [s.rfind(".")] (None for -1) *)
Fixpoint rfind_dot (s : string) : option nat :=
  match s with
  | EmptyString => None
  | String c s' =>
      match rfind_dot s' with
      | Some i => Some (S i)
      | None => if Ascii.eqb c "."%char then Some 0%nat else None
      end
  end.

Fixpoint drop_chars (n : nat) (s : string) : string :=
  match n, s with
  | S n', String _ s' => drop_chars n' s'
  | _, _ => s
  end.

(** [p.suffix]: the last dot of the name and what follows it, unless that
    dot is the first or the last character of the name. *)
Definition suffix (p : t) : string :=
  let n := name p in
  match rfind_dot n with
  | Some i =>
      if bool_decide (0 < i ∧ i < String.length n - 1)%nat
      then drop_chars i n else EmptyString
  | None => EmptyString
  end.

End Path.

(** ** Data model *)

(** A field value as an f-string sees it. *)
Inductive value : Type :=
  | VStr (s : string)
  | VInt (z : Z).

(** [f"{v}"] *)
Definition format (v : value) : string :=
  match v with
  | VStr s => s
  | VInt z => pretty z
  end.

(** [animepipeline/rss/type.py]: [class TorrentInfo(BaseModel)].
    [link] is a URL or a string, [pub_date] a datetime (kept as a POSIX
    timestamp). *)
Module TorrentInfo.
Record t : Type := mk {
  name : string;
  episode : Z;
  title : string;
  link : string;
  hash : string;
  pub_date : Z;
  size : string
}.
End TorrentInfo.

(** [animepipeline/loop.py]: [class TaskInfo(TorrentInfo)], the fields of
    [TorrentInfo] and three more.  The member [translation], which
    [Loop.pipeline] also reads of a task, is declared by neither class under
    src/; its value is [task_translation] of [Env]. *)
Module TaskInfo.
Record t : Type := mk {
  name : string;
  episode : Z;
  title : string;
  link : string;
  hash : string;
  pub_date : Z;
  size : string;
  uploader : string;
  script : string;
  param : string
}.
End TaskInfo.

(** Modelled from the spec: [animepipeline.store.TaskStatus] is not among the
    sources.  The field names are the ones [Loop.pipeline] reads and writes;
    a fresh [TaskStatus()] has every field absent or false (spec, section 3:
    created with all fields absent/false). *)
Module TaskStatus.
Record t : Type := mk {
  bt_downloaded_path : option string;
  finalrip_downloaded_path : option string;
  tg_uploaded : bool;
  done : bool
}.

(** [TaskStatus()] *)
Definition new : t := mk None None false false.

Definition set_bt_downloaded_path (p : string) (st : t) : t :=
  mk (Some p) (finalrip_downloaded_path st) (tg_uploaded st) (done st).
Definition set_finalrip_downloaded_path (p : string) (st : t) : t :=
  mk (bt_downloaded_path st) (Some p) (tg_uploaded st) (done st).
Definition set_tg_uploaded (b : bool) (st : t) : t :=
  mk (bt_downloaded_path st) (finalrip_downloaded_path st) b (done st).
Definition set_done (b : bool) (st : t) : t :=
  mk (bt_downloaded_path st) (finalrip_downloaded_path st) (tg_uploaded st) b.
End TaskStatus.

(** Modelled from the spec: [animepipeline.config.NyaaConfig] and
    [RSSConfig] are not among the sources.  The records have the members
    [loop.py] reads; spec, section 6 (configuration surface): each feed
    names a script and a parameter profile, and the RSS configuration is
    the table from profile names to their text. *)
Record NyaaConfig : Type := {
  nyaa_name : string;
  nyaa_script : string;
  nyaa_param : string;
  nyaa_uploader : string
}.

Record RSSConfig : Type := {
  scripts : gmap string string;
  params : gmap string string;
  nyaa : list NyaaConfig
}.

(** Modelled from the spec: [animepipeline.mediainfo.FileNameInfo] is not
    among the sources.  The fields are the keyword arguments [Loop.pipeline]
    builds it with (loop.py, lines 128-133); spec, section 6 (naming
    helper): source path, episode, name, uploader. *)
Record FileNameInfo : Type := {
  fni_path : Path.t;
  fni_episode : Z;
  fni_name : string;
  fni_uploader : string
}.

(** [animepipeline/post/tg.py]: the sender keeps the bot (part of the outside
    world here) and the channel it posts to. *)
Record TGChannelSender : Type := { channel_id : string }.

(** Modelled from the spec: [animepipeline.config.TelegramConfig] and the
    [telegram] and [loop] members of [ServerConfig] are not among the
    sources.  [TelegramConfig] has the members [Loop.__init__] and
    [TGChannelSender.__init__] read; [LoopConfig] has the one [Loop.start]
    reads.  Spec, section 6 (configuration surface): the publish-enabled
    flag and the polling interval in seconds. *)
Record TelegramConfig : Type := {
  tg_enable : bool;
  tg_local_mode : bool;
  tg_bot_token : string;
  tg_base_url : string;
  tg_base_file_url : string;
  tg_channel_id : string
}.

Record LoopConfig : Type := { interval : nat }.

(** [TGChannelSender.__init__] (tg.py, lines 18-29): the bot is built from
    the token (and the two URLs in local mode); the channel is kept. *)
Definition TGChannelSender_init (config : TelegramConfig) : TGChannelSender :=
  {| channel_id := tg_channel_id config |}.

(** What [Loop.pipeline] and [Loop.start] read of the [Loop] object and
    never change: [self.tg_channel_sender] and
    [self.server_config.loop.interval]. *)
Record Loop : Type := {
  tg_channel_sender : option TGChannelSender;
  loop_interval : nat
}.

(** [Loop.__init__] (loop.py, lines 56-72), for [server_config.telegram]
    and [server_config.loop]: the sender exists only when publishing is
    enabled. *)
Definition Loop_init (telegram : TelegramConfig) (loop : LoopConfig) : Loop :=
  {| tg_channel_sender :=
       if tg_enable telegram then Some (TGChannelSender_init telegram)
       else None;
     loop_interval := interval loop |}.

(** Responses of the FinalRip server, as [finalrip.py] reads them:
    [success], [data.url] / [data.encode_url], [error.message]; [data] and
    [error] may be absent. *)
Record OSSPresignedURLResponse : Type := {
  oss_success : bool;
  oss_data_url : option string;
  oss_error_message : option string
}.

Record NewTaskResponse : Type := {
  nt_success : bool;
  nt_error_message : option string
}.

Record GetTaskProgressResponse : Type := {
  gtp_success : bool;
  gtp_data_encode_url : option string;
  gtp_error_message : option string
}.

Record HttpResponse : Type := {
  status_code : Z;
  text : string;
  content : string
}.

(** ** Events

    Everything a run does to the outside, in the order it does it. *)
Inductive event : Type :=
  (* QBittorrentManager *)
  | BtCheckTorrentExist (torrent_hash : string)
  | BtAddTorrent (torrent_hash torrent_url : string)
  | BtCheckDownloadComplete (torrent_hash : string)
  | BtGetDownloadedPath (torrent_hash : string)
  (* FinalRipClient, requests to the server *)
  | FrCheckTaskExist (video_key : string)
  | FrStartTask (video_key encode_param script : string)
  | FrCheckTaskCompleted (video_key : string)
  | FrGetOssPresignedUrl (video_key : string)
  | FrNewTask (video_key : string)
  | FrGetTaskProgress (video_key : string)
  | FrClientGet (url : string)
  | HttpxPut (url : string) (file : string) (content_type : string)
  (* the bot of TGChannelSender *)
  | BotSendVideo (chat_id filename caption : string)
  (* local filesystem and media inspection *)
  | FsExists (path : string)
  | FsRead (path : string)
  | FsWrite (path : string)
  | FsRename (src dst : string)
  | GenFileName (info : FileNameInfo)
  (* task-status store writes *)
  | StoreAdd (task_id : string) (status : TaskStatus.t)
  | StoreUpdate (task_id : string) (status : TaskStatus.t)
  (* the driver *)
  | RefreshConfig
  | ParseNyaa (cfg : NyaaConfig)
  | SubmitTask (task_id : string) (task_info : TaskInfo.t)
  (* waiting and console output *)
  | Sleep (seconds : nat)
  | RetryWait
  | Print (msg : string).

(** A call of the acquisition client. *)
Definition is_bt_call (e : event) : bool :=
  match e with
  | BtCheckTorrentExist _ | BtAddTorrent _ _
  | BtCheckDownloadComplete _ | BtGetDownloadedPath _ => true
  | _ => false
  end.

(** A request of the transcode client (any network operation of it). *)
Definition is_finalrip_call (e : event) : bool :=
  match e with
  | FrCheckTaskExist _ | FrStartTask _ _ _ | FrCheckTaskCompleted _
  | FrGetOssPresignedUrl _ | FrNewTask _ | FrGetTaskProgress _
  | FrClientGet _ | HttpxPut _ _ _ => true
  | _ => false
  end.

(** A call of the publish client's bot. *)
Definition is_tg_call (e : event) : bool :=
  match e with BotSendVideo _ _ _ => true | _ => false end.

(** A write to the task-status store, with the record written. *)
Definition store_write (e : event) : option (string * TaskStatus.t) :=
  match e with
  | StoreAdd i st | StoreUpdate i st => Some (i, st)
  | _ => None
  end.

Definition is_store_write (e : event) : bool :=
  match store_write e with Some _ => true | None => false end.

(** ** The outside world *)

(** Modelled from the spec: the collaborators of [loop.py], [tg.py] and
    [finalrip.py] whose code is not among the sources.  Each is an
    operation on an abstract [World] that answers with a value or an
    exception and a new world; nothing more is assumed of any of them.

    - [animepipeline.bt.QBittorrentManager] is absent.  Spec, section 6
      (acquisition client): [exists(identity)],
      [start(identity, source_link)], [isComplete(identity)],
      [resolveLocalPath(identity)]; the method names are the ones
      [Loop.pipeline] calls.
    - [FinalRipClient.check_task_exist], [check_task_completed] and the
      keyword form of [start_task] are absent from finalrip.py.  Spec,
      section 6 (transcode client): [exists(key)],
      [start(key, params, script)], [isComplete(key)]; the names and the
      arguments are those of the calls in loop.py (lines 142-152) and in
      tests/test_encode.py.
    - [animepipeline.mediainfo.gen_file_name], [animepipeline.rss.parse_nyaa]
      and [RSSConfig.refresh_config] are absent.  Spec, section 6: the
      naming helper, the discovery feed and the reload of the
      configuration.
    - [task_translation] is the value of [task_info.translation], a member
      of the task that loop.py reads (line 187, the caption built from the
      task's metadata) and no class under src/ declares.
    - The requests behind finalrip.py, the bot, the filesystem and the stop
      event belong to libraries; [VIDEO_EXTENSIONS] (from
      [animepipeline.util.video]) and [mimetypes.guess_type] are constants
      of the environment. *)
Record Env (World : Type) : Type := {
  (* animepipeline.bt.QBittorrentManager *)
  bt_check_torrent_exist : string → World → result bool * World;
  bt_add_torrent : string → string → World → result unit * World;
  bt_check_download_complete : string → World → result bool * World;
  bt_get_downloaded_path : string → World → result Path.t * World;
  (* animepipeline.encode.FinalRipClient, methods used by the loop *)
  fr_check_task_exist : string → World → result bool * World;
  fr_start_task : string → string → string → World → result unit * World;
  fr_check_task_completed : string → World → result bool * World;
  (* the HTTP requests behind finalrip.py *)
  http_get_oss_presigned :
    string → World → result OSSPresignedURLResponse * World;
  http_post_new_task : string → World → result NewTaskResponse * World;
  http_get_task_progress :
    string → World → result GetTaskProgressResponse * World;
  http_client_get : string → World → result HttpResponse * World;
  httpx_put : string → string → string → World → result HttpResponse * World;
  (* telegram.Bot.send_video *)
  bot_send_video :
    string → string → string → string → World → result unit * World;
  (* filesystem *)
  fs_exists : string → World → bool * World;
  fs_read : string → World → result string * World;
  fs_write : string → string → World → result unit * World;
  fs_rename : string → string → World → result unit * World;
  (* animepipeline.mediainfo.gen_file_name *)
  gen_file_name : FileNameInfo → World → result string * World;
  (* task_info.translation *)
  task_translation : TaskInfo.t → value;
  (* the driver's collaborators *)
  stop_event_is_set : World → bool;
  refresh_config : RSSConfig → World → result RSSConfig * World;
  parse_nyaa : NyaaConfig → World → result (list TorrentInfo.t) * World;
  (* constants *)
  VIDEO_EXTENSIONS : list string;
  mimetypes_guess_type : string → option string
}.

Arguments bt_check_torrent_exist {World} _ _ _.
Arguments bt_add_torrent {World} _ _ _ _.
Arguments bt_check_download_complete {World} _ _ _.
Arguments bt_get_downloaded_path {World} _ _ _.
Arguments fr_check_task_exist {World} _ _ _.
Arguments fr_start_task {World} _ _ _ _ _.
Arguments fr_check_task_completed {World} _ _ _.
Arguments http_get_oss_presigned {World} _ _ _.
Arguments http_post_new_task {World} _ _ _.
Arguments http_get_task_progress {World} _ _ _.
Arguments http_client_get {World} _ _ _.
Arguments httpx_put {World} _ _ _ _ _.
Arguments bot_send_video {World} _ _ _ _ _ _.
Arguments fs_exists {World} _ _ _.
Arguments fs_read {World} _ _ _.
Arguments fs_write {World} _ _ _ _.
Arguments fs_rename {World} _ _ _ _.
Arguments gen_file_name {World} _ _ _.
Arguments task_translation {World} _ _.
Arguments stop_event_is_set {World} _ _.
Arguments refresh_config {World} _ _ _.
Arguments parse_nyaa {World} _ _ _.
Arguments VIDEO_EXTENSIONS {World} _.
Arguments mimetypes_guess_type {World} _ _.

(** ** Program state and the monad of programs *)

Record state (World : Type) : Type := mkState {
  json_store : gmap string TaskStatus.t;   (* the durable status records *)
  rss_config : RSSConfig;                  (* [self.rss_config] *)
  world : World;
  trace : list event                       (* oldest event first *)
}.
Arguments mkState {World} _ _ _ _.
Arguments json_store {World} _.
Arguments rss_config {World} _.
Arguments world {World} _.
Arguments trace {World} _.

Definition M (World A : Type) : Type := state World → outcome A * state World.

Section Monad.
Context {World : Type}.
Local Abbreviation M := (M World).
Local Abbreviation state := (state World).

Definition ret {A} (a : A) : M A := fun s => (Return a, s).

Definition bind {A B} (m : M A) (k : A → M B) : M B :=
  fun s =>
    match m s with
    | (Return a, s') => k a s'
    | (Raise e, s') => (Raise e, s')
    | (Pending, s') => (Pending, s')
    end.

(** [raise e] *)
Definition raise {A} (e : exn) : M A := fun s => (Raise e, s).

(** the fuel of a polling loop is used up *)
Definition pending {A} : M A := fun s => (Pending, s).

(** [try: m  except Exception as e: h e] *)
Definition try_except {A} (m : M A) (h : exn → M A) : M A :=
  fun s =>
    match m s with
    | (Raise e, s') => h e s'
    | r => r
    end.

(** append one event to the trace *)
Definition emit (e : event) : M unit :=
  fun s => (Return tt,
            mkState (json_store s) (rss_config s) (world s) (trace s ++ [e])).

(** a call of a collaborator: the event is recorded, the world answers *)
Definition call {A} (e : event) (op : World → result A * World) : M A :=
  fun s =>
    let '(r, w) := op (world s) in
    let s' := mkState (json_store s) (rss_config s) w (trace s ++ [e]) in
    match r with
    | Ok a => (Return a, s')
    | Err x => (Raise x, s')
    end.

(** a query that cannot fail *)
Definition query {A} (e : event) (op : World → A * World) : M A :=
  call e (fun w => let '(a, w') := op w in (Ok a, w')).

(** [assert b] *)
Definition assert (b : bool) : M unit :=
  if b then ret tt else raise AssertionError.

(** [await asyncio.sleep(n)] *)
Definition sleep (n : nat) : M unit := emit (Sleep n).

(** [print(msg)] *)
Definition print (msg : string) : M unit := emit (Print msg).

End Monad.

Declare Scope prog_scope.
Delimit Scope prog_scope with prog.
Notation "x ← y ; z" := (bind y (fun x => z))
  (at level 20, y at level 100, z at level 200, only parsing) : prog_scope.
Notation "x ;; z" := (bind x (fun _ => z))
  (at level 100, z at level 200, only parsing, right associativity) : prog_scope.

Section Program.
Context {World : Type} (env : Env World).
Local Abbreviation M := (M World).
Local Abbreviation state := (state World).
Local Open Scope prog_scope.

(** [while not cond(): body()], at most [fuel] evaluations of [cond] *)
Fixpoint while_not (fuel : nat) (cond : M bool) (body : M unit) : M unit :=
  match fuel with
  | O => pending
  | S fuel' =>
      b ← cond;
      if b then ret tt else (body ;; while_not fuel' cond body)
  end.

(** *** The task-status store

    Modelled from the spec: [animepipeline.store.AsyncJsonStore] is not
    among the sources.  Section 4.1: [exists], [create] (fails with
    [AlreadyExists] on a present key), [get] (fails with [NotFound]),
    [update] (replaces the whole record, fails with [NotFound]); the method
    names are the ones [Loop.pipeline] calls. *)
Definition check_task_exist (task_id : string) : M bool :=
  fun s => (Return (bool_decide (is_Some (json_store s !! task_id))), s).

Definition add_task (task_id : string) (status : TaskStatus.t) : M unit :=
  fun s =>
    match json_store s !! task_id with
    | Some _ => (Raise (AlreadyExists task_id), s)
    | None =>
        (Return tt,
         mkState (<[task_id := status]> (json_store s)) (rss_config s)
                 (world s) (trace s ++ [StoreAdd task_id status]))
    end.

Definition get_task (task_id : string) : M TaskStatus.t :=
  fun s =>
    match json_store s !! task_id with
    | Some st => (Return st, s)
    | None => (Raise (NotFound task_id), s)
    end.

Definition update_task (task_id : string) (status : TaskStatus.t) : M unit :=
  fun s =>
    match json_store s !! task_id with
    | Some _ =>
        (Return tt,
         mkState (<[task_id := status]> (json_store s)) (rss_config s)
                 (world s) (trace s ++ [StoreUpdate task_id status]))
    | None => (Raise (NotFound task_id), s)
    end.

End Program.

(** ** The stage clients whose code is among the sources *)

Section Clients.
Context {World : Type} (env : Env World).
Local Abbreviation M := (M World).
Local Open Scope prog_scope.

(** [x.message] / [x.url] on an optional sub-object: [None] has no
    attributes. *)
Definition attr_of_optional {A} (attr : string) (o : option A) : M A :=
  match o with
  | Some a => ret a
  | None =>
      raise (AttributeError
               ("'NoneType' object has no attribute '" +:+ attr +:+ "'"))
  end.

(** *** [animepipeline/encode/finalrip.py] *)

(** [FinalRipClient.get_oss_presigned_url]: the request; a failure is
    printed and raised again. *)
Definition get_oss_presigned_url (video_key : string)
  : M OSSPresignedURLResponse :=
  try_except
    (call (FrGetOssPresignedUrl video_key) (http_get_oss_presigned env video_key))
    (fun e => print ("Error getting presigned URL: " +:+ exn_str e) ;; raise e).

(** [FinalRipClient.new_task] *)
Definition new_task (video_key : string) : M NewTaskResponse :=
  try_except
    (call (FrNewTask video_key) (http_post_new_task env video_key))
    (fun e => print ("Error creating task: " +:+ exn_str e) ;; raise e).

(** [FinalRipClient.get_task_progress] *)
Definition get_task_progress (video_key : string) : M GetTaskProgressResponse :=
  try_except
    (call (FrGetTaskProgress video_key) (http_get_task_progress env video_key))
    (fun e => print ("Error getting task progress: " +:+ exn_str e) ;; raise e).

(** [mimetypes.guess_type(video_path)[0] or "application/octet-stream"] *)
Definition content_type_of (video_path : string) : string :=
  match mimetypes_guess_type env video_path with
  | Some ty =>
      if String.eqb ty EmptyString then "application/octet-stream" else ty
  | None => "application/octet-stream"
  end.

(** [FinalRipClient.upload_and_new_task] (finalrip.py, lines 68-101).
    [video_path] is a [Path], as at both calls among the sources
    (loop.py, line 139; tests/test_encode.py, line 27), so the text in the
    message is [str] of that path. *)
Definition upload_and_new_task (video_path : Path.t) : M unit :=
  let path := Path.to_string video_path in
  found ← query (FsExists path) (fs_exists env path);
  if negb found then raise (FileNotFoundError ("File not found: " +:+ path))
  else if negb (bool_decide (Path.suffix video_path ∈ VIDEO_EXTENSIONS env))
  then raise (ValueError ("Only support these video extensions: "
                          +:+ Path.join ", " (VIDEO_EXTENSIONS env)))
  else
    (* gen oss presigned url *)
    let video_key := Path.name video_path in
    oss_presigned_url_response ← get_oss_presigned_url video_key;
    if negb (oss_success oss_presigned_url_response)
    then (msg ← attr_of_optional "message"
                  (oss_error_message oss_presigned_url_response);
          raise (ValueError ("Error getting presigned URL: " +:+ msg)))
    else
      let content_type := content_type_of path in
      (* upload file *)
      call (FsRead path) (fs_read env path) ;;
      url ← attr_of_optional "url" (oss_data_url oss_presigned_url_response);
      response ← call (HttpxPut url path content_type)
                      (httpx_put env url path content_type);
      if negb (status_code response =? 200)
      then raise (IOError ("Error uploading file: " +:+ text response))
      else
        (* new task *)
        new_task_response ← new_task video_key;
        if negb (nt_success new_task_response)
        then (msg ← attr_of_optional "message"
                      (nt_error_message new_task_response);
              raise (ValueError ("Error creating task: " +:+ msg)))
        else ret tt.

(** [FinalRipClient.download_completed_task] (finalrip.py, lines 103-123) *)
Definition download_completed_task (video_key : string) (save_path : Path.t)
  : M unit :=
  get_task_progress_response ← get_task_progress video_key;
  if negb (gtp_success get_task_progress_response)
  then (msg ← attr_of_optional "message"
                (gtp_error_message get_task_progress_response);
        raise (ValueError ("Error getting task progress: " +:+ msg)))
  else
    encode_url ← attr_of_optional "encode_url"
                   (gtp_data_encode_url get_task_progress_response);
    if String.eqb encode_url EmptyString then raise TaskNotCompletedError
    else
      response ← call (FrClientGet encode_url) (http_client_get env encode_url);
      if negb (status_code response =? 200)
      then raise (IOError ("Error downloading file: " +:+ text response))
      else
        let path := Path.to_string save_path in
        call (FsWrite path) (fs_write env path (content response)).

(** *** [animepipeline/post/tg.py] *)

(** tenacity's [@retry(wait=wait_random(min=3, max=5), stop=...)]: the body is
    run again after every exception, with a random wait in between; when the
    attempts are used up the last exception is wrapped into [RetryError].
    [more] is the number of attempts left after the current one. *)
Fixpoint retrying {A} (more : nat) (body : M A) : M A :=
  try_except body
    (fun e =>
       match more with
       | O => raise (RetryError e)
       | S more' => emit RetryWait ;; retrying more' body
       end).

(** [stop=stop_after_attempt(10)] *)
Definition stop_after_attempt : nat := 10.

(** The body of [TGChannelSender.send_video] (tg.py, lines 39-63): one
    attempt.  [video_path] is a [Path], as at the call in loop.py (line
    185). *)
Definition send_video_once (self : TGChannelSender) (video_path : Path.t)
    (caption : option string) : M unit :=
  let path := Path.to_string video_path in
  let video_name := Path.name video_path in
  found ← query (FsExists path) (fs_exists env path);
  if negb found
  then raise (FileNotFoundError ("Video file not found: " +:+ path))
  else
    let caption := default video_name caption in
    video_file ← call (FsRead path) (fs_read env path);
    try_except
      (call (BotSendVideo (channel_id self) video_name caption)
            (bot_send_video env (channel_id self) video_file video_name caption))
      (fun e =>
         if is_network_error e
         then (print ("Network error: " +:+ exn_str e +:+ ", video path: "
                      +:+ path +:+ ", video_caption: " +:+ caption
                      +:+ ", retrying...") ;;
               raise e)
         else print ("Unknown Error sending video: " +:+ exn_str e
                     +:+ ", video path: " +:+ path +:+ ", video_caption: "
                     +:+ caption)).

(** [TGChannelSender.send_video], with its decorator. *)
Definition send_video (self : TGChannelSender) (video_path : Path.t)
    (caption : option string) : M unit :=
  retrying (stop_after_attempt - 1) (send_video_once self video_path caption).

End Clients.

(** ** [animepipeline/loop.py] *)

(** [build_task_info]: the profile names of the feed are resolved in the RSS
    configuration; an unknown name raises [ValueError]. *)
Definition build_task_info (torrent_info : TorrentInfo.t)
    (nyaa_config : NyaaConfig) (rss_config : RSSConfig) : result TaskInfo.t :=
  match scripts rss_config !! nyaa_script nyaa_config with
  | None => Err (ValueError ("script not found: " +:+ nyaa_script nyaa_config))
  | Some script =>
      match params rss_config !! nyaa_param nyaa_config with
      | None => Err (ValueError ("param not found: " +:+ nyaa_param nyaa_config))
      | Some param =>
          Ok (TaskInfo.mk
                (TorrentInfo.name torrent_info)
                (TorrentInfo.episode torrent_info)
                (TorrentInfo.title torrent_info)
                (TorrentInfo.link torrent_info)
                (TorrentInfo.hash torrent_info)
                (TorrentInfo.pub_date torrent_info)
                (TorrentInfo.size torrent_info)
                (nyaa_uploader nyaa_config)
                script
                param)
      end
  end.

Section Loop.
Context {World : Type} (env : Env World) (self : Loop).
Local Abbreviation M := (M World).
Local Open Scope prog_scope.

(** [assert x is not None], giving the value *)
Definition assert_is_not_none {A} (o : option A) : M A :=
  match o with
  | Some a => ret a
  | None => raise AssertionError
  end.

(** *** Acquisition stage (loop.py, lines 110-126) *)

(** The client part of the stage: the torrent is added until the client
    knows it, the download is polled until complete, the path is resolved. *)
Definition bt_download (fuel : nat) (task_info : TaskInfo.t) : M Path.t :=
  let h := TaskInfo.hash task_info in
  while_not fuel
    (call (BtCheckTorrentExist h) (bt_check_torrent_exist env h))
    (call (BtAddTorrent h (TaskInfo.link task_info))
          (bt_add_torrent env h (TaskInfo.link task_info)) ;;
     sleep 10) ;;
  while_not fuel
    (call (BtCheckDownloadComplete h) (bt_check_download_complete env h))
    (sleep 10) ;;
  call (BtGetDownloadedPath h) (bt_get_downloaded_path env h).

Definition bt_stage (fuel : nat) (task_info : TaskInfo.t)
    (task_status : TaskStatus.t) : M TaskStatus.t :=
  match TaskStatus.bt_downloaded_path task_status with
  | None =>
      bt_downloaded_path ← bt_download fuel task_info;
      let task_status :=
        TaskStatus.set_bt_downloaded_path
          (Path.to_string bt_downloaded_path) task_status in
      update_task (TaskInfo.hash task_info) task_status ;;
      ret task_status
  | Some _ => ret task_status
  end.

(** *** Transcode stage (loop.py, lines 131-174) *)

(** The client part: upload and registration until the server knows the
    task, start, polling, download to a temporary file, renaming.
    [check_task_exist], [start_task] with its keywords and
    [check_task_completed], which finalrip.py does not define, are the
    operations [fr_check_task_exist], [fr_start_task] and
    [fr_check_task_completed] of [Env]. *)
Definition finalrip_encode (fuel : nat) (task_info : TaskInfo.t)
    (bt_downloaded_path : Path.t) : M Path.t :=
  let video_key := Path.name bt_downloaded_path in
  while_not fuel
    (call (FrCheckTaskExist video_key) (fr_check_task_exist env video_key))
    (try_except (upload_and_new_task env bt_downloaded_path)
                (fun e => raise e) ;;
     sleep 10) ;;
  try_except
    (call (FrStartTask video_key (TaskInfo.param task_info)
                       (TaskInfo.script task_info))
          (fr_start_task env video_key (TaskInfo.param task_info)
                         (TaskInfo.script task_info)))
    (fun e => raise e) ;;
  (* check task progress *)
  while_not fuel
    (call (FrCheckTaskCompleted video_key)
          (fr_check_task_completed env video_key))
    (sleep 10) ;;
  (* download temp file to bt_downloaded_path's parent directory *)
  let temp_saved_path :=
    Path.div (Path.parent bt_downloaded_path) (video_key +:+ "-encoded.mkv") in
  download_completed_task env video_key temp_saved_path ;;
  (* rename temp file *)
  let info := {| fni_path := temp_saved_path;
                 fni_episode := TaskInfo.episode task_info;
                 fni_name := TaskInfo.name task_info;
                 fni_uploader := TaskInfo.uploader task_info |} in
  gen_name ← call (GenFileName info) (gen_file_name env info);
  let finalrip_downloaded_path :=
    Path.div (Path.parent bt_downloaded_path) gen_name in
  call (FsRename (Path.to_string temp_saved_path)
                 (Path.to_string finalrip_downloaded_path))
       (fs_rename env (Path.to_string temp_saved_path)
                  (Path.to_string finalrip_downloaded_path)) ;;
  ret finalrip_downloaded_path.

(** [bt_path] is [task_status.bt_downloaded_path], asserted present just
    before. *)
Definition finalrip_stage (fuel : nat) (task_info : TaskInfo.t)
    (bt_path : string) (task_status : TaskStatus.t) : M TaskStatus.t :=
  match TaskStatus.finalrip_downloaded_path task_status with
  | None =>
      finalrip_downloaded_path ←
        finalrip_encode fuel task_info (Path.of_string bt_path);
      let task_status :=
        TaskStatus.set_finalrip_downloaded_path
          (Path.to_string finalrip_downloaded_path) task_status in
      update_task (TaskInfo.hash task_info) task_status ;;
      ret task_status
  | Some _ => ret task_status
  end.

(** *** Publish stage (loop.py, lines 179-191) *)

(** The caption
    [f"{task_info.translation} | EP {task_info.episode} | {path.name}"]. *)
Definition caption_of (task_info : TaskInfo.t) (finalrip_downloaded_path : Path.t)
  : string :=
  format (task_translation env task_info) +:+ " | EP "
  +:+ pretty (TaskInfo.episode task_info) +:+ " | "
  +:+ Path.name finalrip_downloaded_path.

(** Lines 185-191: the video is sent with the caption, then the flag is
    set and persisted. *)
Definition send_and_mark_uploaded (sender : TGChannelSender)
    (task_info : TaskInfo.t) (finalrip_downloaded_path : Path.t)
    (caption : string) (task_status : TaskStatus.t) : M TaskStatus.t :=
  send_video env sender finalrip_downloaded_path (Some caption) ;;
  let task_status := TaskStatus.set_tg_uploaded true task_status in
  update_task (TaskInfo.hash task_info) task_status ;;
  ret task_status.

(** [finalrip_path] is [task_status.finalrip_downloaded_path], asserted
    present just before. *)
Definition tg_stage (task_info : TaskInfo.t) (finalrip_path : string)
    (task_status : TaskStatus.t) : M TaskStatus.t :=
  if negb (TaskStatus.tg_uploaded task_status) then
    let finalrip_downloaded_path := Path.of_string finalrip_path in
    match tg_channel_sender self with
    | Some sender =>
        send_and_mark_uploaded sender task_info finalrip_downloaded_path
          (caption_of task_info finalrip_downloaded_path) task_status
    | None => ret task_status
    end
  else ret task_status.

(** *** [Loop.pipeline] (loop.py, lines 97-198)

    The calls of the logger change nothing the model keeps and are left
    out. *)

(** Lines 107-198: the three stages and the final write, for the status
    just loaded. *)
Definition run_stages (fuel : nat) (task_info : TaskInfo.t)
    (task_status : TaskStatus.t) : M unit :=
  (* check bt *)
  task_status ← bt_stage fuel task_info task_status;
  bt_path ← assert_is_not_none (TaskStatus.bt_downloaded_path task_status);
  (* check finalrip *)
  task_status ← finalrip_stage fuel task_info bt_path task_status;
  finalrip_path ←
    assert_is_not_none (TaskStatus.finalrip_downloaded_path task_status);
  (* check tg *)
  task_status ← tg_stage task_info finalrip_path task_status;
  assert (TaskStatus.tg_uploaded task_status) ;;
  (* Done! *)
  let task_status := TaskStatus.set_done true task_status in
  update_task (TaskInfo.hash task_info) task_status.

Definition pipeline (fuel : nat) (task_info : TaskInfo.t) : M unit :=
  let h := TaskInfo.hash task_info in
  (* init task status *)
  known ← check_task_exist h;
  (if negb known then add_task h TaskStatus.new else ret tt) ;;
  task_status ← get_task h;
  if TaskStatus.done task_status then ret tt
  else run_stages fuel task_info task_status.

(** *** [Loop.start] (loop.py, lines 80-95) *)

Fixpoint for_each {A} (l : list A) (f : A → M unit) : M unit :=
  match l with
  | [] => ret tt
  | x :: l' => f x ;; for_each l' f
  end.

(** [self.stop_event.is_set()] *)
Definition is_set : M bool :=
  fun s => (Return (stop_event_is_set env (world s)), s).

(** [self.rss_config.refresh_config()]: the configuration object is
    replaced by what is read back. *)
Definition do_refresh_config : M unit :=
  fun s =>
    let '(r, w) := refresh_config env (rss_config s) (world s) in
    let tr := trace s ++ [RefreshConfig] in
    match r with
    | Ok c => (Return tt, mkState (json_store s) c w tr)
    | Err e => (Raise e, mkState (json_store s) (rss_config s) w tr)
    end.

(** [self.rss_config] *)
Definition get_rss_config : M RSSConfig := fun s => (Return (rss_config s), s).

(** [await self.task_executor.submit_task(hash, self.pipeline, task_info)]:
    the submission is handed to the executor. *)
Definition submit_task (task_id : string) (task_info : TaskInfo.t) : M unit :=
  emit (SubmitTask task_id task_info).

(** Lines 88-93, the body of [for cfg in self.rss_config.nyaa]: the feed is
    parsed, a task is built for every item and submitted. *)
Definition discover_feed (cfg : NyaaConfig) : M unit :=
  torrent_info_list ← call (ParseNyaa cfg) (parse_nyaa env cfg);
  for_each torrent_info_list (fun torrent_info =>
    rc ← get_rss_config;
    match build_task_info torrent_info cfg rc with
    | Ok task_info => submit_task (TorrentInfo.hash torrent_info) task_info
    | Err e => raise e
    end).

(** One pass of the body of the [while] loop, up to the sleep: lines 86-93. *)
Definition discovery_tick : M unit :=
  (* refresh rss config *)
  do_refresh_config ;;
  rc ← get_rss_config;
  for_each (nyaa rc) discover_feed.

(** [Loop.start]; [fuel] bounds the number of ticks. *)
Fixpoint start (fuel : nat) : M unit :=
  match fuel with
  | O => pending
  | S fuel' =>
      stopped ← is_set;
      if stopped then ret tt
      else (discovery_tick ;;
            sleep (loop_interval self) ;;
            start fuel')
  end.

End Loop.

(** ** The task executor

    Modelled from the spec: [animepipeline.pool.AsyncTaskExecutor] is not
    among the sources.  Section 4.2: [submit(id, work)] starts [work] when no
    execution for [id] is running and is a no-op otherwise (the submission is
    dropped, not queued); an execution that ends, successfully or not, frees
    its identity.  The state is the list of the executions now running. *)
Module AsyncTaskExecutor.

Abbreviation t Work := (list (string * Work)).

Section Executor.
Context {Work : Type}.
Local Abbreviation t := (t Work).

Definition empty : t := [].

(** an execution for [task_id] is running *)
Definition is_running (task_id : string) (ex : t) : bool :=
  bool_decide (task_id ∈ ex.*1).

(** [submit(id, work)] *)
Definition submit_task (task_id : string) (work : Work) (ex : t) : t :=
  if is_running task_id ex then ex else ex ++ [(task_id, work)].

(** the execution of [task_id] ends *)
Definition finish (task_id : string) (ex : t) : t :=
  filter (fun p => p.1 ≠ task_id) ex.

(** how many executions of [task_id] are active *)
Definition active (task_id : string) (ex : t) : nat :=
  length (filter (fun p => p.1 = task_id) ex).

(** what can happen to the executor *)
Inductive step : t → t → Prop :=
  | step_submit task_id work ex : step ex (submit_task task_id work ex)
  | step_finish task_id ex : step ex (finish task_id ex).

Definition reachable (ex : t) : Prop := rtc step empty ex.

End Executor.
End AsyncTaskExecutor.

(** ** A scripted environment, for running the model on concrete inputs

    The world is the number of network failures the bot still has in store;
    after them the bot answers [bot_answer].  The downloader and the
    transcode server answer "present" and "complete" at once, and the server
    answers [start_answer] when a task is started; a file exists when it is
    listed in [existing_files]. *)
Module Scripted.

Record setup : Type := {
  existing_files : list string;
  bot_answer : result unit;
  start_answer : result unit;
  feed : string → list TorrentInfo.t;
  extensions : list string
}.

Definition bot (c : setup) (w : nat) : result unit * nat :=
  match w with
  | O => (bot_answer c, O)
  | S w' => (Err (NetworkError "timed out"), w')
  end.

Definition env (c : setup) : Env nat := {|
  bt_check_torrent_exist := fun _ w => (Ok true, w);
  bt_add_torrent := fun _ _ w => (Ok tt, w);
  bt_check_download_complete := fun _ w => (Ok true, w);
  bt_get_downloaded_path := fun h w =>
    (Ok (Path.of_string ("/data/" +:+ h +:+ ".mkv")), w);
  fr_check_task_exist := fun _ w => (Ok true, w);
  fr_start_task := fun _ _ _ w => (start_answer c, w);
  fr_check_task_completed := fun _ w => (Ok true, w);
  http_get_oss_presigned := fun k w =>
    (Ok {| oss_success := true;
           oss_data_url := Some ("https://oss.example/" +:+ k);
           oss_error_message := None |}, w);
  http_post_new_task := fun _ w =>
    (Ok {| nt_success := true; nt_error_message := None |}, w);
  http_get_task_progress := fun k w =>
    (Ok {| gtp_success := true;
           gtp_data_encode_url := Some ("https://oss.example/encoded/" +:+ k);
           gtp_error_message := None |}, w);
  http_client_get := fun _ w =>
    (Ok {| status_code := 200; text := EmptyString; content := "video" |},
     w);
  httpx_put := fun _ _ _ w =>
    (Ok {| status_code := 200; text := EmptyString;
           content := EmptyString |}, w);
  bot_send_video := fun _ _ _ _ w => bot c w;
  fs_exists := fun p w => (bool_decide (p ∈ existing_files c), w);
  fs_read := fun _ w => (Ok "video", w);
  fs_write := fun _ _ w => (Ok tt, w);
  fs_rename := fun _ _ w => (Ok tt, w);
  gen_file_name := fun i w =>
    (Ok ("[" +:+ fni_uploader i +:+ "] " +:+ fni_name i +:+ " - "
         +:+ pretty (fni_episode i) +:+ ".mkv"), w);
  task_translation := fun task_info => VStr (TaskInfo.name task_info);
  stop_event_is_set := fun _ => false;
  refresh_config := fun rc w => (Ok rc, w);
  parse_nyaa := fun cfg w => (Ok (feed c (nyaa_name cfg)), w);
  VIDEO_EXTENSIONS := extensions c;
  mimetypes_guess_type := fun _ => Some "video/x-matroska"
|}.

Definition no_config : RSSConfig :=
  {| scripts := ∅; params := ∅; nyaa := [] |}.

(** the state a process starts in, for a given store *)
Definition init (store : gmap string TaskStatus.t) (rc : RSSConfig) (w : nat)
  : state nat :=
  mkState store rc w [].

(** the [telegram] section, publishing enabled or not *)
Definition telegram (enable : bool) : TelegramConfig :=
  {| tg_enable := enable;
     tg_local_mode := false;
     tg_bot_token := "123456:token";
     tg_base_url := "https://api.telegram.org/bot";
     tg_base_file_url := "https://api.telegram.org/file/bot";
     tg_channel_id := "@channel" |}.

(** the loop as [Loop.__init__] builds it, polling every minute *)
Definition publishing : Loop := Loop_init (telegram true) {| interval := 60 |}.

Definition not_publishing : Loop :=
  Loop_init (telegram false) {| interval := 60 |}.

Definition item : TorrentInfo.t :=
  TorrentInfo.mk "Show" 1 "[Group] Show - 01 [1080p]"
                 "https://nyaa.example/abc123.torrent" "abc123" 1700000000
                 "1.2 GiB".

Definition task : TaskInfo.t :=
  TaskInfo.mk "Show" 1 "[Group] Show - 01 [1080p]"
              "https://nyaa.example/abc123.torrent" "abc123" 1700000000
              "1.2 GiB" "Group" "script.py" "--crf 18".

Definition plain : setup :=
  {| existing_files := ["/data/abc123.mkv"; "/data/[Group] Show - 1.mkv"];
     bot_answer := Ok tt;
     start_answer := Ok tt;
     feed := fun _ => [item];
     extensions := [".mkv"; ".mp4"] |}.

(** acquired and transcoded, not yet published *)
Definition transcoded : TaskStatus.t :=
  TaskStatus.mk (Some "/data/abc123.mkv") (Some "/data/[Group] Show - 1.mkv")
                false false.

(** acquired only *)
Definition acquired : TaskStatus.t :=
  TaskStatus.mk (Some "/data/abc123.mkv") None false false.

(** two feeds: the first names a script the configuration does not have *)
Definition bad_feed : NyaaConfig :=
  {| nyaa_name := "bad"; nyaa_script := "missing"; nyaa_param := "default";
     nyaa_uploader := "Group" |}.

Definition good_feed : NyaaConfig :=
  {| nyaa_name := "good"; nyaa_script := "default"; nyaa_param := "default";
     nyaa_uploader := "Group" |}.

Definition other_item : TorrentInfo.t :=
  TorrentInfo.mk "Other" 7 "[Group] Other - 07 [1080p]"
                 "https://nyaa.example/def456.torrent" "def456" 1700000500
                 "0.9 GiB".

Definition two_feeds : RSSConfig :=
  {| scripts := {["default" := "script.py"]};
     params := {["default" := "--crf 18"]};
     nyaa := [bad_feed; good_feed] |}.

Definition two_feeds_setup : setup :=
  {| existing_files := [];
     bot_answer := Ok tt;
     start_answer := Ok tt;
     feed := fun n => if String.eqb n "bad" then [item] else [other_item];
     extensions := [".mkv"; ".mp4"] |}.

(** the bot rejects the video for a reason that is not a network error *)
Definition rejecting : setup :=
  {| existing_files := ["/data/abc123.mkv"; "/data/[Group] Show - 1.mkv"];
     bot_answer :=
       Err (OtherError "Forbidden" "bot is not a member of the channel chat");
     start_answer := Ok tt;
     feed := fun _ => [item];
     extensions := [".mkv"; ".mp4"] |}.

(** the transcode server refuses to start the task *)
Definition refusing : setup :=
  {| existing_files := ["/data/abc123.mkv"];
     bot_answer := Ok tt;
     start_answer := Err (OtherError "HTTPStatusError" "500 Internal Server Error");
     feed := fun _ => [item];
     extensions := [".mkv"; ".mp4"] |}.

(** only MP4 files are accepted for upload *)
Definition mp4_only : setup :=
  {| existing_files := ["/data/abc123.mkv"];
     bot_answer := Ok tt;
     start_answer := Ok tt;
     feed := fun _ => [item];
     extensions := [".mp4"] |}.

(** a status record that is done *)
Definition finished : TaskStatus.t :=
  TaskStatus.mk (Some "/data/abc123.mkv") (Some "/data/[Group] Show - 1.mkv")
                true true.

End Scripted.

(** ** Reasoning about runs

    [replay evs store] is the store after the writes recorded in [evs];
    [since P s0 s] says that [s] is [s0] followed by events that all satisfy
    [P], the store having changed through the recorded writes only. *)
Section Properties.
Context {World : Type}.
Local Abbreviation M := (M World).
Local Abbreviation state := (state World).
Implicit Types (P Q : event → Prop) (s : state).

Definition replay (evs : list event) (store : gmap string TaskStatus.t)
  : gmap string TaskStatus.t :=
  foldl (fun m e => match store_write e with
                    | Some (i, st) => <[i := st]> m
                    | None => m
                    end) store evs.

Definition since P (s0 s : state) : Prop :=
  ∃ evs, trace s = trace s0 ++ evs
         ∧ json_store s = replay evs (json_store s0)
         ∧ Forall P evs.

(** every run of [m] adds only events that satisfy [P] *)
Definition emits P {A} (m : M A) : Prop := ∀ s, since P s (m s).2.

(** waiting: [asyncio.sleep] and the pause between two attempts *)
Definition is_wait (e : event) : bool :=
  match e with Sleep _ | RetryWait => true | _ => false end.

(** local work: filesystem, media inspection, console *)
Definition is_local (e : event) : bool :=
  match e with
  | FsExists _ | FsRead _ | FsWrite _ | FsRename _ _ | GenFileName _
  | Print _ => true
  | _ => false
  end.

(** every record that [e] writes to the store satisfies [R] *)
Definition writes_only (R : TaskStatus.t → Prop) (e : event) : Prop :=
  ∀ i st, store_write e = Some (i, st) → R st.

(** The checkpoint order of a status record (spec, section 3): a later
    field is set only when the earlier ones are. *)
Definition checkpoint_order (st : TaskStatus.t) : Prop :=
  (TaskStatus.done st = true → TaskStatus.tg_uploaded st = true)
  ∧ (TaskStatus.tg_uploaded st = true →
     is_Some (TaskStatus.finalrip_downloaded_path st))
  ∧ (is_Some (TaskStatus.finalrip_downloaded_path st) →
     is_Some (TaskStatus.bt_downloaded_path st)).

(** The order as section 8 of the spec words it: [done] implies [published]
    or publishing disabled. *)
Definition spec_checkpoint_order (self : Loop) (st : TaskStatus.t) : Prop :=
  (TaskStatus.done st = true →
   TaskStatus.tg_uploaded st = true ∨ tg_channel_sender self = None)
  ∧ (TaskStatus.tg_uploaded st = true →
     is_Some (TaskStatus.finalrip_downloaded_path st))
  ∧ (is_Some (TaskStatus.finalrip_downloaded_path st) →
     is_Some (TaskStatus.bt_downloaded_path st)).

#[global] Instance checkpoint_order_dec st : Decision (checkpoint_order st).
Proof. unfold checkpoint_order. apply _. Defined.

#[global] Instance TGChannelSender_eq_dec : EqDecision TGChannelSender.
Proof. solve_decision. Defined.

#[global] Instance spec_checkpoint_order_dec self st :
  Decision (spec_checkpoint_order self st).
Proof. unfold spec_checkpoint_order. apply _. Defined.

(** One checkpoint of the pipeline: the transition a stage makes on the
    status record when it succeeds. *)
Inductive advance : TaskStatus.t → TaskStatus.t → Prop :=
  | advance_acquired st p :
      TaskStatus.bt_downloaded_path st = None →
      advance st (TaskStatus.set_bt_downloaded_path p st)
  | advance_transcoded st p :
      is_Some (TaskStatus.bt_downloaded_path st) →
      TaskStatus.finalrip_downloaded_path st = None →
      advance st (TaskStatus.set_finalrip_downloaded_path p st)
  | advance_published st :
      is_Some (TaskStatus.finalrip_downloaded_path st) →
      TaskStatus.tg_uploaded st = false →
      advance st (TaskStatus.set_tg_uploaded true st)
  | advance_done st :
      is_Some (TaskStatus.bt_downloaded_path st) →
      is_Some (TaskStatus.finalrip_downloaded_path st) →
      TaskStatus.tg_uploaded st = true →
      advance st (TaskStatus.set_done true st).

(** the events of each stage's client part *)
Definition bt_event (e : event) : Prop := is_bt_call e || is_wait e = true.
Definition finalrip_event (e : event) : Prop :=
  is_finalrip_call e || is_local e || is_wait e = true.
Definition tg_event (e : event) : Prop :=
  is_tg_call e || is_local e || is_wait e = true.

(** how many times the bot was asked to send a video *)
Definition bot_calls (evs : list event) : nat :=
  length (filter (fun e => is_tg_call e = true) evs).


(** [m] leaves the RSS configuration alone *)
Definition keeps_config {A} (m : M A) : Prop :=
  ∀ s, rss_config (m s).2 = rss_config s.

End Properties.

(** ** [animepipeline/config/server.py]

    The configuration classes with the fields they declare.  A value of
    type [Union[str, int]] is a [value]; [download_path] is a directory
    path, [url] a URL kept as text. *)
Record DBConfig : Type := {
  db_type : string;
  db_host : string;
  db_port : Z;
  db_username : value;
  db_password : value;
  db_database : value;
  db_ssl : bool
}.

Record QBitTorrentConfig : Type := {
  qb_host : string;
  qb_port : Z;
  qb_username : value;
  qb_password : value;
  qb_download_path : Path.t
}.

Record FinalRipConfig : Type := {
  finalrip_url : string;
  finalrip_token : value
}.

Module ServerConfig.
Record t : Type := mk {
  db : DBConfig;
  qbittorrent : QBitTorrentConfig;
  finalrip : FinalRipConfig;
  config_path : option Path.t
}.

(** [config.config_path = p] *)
Definition set_config_path (p : Path.t) (c : t) : t :=
  mk (db c) (qbittorrent c) (finalrip c) (Some p).
End ServerConfig.

Section Config.
Context {World : Type} (env : Env World).
Local Abbreviation M := (M World).
Local Open Scope prog_scope.

(** What the libraries do is taken as given: [yaml.safe_load] on the opened
    file (a value or the exception it raises while reading and parsing),
    the class tests of the two [except] clauses, and the pydantic
    constructor of the class applied to the parsed data, which may look at
    the filesystem to check [download_path]. *)
Context {YamlData : Type}.
Variable yaml_safe_load : string → result YamlData.
Variable is_yaml_error : exn → bool.
Variable is_validation_error : exn → bool.
Variable construct : YamlData → World → result ServerConfig.t * World.

(** the constructor call [cls( ** config_data)] *)
Definition construct_config (config_data : YamlData) : M ServerConfig.t :=
  fun s =>
    let '(r, w) := construct config_data (world s) in
    let s' := mkState (json_store s) (rss_config s) w (trace s) in
    match r with
    | Ok c => (Return c, s')
    | Err e => (Raise e, s')
    end.

(** [ServerConfig.from_yaml] (server.py, lines 39-61) *)
Definition from_yaml (path : string) : M ServerConfig.t :=
  found ← query (FsExists path) (fs_exists env path);
  if negb found
  then raise (FileNotFoundError ("Config file " +:+ path +:+ " not found"))
  else
    file ← call (FsRead path) (fs_read env path);
    config_data ←
      match yaml_safe_load file with
      | Ok config_data => ret config_data
      | Err e =>
          if is_yaml_error e
          then raise (ValueError ("Error loading YAML: " +:+ exn_str e))
          else if is_validation_error e
          then raise (ValueError ("Config validation error: " +:+ exn_str e))
          else raise (ValueError ("Error loading config: " +:+ exn_str e))
      end;
    config ← construct_config config_data;
    ret (ServerConfig.set_config_path (Path.of_string path) config).

End Config.

(** ** [tests/test_encode.py] *)

Section Tests.
Context {World : Type} (env : Env World).
Local Abbreviation M := (M World).
Local Open Scope prog_scope.

(** [video_key = "test_144p.mp4"] *)
Definition video_key : string := "test_144p.mp4".

(** [test_new_task]: the upload is tried, an exception is printed. *)
Definition test_new_task (asset : Path.t) : M unit :=
  try_except (upload_and_new_task env asset)
             (fun e => print (exn_str e)).

(** [test_download_completed_task]: the download is tried until it
    succeeds, with five seconds after every failure; [fuel] bounds the
    number of tries. *)
Fixpoint test_download_completed_task (fuel : nat) (save_path : Path.t)
  : M unit :=
  match fuel with
  | O => pending
  | S fuel' =>
      finished ←
        try_except
          (download_completed_task env video_key save_path ;; ret true)
          (fun e =>
             match e with
             | TaskNotCompletedError =>
                 print "Task not completed yet" ;; sleep 5 ;; ret false
             | _ => print (exn_str e) ;; sleep 5 ;; ret false
             end);
      if finished then ret tt
      else test_download_completed_task fuel' save_path
  end.

End Tests.

(** ** More properties of runs *)

(** the [video_key] a request to the transcode server names *)
Definition video_key_of (e : event) : option string :=
  match e with
  | FrCheckTaskExist k | FrStartTask k _ _ | FrCheckTaskCompleted k
  | FrGetOssPresignedUrl k | FrNewTask k | FrGetTaskProgress k => Some k
  | _ => None
  end.

(** an event of the driver: configuration, feeds, submissions, sleeping *)
Definition is_driver_event (e : event) : bool :=
  match e with
  | RefreshConfig | ParseNyaa _ | SubmitTask _ _ | Sleep _ => true
  | _ => false
  end.

(** a submission names the hash of the task it carries *)
Definition submission_keyed (e : event) : Prop :=
  match e with
  | SubmitTask task_id task_info => TaskInfo.hash task_info = task_id
  | _ => True
  end.

(** The task [build_task_info] makes from an item, the feed's uploader and
    the resolved script and parameter text. *)
Definition task_info_of (torrent_info : TorrentInfo.t) (uploader script
    param : string) : TaskInfo.t :=
  TaskInfo.mk (TorrentInfo.name torrent_info)
              (TorrentInfo.episode torrent_info)
              (TorrentInfo.title torrent_info)
              (TorrentInfo.link torrent_info)
              (TorrentInfo.hash torrent_info)
              (TorrentInfo.pub_date torrent_info)
              (TorrentInfo.size torrent_info)
              uploader script param.

(** [n] rounds of a polling loop, each adding the events [round] *)
Definition rounds (n : nat) (round : list event) : list event :=
  mjoin (replicate n round).

(** how many times the run waited between two attempts *)
Definition is_retry_wait (e : event) : bool :=
  match e with RetryWait => true | _ => false end.

Definition retry_waits (evs : list event) : nat :=
  length (filter (fun e => is_retry_wait e = true) evs).

(** how many times the run looked for a file *)
Definition is_lookup (e : event) : bool :=
  match e with FsExists _ => true | _ => false end.

Definition lookups (evs : list event) : nat :=
  length (filter (fun e => is_lookup e = true) evs).

(** what a feed submits under configuration [rc]: one submission for every
    item whose task can be built *)
Definition submissions_of (rc : RSSConfig) (cfg : NyaaConfig)
    (items : list TorrentInfo.t) : list event :=
  omap (fun torrent_info =>
          match build_task_info torrent_info cfg rc with
          | Ok task_info =>
              Some (SubmitTask (TorrentInfo.hash torrent_info) task_info)
          | Err _ => None
          end) items.

(** the feed's profile is configured *)
Definition profile_known (rc : RSSConfig) (cfg : NyaaConfig) : Prop :=
  is_Some (scripts rc !! nyaa_script cfg)
  ∧ is_Some (params rc !! nyaa_param cfg).

(** every record that [e] writes to the store is written under [h] *)
Definition writes_key (h : string) (e : event) : Prop :=
  ∀ i st, store_write e = Some (i, st) → i = h.

(** ** A second scripted environment

    The world counts what is still pending (network failures of the bot,
    negative answers of the downloader) and the refreshes of the
    configuration; the answers of the transcode server are fixed by the
    setup. *)
Module Served.

Record world : Type := { pending : nat; refreshes : nat }.

Record setup : Type := {
  files : list string;
  exts : list string;
  presigned : result OSSPresignedURLResponse;
  put : result HttpResponse;
  created : result NewTaskResponse;
  progress : result GetTaskProgressResponse;
  fetched : result HttpResponse;
  bot_down : bool;
  feed : string → list TorrentInfo.t;
  stop_after : nat
}.

Definition less (w : world) : world :=
  {| pending := Nat.pred (pending w); refreshes := refreshes w |}.

Definition bot (c : setup) (w : world) : result unit * world :=
  if bot_down c then (Err (NetworkError "timed out"), w)
  else match pending w with
       | O => (Ok tt, w)
       | S _ => (Err (NetworkError "timed out"), less w)
       end.

Definition env (c : setup) : Env world := {|
  bt_check_torrent_exist := fun _ w => (Ok (Nat.eqb (pending w) 0), w);
  bt_add_torrent := fun _ _ w => (Ok tt, less w);
  bt_check_download_complete := fun _ w => (Ok true, w);
  bt_get_downloaded_path := fun h w =>
    (Ok (Path.of_string ("/data/" +:+ h +:+ ".mkv")), w);
  fr_check_task_exist := fun _ w => (Ok true, w);
  fr_start_task := fun _ _ _ w => (Ok tt, w);
  fr_check_task_completed := fun _ w => (Ok true, w);
  http_get_oss_presigned := fun _ w => (presigned c, w);
  http_post_new_task := fun _ w => (created c, w);
  http_get_task_progress := fun _ w => (progress c, w);
  http_client_get := fun _ w => (fetched c, w);
  httpx_put := fun _ _ _ w => (put c, w);
  bot_send_video := fun _ _ _ _ w => bot c w;
  fs_exists := fun p w => (bool_decide (p ∈ files c), w);
  fs_read := fun _ w => (Ok "bytes", w);
  fs_write := fun _ _ w => (Ok tt, w);
  fs_rename := fun _ _ w => (Ok tt, w);
  gen_file_name := fun i w => (Ok (fni_name i +:+ ".mkv"), w);
  task_translation := fun task_info => VStr (TaskInfo.name task_info);
  stop_event_is_set := fun w => Nat.leb (stop_after c) (refreshes w);
  refresh_config := fun rc w =>
    (Ok rc, {| pending := pending w; refreshes := S (refreshes w) |});
  parse_nyaa := fun cfg w => (Ok (feed c (nyaa_name cfg)), w);
  VIDEO_EXTENSIONS := exts c;
  mimetypes_guess_type := fun _ => Some "video/mp4"
|}.

Definition ok_response : HttpResponse :=
  {| status_code := 200; text := "OK"; content := "encoded" |}.

(** everything is granted *)
Definition granting : setup :=
  {| files := ["/assets/test_144p.mp4"; "/etc/animepipeline/server.yml"];
     exts := [".mp4"; ".mkv"];
     presigned := Ok {| oss_success := true;
                        oss_data_url := Some "https://oss.example/put";
                        oss_error_message := None |};
     put := Ok ok_response;
     created := Ok {| nt_success := true; nt_error_message := None |};
     progress := Ok {| gtp_success := true;
                       gtp_data_encode_url := Some "https://oss.example/get";
                       gtp_error_message := None |};
     fetched := Ok ok_response;
     bot_down := false;
     feed := fun _ => [Scripted.item; Scripted.other_item];
     stop_after := 1 |}.

(** the presigned URL is refused *)
Definition no_url : setup :=
  {| files := files granting; exts := exts granting;
     presigned := Ok {| oss_success := false; oss_data_url := None;
                        oss_error_message := Some "quota exceeded" |};
     put := put granting; created := created granting;
     progress := progress granting; fetched := fetched granting;
     bot_down := false; feed := feed granting; stop_after := 1 |}.

(** the PUT is answered with 403 *)
Definition forbidden_put : setup :=
  {| files := files granting; exts := exts granting;
     presigned := presigned granting;
     put := Ok {| status_code := 403; text := "Forbidden";
                  content := EmptyString |};
     created := created granting;
     progress := progress granting; fetched := fetched granting;
     bot_down := false; feed := feed granting; stop_after := 1 |}.

(** the task is known but not encoded yet *)
Definition encoding : setup :=
  {| files := files granting; exts := exts granting;
     presigned := presigned granting; put := put granting;
     created := created granting;
     progress := Ok {| gtp_success := true;
                       gtp_data_encode_url := Some EmptyString;
                       gtp_error_message := None |};
     fetched := fetched granting;
     bot_down := false; feed := feed granting; stop_after := 1 |}.

(** the network to the bot is down *)
Definition offline : setup :=
  {| files := files granting; exts := exts granting;
     presigned := presigned granting; put := put granting;
     created := created granting;
     progress := progress granting; fetched := fetched granting;
     bot_down := true; feed := feed granting; stop_after := 1 |}.

(** one feed, with a configured profile *)
Definition one_feed : RSSConfig :=
  {| scripts := {["default" := "script.py"]};
     params := {["default" := "--crf 18"]};
     nyaa := [Scripted.good_feed] |}.

Definition init (store : gmap string TaskStatus.t) (rc : RSSConfig)
    (n : nat) : state world :=
  mkState store rc {| pending := n; refreshes := 0 |} [].

(** a published record that is not done yet *)
Definition published : TaskStatus.t :=
  TaskStatus.mk (Some "/data/abc123.mkv") (Some "/data/Show.mkv") true false.

(** a server configuration, and a loader that takes the text for parsed
    unless it is empty *)
Definition config : ServerConfig.t :=
  {| ServerConfig.db :=
       {| db_type := "mongodb"; db_host := "localhost"; db_port := 27017;
          db_username := VStr "root"; db_password := VInt 123456;
          db_database := VStr "anime"; db_ssl := false |};
     ServerConfig.qbittorrent :=
       {| qb_host := "localhost"; qb_port := 8080;
          qb_username := VStr "admin"; qb_password := VStr "adminadmin";
          qb_download_path := Path.of_string "/data" |};
     ServerConfig.finalrip :=
       {| finalrip_url := "http://localhost:8848"; finalrip_token := VStr "t" |};
     ServerConfig.config_path := None |}.

Definition loader (file : string) : result string :=
  if String.eqb file EmptyString
  then Err (OtherError "ScannerError" "mapping values are not allowed here")
  else Ok file.

Definition yaml_error (e : exn) : bool :=
  match e with OtherError "ScannerError" _ => true | _ => false end.

Definition validation_error (e : exn) : bool :=
  match e with OtherError "ValidationError" _ => true | _ => false end.

Definition build (data : string) (w : world)
  : result ServerConfig.t * world :=
  (Ok config, w).

End Served.

(** [st] has every checkpoint that [st0] has, with the same paths *)
Definition keeps_checkpoints (st0 st : TaskStatus.t) : Prop :=
  (∀ p, TaskStatus.bt_downloaded_path st0 = Some p →
        TaskStatus.bt_downloaded_path st = Some p)
  ∧ (∀ p, TaskStatus.finalrip_downloaded_path st0 = Some p →
          TaskStatus.finalrip_downloaded_path st = Some p)
  ∧ (TaskStatus.tg_uploaded st0 = true → TaskStatus.tg_uploaded st = true)
  ∧ (TaskStatus.done st0 = true → TaskStatus.done st = true).

(** * Proofs *)

Section Logic.
Context {World : Type}.
Local Abbreviation M := (M World).
Local Abbreviation state := (state World).
Implicit Types (P Q : event → Prop) (s : state).

Lemma replay_app evs1 evs2 store :
  replay (evs1 ++ evs2) store = replay evs2 (replay evs1 store).
Proof. unfold replay. apply foldl_app. Qed.

Lemma replay_no_write evs store :
  Forall (fun e => is_store_write e = false) evs → replay evs store = store.
Proof.
  intros H. revert store. induction H as [|e evs He _ IH]; intros store.
  - reflexivity.
  - simpl. unfold is_store_write in He.
    destruct (store_write e); [discriminate | apply IH].
Qed.

Lemma since_refl P s : since P s s.
Proof. exists []. rewrite app_nil_r. auto. Qed.

Lemma since_trans P s0 s1 s2 : since P s0 s1 → since P s1 s2 → since P s0 s2.
Proof.
  intros (evs1 & T1 & S1 & F1) (evs2 & T2 & S2 & F2).
  exists (evs1 ++ evs2). split; [|split].
  - rewrite T2, T1. symmetry. apply app_assoc.
  - rewrite S2, S1. symmetry. apply replay_app.
  - apply Forall_app. auto.
Qed.

Lemma since_mono P Q s0 s : (∀ e, P e → Q e) → since P s0 s → since Q s0 s.
Proof.
  intros HPQ (evs & T & S & F). exists evs. repeat split; auto.
  eapply Forall_impl; eauto.
Qed.

Lemma since_store P s0 s :
  (∀ e, P e → is_store_write e = false) →
  since P s0 s → json_store s = json_store s0.
Proof.
  intros HP (evs & _ & S & F). rewrite S. apply replay_no_write.
  eapply Forall_impl; eauto.
Qed.

Lemma emits_mono P Q {A} (m : M A) : (∀ e, P e → Q e) → emits P m → emits Q m.
Proof. intros H Hm s. eapply since_mono; eauto. Qed.

Lemma emits_ret P {A} (a : A) : emits P (ret a : M A).
Proof. intros s. apply since_refl. Qed.

Lemma emits_raise P {A} e : emits P (raise e : M A).
Proof. intros s. apply since_refl. Qed.

Lemma emits_pending P {A} : emits P (pending : M A).
Proof. intros s. apply since_refl. Qed.

Lemma emits_emit P e : P e → store_write e = None → emits P (emit e : M unit).
Proof.
  intros HP Hw s. exists [e]. simpl. rewrite Hw. auto.
Qed.

Lemma emits_call P {A} e (op : World → result A * World) :
  P e → store_write e = None → emits P (call e op).
Proof.
  intros HP Hw s. unfold call. destruct (op (world s)) as [[a|x] w];
    exists [e]; simpl; rewrite Hw; auto.
Qed.

Lemma emits_query P {A} e (op : World → A * World) :
  P e → store_write e = None → emits P (query e op).
Proof. intros. apply emits_call; auto. Qed.

Lemma emits_bind P {A B} (m : M A) (k : A → M B) :
  emits P m → (∀ a, emits P (k a)) → emits P (bind m k).
Proof.
  intros Hm Hk s. unfold bind. specialize (Hm s).
  destruct (m s) as [[a|e|] s1]; simpl in *; auto.
  eapply since_trans; [exact Hm | apply Hk].
Qed.

Lemma emits_try_except P {A} (m : M A) (h : exn → M A) :
  emits P m → (∀ e, emits P (h e)) → emits P (try_except m h).
Proof.
  intros Hm Hh s. unfold try_except. specialize (Hm s).
  destruct (m s) as [[a|e|] s1]; simpl in *; auto.
  eapply since_trans; [exact Hm | apply Hh].
Qed.

Lemma emits_while_not P fuel (cond : M bool) (body : M unit) :
  emits P cond → emits P body → emits P (while_not fuel cond body).
Proof.
  intros Hc Hb. induction fuel as [|fuel IH]; simpl.
  - apply emits_pending.
  - apply emits_bind; [exact Hc|]. intros [|]; [apply emits_ret|].
    apply emits_bind; auto.
Qed.

Lemma emits_assert P b : emits P (assert b : M unit).
Proof. destruct b; [apply emits_ret | apply emits_raise]. Qed.

Lemma emits_check_task_exist P i : emits P (check_task_exist i : M bool).
Proof. intros s. apply since_refl. Qed.

Lemma emits_get_task P i : emits P (get_task i : M TaskStatus.t).
Proof.
  intros s. unfold get_task. destruct (json_store s !! i); apply since_refl.
Qed.

Lemma emits_add_task P i st : P (StoreAdd i st) → emits P (add_task i st : M unit).
Proof.
  intros HP s. unfold add_task. destruct (json_store s !! i).
  - apply since_refl.
  - exists [StoreAdd i st]. simpl. auto.
Qed.

Lemma emits_update_task P i st :
  P (StoreUpdate i st) → emits P (update_task i st : M unit).
Proof.
  intros HP s. unfold update_task. destruct (json_store s !! i).
  - exists [StoreUpdate i st]. simpl. auto.
  - apply since_refl.
Qed.

(** what [bind] gives when the whole does not return *)
Lemma bind_inv {A B} (m : M A) (k : A → M B) s r s' :
  bind m k s = (r, s') →
  (∃ a s1, m s = (Return a, s1) ∧ k a s1 = (r, s'))
  ∨ (∃ e, m s = (Raise e, s') ∧ r = Raise e)
  ∨ (m s = (Pending, s') ∧ r = Pending).
Proof.
  unfold bind. destruct (m s) as [[a|e|] s1]; intros H.
  - left. eauto.
  - right. left. inversion H; subst. eauto.
  - right. right. inversion H; subst. eauto.
Qed.

End Logic.

(** ** What each client part can emit *)

Ltac emits_side :=
  solve [ reflexivity | assumption | auto ].

Ltac emits_step :=
  lazymatch goal with
  | |- emits _ (bind _ _) => apply emits_bind; [|intros ?]
  | |- emits _ (try_except _ _) => apply emits_try_except; [|intros ?]
  | |- emits _ (while_not _ _ _) => apply emits_while_not
  | |- emits _ (ret _) => apply emits_ret
  | |- emits _ (raise _) => apply emits_raise
  | |- emits _ pending => apply emits_pending
  | |- emits _ (assert _) => apply emits_assert
  | |- emits _ (call _ _) => apply emits_call; emits_side
  | |- emits _ (query _ _) => apply emits_query; emits_side
  | |- emits _ (emit _) => apply emits_emit; emits_side
  | |- emits _ (sleep _) => apply emits_emit; emits_side
  | |- emits _ (print _) => apply emits_emit; emits_side
  | |- emits _ (if ?b then _ else _) => destruct b
  | |- emits _ (match ?x with _ => _ end) => destruct x
  end.

Section ClientFacts.
Context {World : Type} (env : Env World).
Local Abbreviation M := (M World).
Implicit Types (P : event → Prop).

Lemma emits_attr_of_optional P {A} attr (o : option A) :
  emits P (attr_of_optional attr o : M A).
Proof. destruct o; [apply emits_ret | apply emits_raise]. Qed.

Lemma emits_assert_is_not_none P {A} (o : option A) :
  emits P (assert_is_not_none o : M A).
Proof. destruct o; [apply emits_ret | apply emits_raise]. Qed.

Lemma emits_retrying P {A} more (body : M A) :
  P RetryWait → emits P body → emits P (retrying more body).
Proof.
  intros Hw Hb. induction more as [|more IH]; simpl.
  - apply emits_try_except; [exact Hb|]. intros e. apply emits_raise.
  - apply emits_try_except; [exact Hb|]. intros e.
    apply emits_bind; [apply emits_emit; auto | auto].
Qed.

Lemma bt_download_emits fuel task_info :
  emits bt_event (bt_download env fuel task_info).
Proof. unfold bt_download, bt_event. repeat emits_step. Qed.

Lemma upload_and_new_task_emits video_path :
  emits (fun e => is_finalrip_call e || is_local e = true)
        (upload_and_new_task env video_path).
Proof.
  unfold upload_and_new_task, get_oss_presigned_url, new_task.
  repeat first [apply emits_attr_of_optional | emits_step].
Qed.

Lemma download_completed_task_emits video_key save_path :
  emits (fun e => is_finalrip_call e || is_local e = true)
        (download_completed_task env video_key save_path).
Proof.
  unfold download_completed_task, get_task_progress.
  repeat first [apply emits_attr_of_optional | emits_step].
Qed.

Lemma finalrip_encode_emits fuel task_info bt_downloaded_path :
  emits finalrip_event
        (finalrip_encode env fuel task_info bt_downloaded_path).
Proof.
  unfold finalrip_encode, finalrip_event.
  repeat first
    [ eapply emits_mono; [|apply upload_and_new_task_emits];
      simpl; intros ? ->; reflexivity
    | eapply emits_mono; [|apply download_completed_task_emits];
      simpl; intros ? ->; reflexivity
    | emits_step ].
Qed.

Lemma send_video_once_emits sender video_path caption :
  emits (fun e => is_tg_call e || is_local e = true)
        (send_video_once env sender video_path caption).
Proof. unfold send_video_once. repeat emits_step. Qed.

Lemma send_video_emits sender video_path caption :
  emits tg_event (send_video env sender video_path caption).
Proof.
  unfold send_video, tg_event. apply emits_retrying; [reflexivity|].
  eapply emits_mono; [|apply send_video_once_emits].
  simpl. intros ? ->. reflexivity.
Qed.

End ClientFacts.

(** ** The stages, one checkpoint at a time *)

Section StageFacts.
Context {World : Type} (env : Env World) (self : Loop).
Local Abbreviation M := (M World).
Local Abbreviation state := (state World).
Implicit Types (P C : event → Prop) (R : TaskStatus.t → Prop) (s : state).

(** A stage is a client part followed by one write: either the client part
    returns and the write is the last thing that happens, or there is no
    write at all. *)
Lemma checkpoint_run C {A} (client : M A) (f : A → TaskStatus.t) h s r s' :
  emits C client →
  bind client (fun x => bind (update_task h (f x)) (fun _ => ret (f x))) s
  = (r, s') →
  (∃ x s1, r = Return (f x) ∧ since C s s1
           ∧ trace s' = trace s1 ++ [StoreUpdate h (f x)]
           ∧ json_store s' = <[h := f x]> (json_store s1))
  ∨ ((∀ a, r ≠ Return a) ∧ since C s s').
Proof.
  intros Hc H. unfold bind in H. pose proof (Hc s) as Hs.
  destruct (client s) as [[x|e|] s1]; simpl in *.
  - unfold update_task in H. destruct (json_store s1 !! h).
    + inversion H; subst. left. exists x, s1. simpl. auto.
    + inversion H; subst. right. split; [discriminate | assumption].
  - inversion H; subst. right. split; [discriminate | assumption].
  - inversion H; subst. right. split; [discriminate | assumption].
Qed.

Lemma since_then_write C P s s1 s' h st :
  since C s s1 →
  trace s' = trace s1 ++ [StoreUpdate h st] →
  json_store s' = <[h := st]> (json_store s1) →
  (∀ e, C e → P e) → P (StoreUpdate h st) →
  since P s s'.
Proof.
  intros Hs T S HCP HP. eapply since_trans.
  - eapply since_mono; eauto.
  - exists [StoreUpdate h st]. simpl. auto.
Qed.

Lemma bt_event_no_write e : bt_event e → is_store_write e = false.
Proof. unfold bt_event. destruct e; cbv; congruence. Qed.

Lemma finalrip_event_no_write e : finalrip_event e → is_store_write e = false.
Proof. unfold finalrip_event. destruct e; cbv; congruence. Qed.

Lemma tg_event_no_write e : tg_event e → is_store_write e = false.
Proof. unfold tg_event. destruct e; cbv; congruence. Qed.

(** *** What a stage that does not return leaves behind *)

Lemma bt_stage_abort fuel task_info st s r s' :
  bt_stage env fuel task_info st s = (r, s') →
  (∀ a, r ≠ Return a) → since bt_event s s'.
Proof.
  unfold bt_stage. intros H Hr.
  destruct (TaskStatus.bt_downloaded_path st).
  - inversion H; subst. exfalso. eapply Hr; eauto.
  - eapply checkpoint_run in H; [|apply bt_download_emits].
    destruct H as [(x & s1 & -> & _)|[_ H]]; [|exact H].
    exfalso. eapply Hr; eauto.
Qed.

Lemma finalrip_stage_abort fuel task_info bt_path st s r s' :
  finalrip_stage env fuel task_info bt_path st s = (r, s') →
  (∀ a, r ≠ Return a) → since finalrip_event s s'.
Proof.
  unfold finalrip_stage. intros H Hr.
  destruct (TaskStatus.finalrip_downloaded_path st).
  - inversion H; subst. exfalso. eapply Hr; eauto.
  - eapply checkpoint_run in H; [|apply finalrip_encode_emits].
    destruct H as [(x & s1 & -> & _)|[_ H]]; [|exact H].
    exfalso. eapply Hr; eauto.
Qed.

Lemma tg_stage_abort task_info finalrip_path st s r s' :
  tg_stage env self task_info finalrip_path st s = (r, s') →
  (∀ a, r ≠ Return a) → since tg_event s s'.
Proof.
  unfold tg_stage. intros H Hr.
  destruct (negb (TaskStatus.tg_uploaded st));
    [destruct (tg_channel_sender self) as [sender|]|];
    try (inversion H; subst; exfalso; eapply Hr; eauto; fail).
  unfold send_and_mark_uploaded in H.
  eapply (checkpoint_run tg_event _ (fun _ => _)) in H;
    [|apply send_video_emits].
  destruct H as [(x & s1 & -> & _)|[_ H]]; [|exact H].
  exfalso. eapply Hr; eauto.
Qed.

(** *** What a stage adds when the status moves along [advance] *)

Section Steps.
Variables (R : TaskStatus.t → Prop) (P : event → Prop) (task_info : TaskInfo.t).
Hypothesis Hstep : ∀ st1 st2,
  R st1 → advance st1 st2 → TaskStatus.done st2 = false →
  R st2 ∧ P (StoreUpdate (TaskInfo.hash task_info) st2).

Lemma bt_stage_steps fuel st s r s' :
  (TaskStatus.bt_downloaded_path st = None → ∀ e, bt_event e → P e) →
  R st → TaskStatus.done st = false →
  bt_stage env fuel task_info st s = (r, s') →
  since P s s' ∧ ∀ st', r = Return st' → R st' ∧ TaskStatus.done st' = false.
Proof.
  unfold bt_stage. intros HP HR Hd H.
  destruct (TaskStatus.bt_downloaded_path st) eqn:E.
  - inversion H; subst. split; [apply since_refl|].
    intros st' [= <-]. auto.
  - eapply checkpoint_run in H; [|apply bt_download_emits].
    destruct H as [(x & s1 & -> & Hs & T & S)|[Hr Hs]].
    + destruct (Hstep st (TaskStatus.set_bt_downloaded_path (Path.to_string x) st))
        as [HR' HP']; auto using advance_acquired.
      split; [eapply since_then_write; eauto|].
      intros st' [= <-]. auto.
    + split; [eapply since_mono; [|exact Hs]; auto|].
      intros st' ->. exfalso. eapply Hr; eauto.
Qed.

Lemma finalrip_stage_steps fuel bt_path st s r s' :
  (∀ e, finalrip_event e → P e) →
  R st → TaskStatus.done st = false →
  TaskStatus.bt_downloaded_path st = Some bt_path →
  finalrip_stage env fuel task_info bt_path st s = (r, s') →
  since P s s'
  ∧ ∀ st', r = Return st' →
      R st' ∧ TaskStatus.done st' = false
      ∧ is_Some (TaskStatus.bt_downloaded_path st').
Proof.
  unfold finalrip_stage. intros HP HR Hd Hbt H.
  destruct (TaskStatus.finalrip_downloaded_path st) eqn:E.
  - inversion H; subst. split; [apply since_refl|].
    intros st' [= <-]. rewrite Hbt. eauto.
  - eapply checkpoint_run in H; [|apply finalrip_encode_emits].
    destruct H as [(x & s1 & -> & Hs & T & S)|[Hr Hs]].
    + destruct (Hstep st (TaskStatus.set_finalrip_downloaded_path
                            (Path.to_string x) st)) as [HR' HP']; auto.
      { apply advance_transcoded; [rewrite Hbt; eauto | assumption]. }
      split; [eapply since_then_write; eauto|].
      intros st' [= <-]. simpl. rewrite Hbt. eauto.
    + split; [eapply since_mono; [|exact Hs]; auto|].
      intros st' ->. exfalso. eapply Hr; eauto.
Qed.

Lemma tg_stage_steps finalrip_path st s r s' :
  (∀ e, tg_event e → P e) →
  R st → TaskStatus.done st = false →
  is_Some (TaskStatus.bt_downloaded_path st) →
  TaskStatus.finalrip_downloaded_path st = Some finalrip_path →
  tg_stage env self task_info finalrip_path st s = (r, s') →
  since P s s'
  ∧ ∀ st', r = Return st' →
      R st' ∧ TaskStatus.done st' = false
      ∧ is_Some (TaskStatus.bt_downloaded_path st')
      ∧ is_Some (TaskStatus.finalrip_downloaded_path st').
Proof.
  unfold tg_stage. intros HP HR Hd Hbt Hfr H.
  assert (Hsame : since P s s
                  ∧ ∀ st', Return st = Return st' →
                      R st' ∧ TaskStatus.done st' = false
                      ∧ is_Some (TaskStatus.bt_downloaded_path st')
                      ∧ is_Some (TaskStatus.finalrip_downloaded_path st')).
  { split; [apply since_refl|]. intros st' [= <-]. rewrite Hfr. eauto. }
  destruct (TaskStatus.tg_uploaded st) eqn:Etg; simpl in H;
    [inversion H; subst; exact Hsame|].
  destruct (tg_channel_sender self) as [sender|];
    [|inversion H; subst; exact Hsame].
  unfold send_and_mark_uploaded in H.
  eapply (checkpoint_run tg_event _ (fun _ => _)) in H;
    [|apply send_video_emits].
  destruct H as [(x & s1 & -> & Hs & T & S)|[Hr Hs]].
  - destruct (Hstep st (TaskStatus.set_tg_uploaded true st))
      as [HR' HP']; auto.
    { apply advance_published; [rewrite Hfr; eauto | assumption]. }
    split; [eapply since_then_write; eauto|].
    intros st' [= <-]. simpl. rewrite Hfr. eauto.
  - split; [eapply since_mono; [|exact Hs]; auto|].
    intros st' ->. exfalso. eapply Hr; eauto.
Qed.

(** The whole of [run_stages]: unless the run returns, every event
    satisfies [P]; when it returns, that holds up to the final write, which
    sets [done] on a status that has all three checkpoints. *)
Lemma run_stages_steps fuel st s r s' :
  (TaskStatus.bt_downloaded_path st = None → ∀ e, bt_event e → P e) →
  (∀ e, finalrip_event e → P e) →
  (∀ e, tg_event e → P e) →
  R st → TaskStatus.done st = false →
  run_stages env self fuel task_info st s = (r, s') →
  match r with
  | Return _ =>
      ∃ s1 st3,
        since P s s1 ∧ R st3 ∧ TaskStatus.done st3 = false
        ∧ is_Some (TaskStatus.bt_downloaded_path st3)
        ∧ is_Some (TaskStatus.finalrip_downloaded_path st3)
        ∧ TaskStatus.tg_uploaded st3 = true
        ∧ trace s' = trace s1
                     ++ [StoreUpdate (TaskInfo.hash task_info)
                                     (TaskStatus.set_done true st3)]
        ∧ json_store s' = <[TaskInfo.hash task_info
                            := TaskStatus.set_done true st3]> (json_store s1)
  | _ => since P s s'
  end.
Proof.
  intros Hb Hf Ht HR Hd H. unfold run_stages in H.
  (* acquisition *)
  apply bind_inv in H as [(st1 & s1 & H1 & H)|[(e & H1 & ->)|[H1 ->]]];
    [|eapply bt_stage_steps; eauto ..].
  eapply bt_stage_steps in H1 as [S1 F1]; eauto.
  destruct (F1 _ eq_refl) as [HR1 Hd1]. clear F1.
  apply bind_inv in H as [(bt_path & s1' & A1 & H)|[(e & A1 & ->)|[A1 ->]]];
    unfold assert_is_not_none in A1;
    destruct (TaskStatus.bt_downloaded_path st1) as [p1|] eqn:Ebt;
    inversion A1; subst; try assumption. clear A1.
  (* transcoding *)
  apply bind_inv in H as [(st2 & s2 & H2 & H)|[(e & H2 & ->)|[H2 ->]]];
    [|eapply since_trans; [exact S1|]; eapply finalrip_stage_steps; eauto ..].
  eapply finalrip_stage_steps in H2 as [S2 F2]; eauto.
  destruct (F2 _ eq_refl) as (HR2 & Hd2 & Hbt2). clear F2.
  assert (S12 : since P s s2) by (eapply since_trans; eauto).
  apply bind_inv in H as [(fr_path & s2' & A2 & H)|[(e & A2 & ->)|[A2 ->]]];
    unfold assert_is_not_none in A2;
    destruct (TaskStatus.finalrip_downloaded_path st2) as [p2|] eqn:Efr;
    inversion A2; subst; try assumption. clear A2.
  (* publishing *)
  apply bind_inv in H as [(st3 & s3 & H3 & H)|[(e & H3 & ->)|[H3 ->]]];
    [|eapply since_trans; [exact S12|]; eapply tg_stage_steps; eauto ..].
  eapply tg_stage_steps in H3 as [S3 F3]; eauto.
  destruct (F3 _ eq_refl) as (HR3 & Hd3 & Hbt3 & Hfr3). clear F3.
  assert (S13 : since P s s3) by (eapply since_trans; eauto).
  apply bind_inv in H as [([] & s3' & A3 & H)|[(e & A3 & ->)|[A3 ->]]];
    unfold assert in A3;
    destruct (TaskStatus.tg_uploaded st3) eqn:Etg;
    inversion A3; subst; try assumption. clear A3.
  (* done *)
  unfold update_task in H.
  destruct (json_store s3' !! TaskInfo.hash task_info);
    inversion H; subst; [|assumption].
  exists s3', st3. simpl. repeat split; auto.
Qed.

End Steps.
End StageFacts.

(** ** The loop object *)

(** [Loop.__init__] builds a sender exactly when publishing is enabled, for
    the configured channel. *)
Lemma Loop_init_sender telegram loop :
  tg_channel_sender (Loop_init telegram loop)
  = if tg_enable telegram
    then Some {| channel_id := tg_channel_id telegram |} else None.
Proof. reflexivity. Qed.

(** Every value of [Loop] is built by [Loop.__init__] from some
    configuration: a statement about every [self] is a statement about
    every loop the program can construct. *)
Lemma Loop_init_covers (self : Loop) :
  ∃ telegram loop, Loop_init telegram loop = self.
Proof.
  destruct self as [[[channel]|] n].
  - exists {| tg_enable := true; tg_local_mode := false;
              tg_bot_token := EmptyString; tg_base_url := EmptyString;
              tg_base_file_url := EmptyString; tg_channel_id := channel |},
           {| interval := n |}.
    reflexivity.
  - exists {| tg_enable := false; tg_local_mode := false;
              tg_bot_token := EmptyString; tg_base_url := EmptyString;
              tg_base_file_url := EmptyString;
              tg_channel_id := EmptyString |},
           {| interval := n |}.
    reflexivity.
Qed.

(** ** The pipeline *)

Section PipelineFacts.
Context {World : Type} (env : Env World) (self : Loop).
Local Abbreviation M := (M World).
Local Abbreviation state := (state World).
Implicit Types (s : state).

(** [pipeline] on a task whose record is in the store *)
Lemma pipeline_known fuel task_info s st :
  json_store s !! TaskInfo.hash task_info = Some st →
  pipeline env self fuel task_info s
  = if TaskStatus.done st then (Return tt, s)
    else run_stages env self fuel task_info st s.
Proof.
  intros H. unfold pipeline, bind, check_task_exist, get_task. rewrite H.
  rewrite bool_decide_eq_true_2 by eauto. simpl. rewrite H.
  destruct (TaskStatus.done st); reflexivity.
Qed.

(** [pipeline] on a task the store does not know: the fresh record is
    written, then the stages run on it *)
Lemma pipeline_new fuel task_info s :
  json_store s !! TaskInfo.hash task_info = None →
  pipeline env self fuel task_info s
  = run_stages env self fuel task_info TaskStatus.new
      (mkState (<[TaskInfo.hash task_info := TaskStatus.new]> (json_store s))
               (rss_config s) (world s)
               (trace s ++ [StoreAdd (TaskInfo.hash task_info) TaskStatus.new])).
Proof.
  intros H. unfold pipeline, bind, check_task_exist, get_task, add_task.
  rewrite H. rewrite bool_decide_eq_false_2 by (intros [? ?]; discriminate).
  simpl. rewrite H. simpl. rewrite lookup_insert_eq. reflexivity.
Qed.

(** C5. Re-running the pipeline for a task whose stored status is done
    returns right after loading the status: the state after the run is the
    state before it, so no stage client was called and nothing was written
    to the store. *)
Theorem pipeline_done_is_noop fuel task_info s st :
  json_store s !! TaskInfo.hash task_info = Some st →
  TaskStatus.done st = true →
  pipeline env self fuel task_info s = (Return tt, s).
Proof.
  intros H Hd. rewrite (pipeline_known _ _ _ _ H), Hd. reflexivity.
Qed.




(** Without a sender, the publish stage of a transcoded, unpublished task
    does nothing, and the assertion that follows it fails: [done] is never
    written. *)
Lemma publish_disabled_assertion_error fuel task_info s st bt_path fr_path :
  json_store s !! TaskInfo.hash task_info = Some st →
  TaskStatus.bt_downloaded_path st = Some bt_path →
  TaskStatus.finalrip_downloaded_path st = Some fr_path →
  TaskStatus.tg_uploaded st = false →
  TaskStatus.done st = false →
  tg_channel_sender self = None →
  pipeline env self fuel task_info s = (Raise AssertionError, s).
Proof.
  intros H Hbt Hfr Htg Hd Hs. rewrite (pipeline_known _ _ _ _ H), Hd.
  unfold run_stages, bind, bt_stage, finalrip_stage, tg_stage.
  rewrite Hbt. simpl. rewrite Hbt, Hfr. simpl. rewrite Hfr, Htg, Hs. simpl.
  rewrite Htg. reflexivity.
Qed.

End PipelineFacts.

Lemma pipeline_done_is_noop_witness :
  pipeline (Scripted.env Scripted.plain) Scripted.publishing 5 Scripted.task
           (Scripted.init {["abc123" := Scripted.finished]}
                          Scripted.no_config 0%nat)
  = (Return tt,
     Scripted.init {["abc123" := Scripted.finished]} Scripted.no_config 0%nat).
Proof.
  apply (pipeline_done_is_noop (Scripted.env Scripted.plain)
           Scripted.publishing 5 Scripted.task _ Scripted.finished);
    reflexivity.
Defined.


(** C2. A task that is acquired and transcoded but not published, with
    publishing disabled: the publish stage is
    skipped, then [assert task_status.tg_uploaded] fails; the run raises
    [AssertionError] and [done] is not persisted. *)
Theorem publish_disabled_fails_on_assert :
  pipeline (Scripted.env Scripted.plain) Scripted.not_publishing 5
           Scripted.task
           (Scripted.init {["abc123" := Scripted.transcoded]}
                          Scripted.no_config 0%nat)
  = (Raise AssertionError,
     Scripted.init {["abc123" := Scripted.transcoded]}
                   Scripted.no_config 0%nat).
Proof.
  eapply publish_disabled_assertion_error; reflexivity.
Qed.

(** ** Checkpoints *)

Section CheckpointFacts.
Context {World : Type} (env : Env World) (self : Loop).
Local Abbreviation M := (M World).
Local Abbreviation state := (state World).
Implicit Types (P : event → Prop) (R : TaskStatus.t → Prop) (s : state).

Lemma checkpoint_order_new : checkpoint_order TaskStatus.new.
Proof. refine (bool_decide_unpack _ _). vm_compute. exact I. Qed.

Lemma advance_keeps_order st1 st2 :
  checkpoint_order st1 → advance st1 st2 → checkpoint_order st2.
Proof.
  intros (H1 & H2 & H3) Ha.
  destruct Ha; repeat split; simpl; intros; eauto; congruence.
Qed.

Lemma checkpoint_order_spec st :
  checkpoint_order st → spec_checkpoint_order self st.
Proof. intros (H1 & H2 & H3). repeat split; auto. Qed.

Lemma since_unfold P s s' :
  since P s s' →
  ∃ evs, trace s' = trace s ++ evs ∧ ∀ e, e ∈ evs → P e.
Proof.
  intros (evs & T & _ & F). exists evs. split; [exact T|].
  apply Forall_forall. exact F.
Qed.

(** [run_stages], when [P] also admits the final write *)
Lemma run_stages_since R P fuel task_info st s r s' :
  (∀ st1 st2, R st1 → advance st1 st2 →
     R st2 ∧ P (StoreUpdate (TaskInfo.hash task_info) st2)) →
  (TaskStatus.bt_downloaded_path st = None → ∀ e, bt_event e → P e) →
  (∀ e, finalrip_event e → P e) →
  (∀ e, tg_event e → P e) →
  R st → TaskStatus.done st = false →
  run_stages env self fuel task_info st s = (r, s') →
  since P s s'.
Proof.
  intros Hstep Hb Hf Ht HR Hd H.
  eapply (run_stages_steps env self R P) in H; eauto.
  destruct r as [[]|e|]; try exact H.
  destruct H as (s1 & st3 & S1 & HR3 & Hd3 & Hbt & Hfr & Htg & T & S).
  eapply since_then_write; eauto.
  eapply Hstep; eauto using advance_done.
Qed.

Lemma replay_keeps R evs (m : gmap string TaskStatus.t) h :
  (∃ st, m !! h = Some st ∧ R st) →
  Forall (writes_only R) evs →
  ∃ st, replay evs m !! h = Some st ∧ R st.
Proof.
  intros Hm HF. revert m Hm.
  induction HF as [|e evs He _ IH]; intros m Hm; [exact Hm|].
  simpl. apply IH. unfold writes_only in He.
  destruct (store_write e) as [[i x]|]; [|exact Hm].
  destruct (decide (i = h)) as [->|Hne].
  - exists x. rewrite lookup_insert_eq. eauto.
  - rewrite lookup_insert_ne by exact Hne. exact Hm.
Qed.

(** C4. Every status record a run of the pipeline writes to the store
    satisfies the checkpoint order: done implies published (or publishing
    disabled), published implies the transcoded path is set, and that
    implies the acquired path is set.  The record found in the store at the
    start, if there is one, is assumed to satisfy the order itself. *)
Theorem pipeline_persists_in_checkpoint_order fuel task_info s r s' :
  (∀ st, json_store s !! TaskInfo.hash task_info = Some st →
         spec_checkpoint_order self st) →
  pipeline env self fuel task_info s = (r, s') →
  ∃ evs, trace s' = trace s ++ evs
         ∧ ∀ e i st, e ∈ evs → store_write e = Some (i, st) →
                     spec_checkpoint_order self st.
Proof.
  intros Hinit H.
  assert (Hrun : ∀ st s0 s1, checkpoint_order st → TaskStatus.done st = false →
            run_stages env self fuel task_info st s0 = (r, s1) →
            since (writes_only (spec_checkpoint_order self)) s0 s1).
  { intros st s0 s1 Ho Hd Hr.
    eapply (run_stages_since checkpoint_order); eauto.
    - intros st1 st2 H1 Ha. split; [eapply advance_keeps_order; eauto|].
      intros i x [= <- <-]. apply checkpoint_order_spec.
      eapply advance_keeps_order; eauto.
    - intros _ e He i x Hw. apply bt_event_no_write in He.
      unfold is_store_write in He. rewrite Hw in He. discriminate.
    - intros e He i x Hw. apply finalrip_event_no_write in He.
      unfold is_store_write in He. rewrite Hw in He. discriminate.
    - intros e He i x Hw. apply tg_event_no_write in He.
      unfold is_store_write in He. rewrite Hw in He. discriminate. }
  assert (Hs : since (writes_only (spec_checkpoint_order self)) s s').
  { destruct (json_store s !! TaskInfo.hash task_info) as [st|] eqn:E.
    - rewrite (pipeline_known _ _ _ _ _ _ E) in H.
      destruct (TaskStatus.done st) eqn:Hd.
      + inversion H; subst. apply since_refl.
      + eapply Hrun; eauto.
        destruct (Hinit _ eq_refl) as (_ & H2 & H3).
        repeat split; auto. congruence.
    - rewrite (pipeline_new _ _ _ _ _ E) in H.
      eapply since_trans; [|eapply Hrun; eauto using checkpoint_order_new].
      exists [StoreAdd (TaskInfo.hash task_info) TaskStatus.new].
      simpl. repeat split; auto. constructor; [|constructor].
      intros i x [= <- <-]. apply checkpoint_order_spec, checkpoint_order_new. }
  apply since_unfold in Hs as (evs & T & F). exists evs. split; [exact T|].
  intros e i st He Hw. exact (F e He i st Hw).
Qed.

End CheckpointFacts.

Lemma pipeline_persists_in_checkpoint_order_witness :
  ∃ evs,
    trace (pipeline (Scripted.env Scripted.plain) Scripted.not_publishing 5
             Scripted.task
             (Scripted.init {["abc123" := Scripted.acquired]}
                            Scripted.no_config 0%nat)).2
    = [] ++ evs
    ∧ ∀ e i st, e ∈ evs → store_write e = Some (i, st) →
                spec_checkpoint_order Scripted.not_publishing st.
Proof.
  eapply (pipeline_persists_in_checkpoint_order
            (Scripted.env Scripted.plain) Scripted.not_publishing 5
            Scripted.task
            (Scripted.init {["abc123" := Scripted.acquired]}
                           Scripted.no_config 0%nat)).
  - intros st H. vm_compute in H. injection H as <-.
    refine (bool_decide_unpack _ _). vm_compute. exact I.
  - apply surjective_pairing.
Defined.

(** ** Resuming and aborting *)

Section ResumeFacts.
Context {World : Type} (env : Env World) (self : Loop).
Local Abbreviation M := (M World).
Local Abbreviation state := (state World).
Implicit Types (P : event → Prop) (s : state).

Lemma bind_assoc {A B C} (m : M A) (k : A → M B) (k' : B → M C) s :
  bind (bind m k) k' s = bind m (fun a => bind (k a) k') s.
Proof. unfold bind. destruct (m s) as [[a|e|] s1]; reflexivity. Qed.

Lemma call_trace {A} e (op : World → result A * World) s r s' :
  call e op s = (r, s') → trace s' = trace s ++ [e].
Proof.
  unfold call. destruct (op (world s)) as [[a|x] w]; intros [= <- <-];
    reflexivity.
Qed.

(** the publish stage, for a [P] that admits its events and its write *)
Lemma tg_stage_emits P task_info finalrip_path st :
  (∀ e, tg_event e → P e) →
  (∀ st', P (StoreUpdate (TaskInfo.hash task_info) st')) →
  emits P (tg_stage env self task_info finalrip_path st).
Proof.
  intros He Hw. unfold tg_stage, caption_of, send_and_mark_uploaded.
  repeat first
    [ eapply emits_mono; [|apply send_video_emits]; exact He
    | apply emits_update_task; apply Hw
    | emits_step ].
Qed.

(** After a stage that was skipped the run goes on with the next one: with
    the acquired path stored and no transcoded path, [run_stages] is the
    transcode stage on the stored path, then the rest. *)
Lemma run_stages_resume_transcode fuel task_info st bt_path s :
  TaskStatus.bt_downloaded_path st = Some bt_path →
  run_stages env self fuel task_info st s
  = bind (finalrip_stage env fuel task_info bt_path st)
         (fun task_status =>
            bind (assert_is_not_none
                    (TaskStatus.finalrip_downloaded_path task_status))
                 (fun finalrip_path =>
                    bind (tg_stage env self task_info finalrip_path task_status)
                         (fun task_status =>
                            bind (assert (TaskStatus.tg_uploaded task_status))
                                 (fun _ =>
                                    update_task (TaskInfo.hash task_info)
                                      (TaskStatus.set_done true task_status)))))
         s.
Proof.
  intros Hbt. unfold run_stages, bt_stage. rewrite Hbt.
  unfold bind at 1. simpl. unfold bind at 1. rewrite Hbt. reflexivity.
Qed.

(** the first thing the transcode stage does is ask the server for the task
    named after the stored file *)
Lemma resume_first_event fuel task_info st bt_path s r s' :
  TaskStatus.bt_downloaded_path st = Some bt_path →
  TaskStatus.finalrip_downloaded_path st = None →
  run_stages env self (S fuel) task_info st s = (r, s') →
  ∃ rest, trace s' = trace s
                     ++ FrCheckTaskExist (Path.name (Path.of_string bt_path))
                     :: rest.
Proof.
  intros Hbt Hfr H. rewrite (run_stages_resume_transcode _ _ _ _ _ Hbt) in H.
  unfold finalrip_stage in H. rewrite Hfr in H.
  unfold finalrip_encode in H. simpl while_not in H.
  rewrite !bind_assoc in H.
  apply bind_inv in H as [(b & s1 & H1 & H)|[(e & H1 & ->)|[H1 ->]]];
    apply call_trace in H1; try (exists []; exact H1).
  assert (Hrest : since (fun _ => True) s1 s').
  { match type of H with
    | ?m s1 = _ => assert (Hm : emits (fun _ => True) m); [|specialize (Hm s1)]
    end.
    - repeat first
        [ eapply emits_mono; [|apply upload_and_new_task_emits]; auto; fail
        | eapply emits_mono; [|apply download_completed_task_emits]; auto; fail
        | apply tg_stage_emits; auto; fail
        | apply emits_update_task; exact I
        | apply emits_assert_is_not_none
        | emits_step ].
    - rewrite H in Hm. exact Hm. }
  destruct Hrest as (evs & T & _). exists evs.
  rewrite T, H1, <- app_assoc. reflexivity.
Qed.

(** C6. A task whose reloaded status has the acquired path set and no
    transcoded path: the run calls the acquisition client not at all, and,
    the task not being done, its first action is the transcode stage asking
    the transcode client for the task named after the stored acquired
    path. *)
Theorem resume_skips_acquisition fuel task_info s st bt_path r s' :
  json_store s !! TaskInfo.hash task_info = Some st →
  TaskStatus.bt_downloaded_path st = Some bt_path →
  TaskStatus.finalrip_downloaded_path st = None →
  pipeline env self (S fuel) task_info s = (r, s') →
  (∃ evs, trace s' = trace s ++ evs ∧ ∀ e, e ∈ evs → is_bt_call e = false)
  ∧ (TaskStatus.done st = false →
     ∃ rest,
       trace s' = trace s
                  ++ FrCheckTaskExist (Path.name (Path.of_string bt_path))
                  :: rest).
Proof.
  intros Hst Hbt Hfr H.
  rewrite (pipeline_known _ _ _ _ _ _ Hst) in H.
  destruct (TaskStatus.done st) eqn:Hd.
  - inversion H; subst. split; [|discriminate].
    exists []. rewrite app_nil_r. split; [reflexivity|].
    intros e He. inversion He.
  - split.
    + eapply (run_stages_since env self (fun _ => True)
                (fun e => is_bt_call e = false)) in H; auto.
      * apply since_unfold in H. exact H.
      * congruence.
      * intros e. unfold finalrip_event. destruct e; cbv; congruence.
      * intros e. unfold tg_event. destruct e; cbv; congruence.
    + intros _. exact (resume_first_event _ _ _ _ _ _ _ Hbt Hfr H).
Qed.

(** C7. A stage that raises has written nothing: the store is what it was
    when the stage began.  A run of the pipeline that raises has written only
    records that are not done, and the record it leaves in the store for the
    task is not done; the store is the store at the start with the recorded
    writes applied. *)
Theorem stage_error_keeps_checkpoint fuel task_info :
  (∀ st s e s',
     bt_stage env fuel task_info st s = (Raise e, s') →
     json_store s' = json_store s
     ∧ ∃ evs, trace s' = trace s ++ evs
              ∧ ∀ x, x ∈ evs → is_store_write x = false)
  ∧ (∀ bt_path st s e s',
       finalrip_stage env fuel task_info bt_path st s = (Raise e, s') →
       json_store s' = json_store s
       ∧ ∃ evs, trace s' = trace s ++ evs
                ∧ ∀ x, x ∈ evs → is_store_write x = false)
  ∧ (∀ finalrip_path st s e s',
       tg_stage env self task_info finalrip_path st s = (Raise e, s') →
       json_store s' = json_store s
       ∧ ∃ evs, trace s' = trace s ++ evs
                ∧ ∀ x, x ∈ evs → is_store_write x = false)
  ∧ (∀ s e s',
       pipeline env self fuel task_info s = (Raise e, s') →
       ∃ evs, trace s' = trace s ++ evs
              ∧ json_store s' = replay evs (json_store s)
              ∧ (∀ x i st, x ∈ evs → store_write x = Some (i, st) →
                           TaskStatus.done st = false)
              ∧ ∃ st, json_store s' !! TaskInfo.hash task_info = Some st
                      ∧ TaskStatus.done st = false).
Proof.
  assert (Hquiet : ∀ (C : event → Prop) s s',
            (∀ x, C x → is_store_write x = false) → since C s s' →
            json_store s' = json_store s
            ∧ ∃ evs, trace s' = trace s ++ evs
                     ∧ ∀ x, x ∈ evs → is_store_write x = false).
  { intros C s s' HC Hs. split; [eapply since_store; eauto|].
    apply since_unfold in Hs as (evs & T & F). eauto. }
  split; [|split; [|split]].
  - intros st s e s' H. eapply Hquiet; [apply bt_event_no_write|].
    eapply bt_stage_abort; [exact H | discriminate].
  - intros bt_path st s e s' H. eapply Hquiet; [apply finalrip_event_no_write|].
    eapply finalrip_stage_abort; [exact H | discriminate].
  - intros fr_path st s e s' H. eapply Hquiet; [apply tg_event_no_write|].
    eapply tg_stage_abort; [exact H | discriminate].
  - intros s e s' H.
    set (P := writes_only (fun st => TaskStatus.done st = false)).
    assert (Hrun : ∀ st s0, TaskStatus.done st = false →
              run_stages env self fuel task_info st s0 = (Raise e, s') →
              since P s0 s').
    { intros st s0 Hd Hr.
      eapply (run_stages_steps env self (fun _ => True) P) in Hr; eauto.
      - intros st1 st2 _ _ Hd2. split; [exact I|]. intros i x [= <- <-]. exact Hd2.
      - intros _ x Hx i y Hw. apply bt_event_no_write in Hx.
        unfold is_store_write in Hx. rewrite Hw in Hx. discriminate.
      - intros x Hx i y Hw. apply finalrip_event_no_write in Hx.
        unfold is_store_write in Hx. rewrite Hw in Hx. discriminate.
      - intros x Hx i y Hw. apply tg_event_no_write in Hx.
        unfold is_store_write in Hx. rewrite Hw in Hx. discriminate. }
    assert (Hs : since P s s'
                 ∧ ∃ s0 st, since P s0 s'
                            ∧ json_store s0 !! TaskInfo.hash task_info = Some st
                            ∧ TaskStatus.done st = false).
    { destruct (json_store s !! TaskInfo.hash task_info) as [st|] eqn:E.
      - rewrite (pipeline_known _ _ _ _ _ _ E) in H.
        destruct (TaskStatus.done st) eqn:Hd; [discriminate|].
        split; [eapply Hrun; eauto|]. exists s, st. eauto.
      - rewrite (pipeline_new _ _ _ _ _ E) in H.
        apply Hrun in H; [|reflexivity].
        split.
        + eapply since_trans; [|exact H].
          exists [StoreAdd (TaskInfo.hash task_info) TaskStatus.new].
          simpl. repeat split; auto. constructor; [|constructor].
          intros i x [= <- <-]. reflexivity.
        + eexists _, TaskStatus.new. split; [exact H|]. simpl.
          rewrite lookup_insert_eq. auto. }
    destruct Hs as [(evs & T & S & F) (s0 & st & (evs0 & _ & S0 & F0) & L & Hd)].
    exists evs. repeat split; auto.
    + intros x i y Hx Hw. rewrite Forall_forall in F. exact (F x Hx i y Hw).
    + rewrite S0. apply (replay_keeps (fun st => TaskStatus.done st = false));
        eauto.
Qed.

End ResumeFacts.

Lemma resume_skips_acquisition_witness :
  let run := pipeline (Scripted.env Scripted.plain) Scripted.not_publishing 5
               Scripted.task
               (Scripted.init {["abc123" := Scripted.acquired]}
                              Scripted.no_config 0%nat) in
  (∃ evs, trace run.2 = [] ++ evs ∧ ∀ e, e ∈ evs → is_bt_call e = false)
  ∧ ∃ rest,
      trace run.2
      = [] ++ FrCheckTaskExist (Path.name (Path.of_string "/data/abc123.mkv"))
           :: rest.
Proof.
  intros run.
  destruct (resume_skips_acquisition
              (Scripted.env Scripted.plain) Scripted.not_publishing 4
              Scripted.task
              (Scripted.init {["abc123" := Scripted.acquired]}
                             Scripted.no_config 0%nat)
              Scripted.acquired "/data/abc123.mkv" run.1 run.2)
    as [H1 H2];
    [reflexivity | reflexivity | reflexivity | apply surjective_pairing |].
  split; [exact H1 | exact (H2 eq_refl)].
Defined.

Lemma stage_error_keeps_checkpoint_witness :
  let s0 := Scripted.init {["abc123" := Scripted.acquired]}
                          Scripted.no_config 0%nat in
  let run := pipeline (Scripted.env Scripted.refusing) Scripted.publishing 5
                      Scripted.task s0 in
  run.1 = Raise (OtherError "HTTPStatusError" "500 Internal Server Error")
  ∧ ∃ evs, trace run.2 = trace s0 ++ evs
           ∧ json_store run.2 = replay evs (json_store s0)
           ∧ (∀ x i st, x ∈ evs → store_write x = Some (i, st) →
                        TaskStatus.done st = false)
           ∧ ∃ st, json_store run.2 !! TaskInfo.hash Scripted.task = Some st
                   ∧ TaskStatus.done st = false.
Proof.
  intros s0 run. split; [reflexivity|].
  apply (proj2 (proj2 (proj2
           (stage_error_keeps_checkpoint (Scripted.env Scripted.refusing)
              Scripted.publishing 5 Scripted.task)))
           s0 (OtherError "HTTPStatusError" "500 Internal Server Error")).
  reflexivity.
Defined.

(** ** The transcode client: upload *)

Section UploadFacts.
Context {World : Type} (env : Env World).
Local Abbreviation state := (state World).
Implicit Types (s : state).

(** C10. [upload_and_new_task] raises [FileNotFoundError] when the local
    file does not exist, and [ValueError] when the file exists and its
    extension is not one of the supported ones; in both cases the only thing
    it has done is look for the file: no presigned-URL request, no upload,
    no task creation. *)
Theorem upload_rejects_before_any_request video_path s w :
  let path := Path.to_string video_path in
  let after_look :=
    mkState (json_store s) (rss_config s) w (trace s ++ [FsExists path]) in
  (fs_exists env path (world s) = (false, w) →
   upload_and_new_task env video_path s
   = (Raise (FileNotFoundError ("File not found: " +:+ path)), after_look))
  ∧ (fs_exists env path (world s) = (true, w) →
     Path.suffix video_path ∉ VIDEO_EXTENSIONS env →
     upload_and_new_task env video_path s
     = (Raise (ValueError ("Only support these video extensions: "
                           +:+ Path.join ", " (VIDEO_EXTENSIONS env))),
        after_look))
  ∧ is_finalrip_call (FsExists path) = false.
Proof.
  intros path after_look. split; [|split; [|reflexivity]].
  - intros H. unfold upload_and_new_task, bind, query, call.
    fold path. rewrite H. reflexivity.
  - intros H Hext. unfold upload_and_new_task, bind, query, call.
    fold path. rewrite H. simpl.
    rewrite bool_decide_eq_false_2 by exact Hext. reflexivity.
Qed.

End UploadFacts.

Lemma upload_rejects_before_any_request_witness :
  upload_and_new_task (Scripted.env Scripted.mp4_only)
    (Path.of_string "/data/missing.mp4")
    (Scripted.init ∅ Scripted.no_config 0%nat)
  = (Raise (FileNotFoundError "File not found: /data/missing.mp4"),
     mkState ∅ Scripted.no_config 0%nat [FsExists "/data/missing.mp4"])
  ∧ upload_and_new_task (Scripted.env Scripted.mp4_only)
      (Path.of_string "/data/abc123.mkv")
      (Scripted.init ∅ Scripted.no_config 0%nat)
    = (Raise (ValueError "Only support these video extensions: .mp4"),
       mkState ∅ Scripted.no_config 0%nat [FsExists "/data/abc123.mkv"]).
Proof.
  split.
  - apply (proj1 (upload_rejects_before_any_request
                    (Scripted.env Scripted.mp4_only)
                    (Path.of_string "/data/missing.mp4")
                    (Scripted.init ∅ Scripted.no_config 0%nat) 0%nat)).
    reflexivity.
  - apply (proj1 (proj2 (upload_rejects_before_any_request
                    (Scripted.env Scripted.mp4_only)
                    (Path.of_string "/data/abc123.mkv")
                    (Scripted.init ∅ Scripted.no_config 0%nat) 0%nat))).
    + reflexivity.
    + vm_compute. intros H. apply list_elem_of_In in H.
      destruct H as [H|[]]. discriminate H.
Defined.

(** ** The publish client *)

Section SendVideoFacts.
Context {World : Type} (env : Env World).
Local Abbreviation M := (M World).
Local Abbreviation state := (state World).
Implicit Types (s : state).

Lemma bot_calls_app evs1 evs2 :
  bot_calls (evs1 ++ evs2) = (bot_calls evs1 + bot_calls evs2)%nat.
Proof. unfold bot_calls. rewrite filter_app, length_app. reflexivity. Qed.



Lemma retry_waits_app evs1 evs2 :
  retry_waits (evs1 ++ evs2) = (retry_waits evs1 + retry_waits evs2)%nat.
Proof. unfold retry_waits. rewrite filter_app, length_app. reflexivity. Qed.

(** a body that always raises uses up every attempt *)
Lemma retrying_always_raises {A} more (body : M A) (Q : exn → Prop) n :
  (∀ s, ∃ e evs, (body s).1 = Raise e ∧ Q e
                 ∧ trace (body s).2 = trace s ++ evs
                 ∧ bot_calls evs = n ∧ retry_waits evs = 0%nat) →
  ∀ s, ∃ e evs, (retrying more body s).1 = Raise (RetryError e) ∧ Q e
                ∧ trace (retrying more body s).2 = trace s ++ evs
                ∧ bot_calls evs = (S more * n)%nat
                ∧ retry_waits evs = more.
Proof.
  intros Hb. induction more as [|more IH]; intros s;
    destruct (Hb s) as (e & evs & H1 & HQ & T & Cb & Cw);
    simpl retrying; unfold try_except;
    destruct (body s) as [r s1]; simpl in H1, T; subst r.
  - exists e, evs. simpl. repeat split; auto. lia.
  - unfold bind, emit. simpl.
    match goal with
    | |- context [retrying more body ?s2] =>
        destruct (IH s2) as (e2 & evs2 & R2 & Q2 & T2 & Cb2 & Cw2)
    end.
    simpl in T2. exists e2, (evs ++ RetryWait :: evs2).
    split; [exact R2|]. split; [exact Q2|]. split; [|split].
    + rewrite T2, T, <- !app_assoc. reflexivity.
    + change (RetryWait :: evs2) with ([RetryWait] ++ evs2).
      rewrite !bot_calls_app, Cb, Cb2.
      change (bot_calls [RetryWait]) with 0%nat. lia.
    + change (RetryWait :: evs2) with ([RetryWait] ++ evs2).
      rewrite !retry_waits_app, Cw, Cw2.
      change (retry_waits [RetryWait]) with 1%nat. lia.
Qed.

Lemma lookups_app evs1 evs2 :
  lookups (evs1 ++ evs2) = (lookups evs1 + lookups evs2)%nat.
Proof. unfold lookups. rewrite filter_app, length_app. reflexivity. Qed.

(** a body that always looks for its file [n] times does so on every
    attempt *)
Lemma retrying_always_looks {A} more (body : M A) n :
  (∀ s, ∃ e evs, (body s).1 = Raise e
                 ∧ trace (body s).2 = trace s ++ evs
                 ∧ lookups evs = n) →
  ∀ s, ∃ evs, trace (retrying more body s).2 = trace s ++ evs
              ∧ lookups evs = (S more * n)%nat.
Proof.
  intros Hb. induction more as [|more IH]; intros s;
    destruct (Hb s) as (e & evs & H1 & T & Cl);
    simpl retrying; unfold try_except;
    destruct (body s) as [r s1]; simpl in H1, T; subst r.
  - exists evs. simpl. split; [exact T | lia].
  - unfold bind, emit. simpl.
    match goal with
    | |- context [retrying more body ?s2] =>
        destruct (IH s2) as (evs2 & T2 & Cl2)
    end.
    simpl in T2. exists (evs ++ RetryWait :: evs2). split.
    + rewrite T2, T, <- !app_assoc. reflexivity.
    + change (RetryWait :: evs2) with ([RetryWait] ++ evs2).
      rewrite !lookups_app, Cl, Cl2.
      change (lookups [RetryWait]) with 0%nat. lia.
Qed.






End SendVideoFacts.



(** A network that stays down: the bot is asked ten times, then the call
    raises [RetryError]. *)
Example send_video_network_down :
  let run := send_video (Scripted.env Scripted.plain)
               {| channel_id := "@channel" |}
               (Path.of_string "/data/abc123.mkv") None
               (Scripted.init ∅ Scripted.no_config 12%nat) in
  run.1 = Raise (RetryError (NetworkError "timed out"))
  ∧ bot_calls (trace run.2) = 10%nat
  ∧ world run.2 = 2%nat.
Proof. repeat split; reflexivity. Qed.

(** A network that comes back: two attempts fail with a network error,
    each followed by a wait, and the third delivers the video. *)
Example send_video_recovers :
  send_video (Scripted.env Scripted.plain) {| channel_id := "@channel" |}
             (Path.of_string "/data/abc123.mkv") None
             (Scripted.init ∅ Scripted.no_config 2%nat)
  = (Return tt,
     mkState ∅ Scripted.no_config 0%nat
       [FsExists "/data/abc123.mkv"; FsRead "/data/abc123.mkv";
        BotSendVideo "@channel" "abc123.mkv" "abc123.mkv";
        Print ("Network error: timed out, video path: /data/abc123.mkv"
               +:+ ", video_caption: abc123.mkv, retrying...");
        RetryWait;
        FsExists "/data/abc123.mkv"; FsRead "/data/abc123.mkv";
        BotSendVideo "@channel" "abc123.mkv" "abc123.mkv";
        Print ("Network error: timed out, video path: /data/abc123.mkv"
               +:+ ", video_caption: abc123.mkv, retrying...");
        RetryWait;
        FsExists "/data/abc123.mkv"; FsRead "/data/abc123.mkv";
        BotSendVideo "@channel" "abc123.mkv" "abc123.mkv"]).
Proof. reflexivity. Qed.

(** ** The task executor *)

Section ExecutorFacts.
Context {Work : Type}.
Implicit Types (ex : AsyncTaskExecutor.t Work).
Import AsyncTaskExecutor.

Lemma active_app task_id ex1 ex2 :
  active task_id (ex1 ++ ex2)
  = (active task_id ex1 + active task_id ex2)%nat.
Proof. unfold active. rewrite filter_app, length_app. reflexivity. Qed.

Lemma not_running_inactive task_id ex :
  is_running task_id ex = false → active task_id ex = 0%nat.
Proof.
  unfold is_running, active. intros H. apply bool_decide_eq_false in H.
  induction ex as [|[i w] ex IH]; [reflexivity|].
  rewrite filter_cons. simpl in *.
  destruct (decide (i = task_id)) as [->|Hne].
  - exfalso. apply H. left.
  - apply IH. intros Hin. apply H. right. exact Hin.
Qed.

Lemma running_active task_id ex :
  is_running task_id ex = true → (1 ≤ active task_id ex)%nat.
Proof.
  unfold is_running, active. intros H. apply bool_decide_eq_true in H.
  induction ex as [|[i w] ex IH]; [inversion H|].
  rewrite filter_cons. simpl in *.
  destruct (decide (i = task_id)) as [->|Hne]; [simpl; lia|].
  apply IH. inversion H; subst; [congruence | assumption].
Qed.

Lemma finish_active task_id task_id' ex :
  (active task_id' (finish task_id ex) ≤ active task_id' ex)%nat.
Proof.
  unfold active, finish. induction ex as [|[i w] ex IH]; [reflexivity|].
  rewrite !filter_cons. simpl.
  destruct (decide (i ≠ task_id)); destruct (decide (i = task_id'));
    rewrite ?filter_cons; simpl;
    try destruct (decide (i = task_id')); simpl; try lia; congruence.
Qed.

Lemma step_keeps_single ex ex' :
  step ex ex' →
  (∀ task_id, (active task_id ex ≤ 1)%nat) →
  ∀ task_id, (active task_id ex' ≤ 1)%nat.
Proof.
  intros Hs Hinv i. destruct Hs as [j w ex|j ex].
  - unfold submit_task. destruct (is_running j ex) eqn:E; [apply Hinv|].
    rewrite active_app. unfold active at 2. rewrite filter_cons. simpl.
    destruct (decide (j = i)) as [->|Hne]; simpl.
    + rewrite (not_running_inactive _ _ E). lia.
    + specialize (Hinv i). lia.
  - pose proof (finish_active j i ex). specialize (Hinv i). lia.
Qed.

(** C8. Submitting work for an identity that has an execution running
    leaves the executor as it is: the submission is dropped, not queued.
    Submitting for an identity that is not running starts exactly one
    execution.  So in every state the executor can reach, an identity has at
    most one active execution. *)
Theorem executor_single_execution ex task_id work :
  reachable ex →
  (is_running task_id ex = true → submit_task task_id work ex = ex)
  ∧ (is_running task_id ex = false →
     active task_id (submit_task task_id work ex) = 1%nat)
  ∧ (active task_id ex ≤ 1)%nat
  ∧ (active task_id (submit_task task_id work ex) ≤ 1)%nat.
Proof.
  intros Hr.
  assert (Hinv : ∀ ex', reachable ex' → ∀ i, (active i ex' ≤ 1)%nat).
  { intros ex' H. unfold reachable in H.
    refine (rtc_ind_r (fun e => ∀ i, (active i e ≤ 1)%nat) empty _ _ ex' H).
    - intros i. cbv. lia.
    - intros y z _ Hs IH. eapply step_keeps_single; eauto. }
  repeat split.
  - intros H. unfold submit_task. rewrite H. reflexivity.
  - intros H. unfold submit_task. rewrite H. rewrite active_app.
    rewrite (not_running_inactive _ _ H). unfold active.
    rewrite filter_cons. simpl. destruct (decide (task_id = task_id));
      [reflexivity | congruence].
  - apply Hinv, Hr.
  - apply Hinv. eapply rtc_r; [exact Hr | constructor].
Qed.

End ExecutorFacts.

Lemma executor_single_execution_witness :
  let ex := AsyncTaskExecutor.submit_task "abc123" Scripted.task
              AsyncTaskExecutor.empty in
  AsyncTaskExecutor.submit_task "abc123" Scripted.task ex = ex
  ∧ AsyncTaskExecutor.active "abc123" ex = 1%nat.
Proof.
  intros ex.
  assert (Hr : AsyncTaskExecutor.reachable ex).
  { eapply rtc_l; [constructor | apply rtc_refl]. }
  split.
  - apply (proj1 (executor_single_execution ex "abc123" Scripted.task Hr)).
    reflexivity.
  - apply (proj1 (proj2 (executor_single_execution AsyncTaskExecutor.empty
                           "abc123" Scripted.task (rtc_refl _ _)))).
    reflexivity.
Defined.

(** ** The driver *)

Section DriverFacts.
Context {World : Type} (env : Env World) (self : Loop).
Local Abbreviation M := (M World).
Local Abbreviation state := (state World).
Implicit Types (s : state).

Lemma build_task_info_unknown torrent_info cfg rc :
  scripts rc !! nyaa_script cfg = None ∨ params rc !! nyaa_param cfg = None →
  ∃ msg, build_task_info torrent_info cfg rc = Err (ValueError msg).
Proof.
  unfold build_task_info. intros [H|H].
  - rewrite H. eauto.
  - destruct (scripts rc !! nyaa_script cfg); [rewrite H|]; eauto.
Qed.

Lemma keeps_config_bind {A B} (m : M A) (k : A → M B) :
  keeps_config m → (∀ a, keeps_config (k a)) → keeps_config (bind m k).
Proof.
  intros Hm Hk s. unfold bind. specialize (Hm s).
  destruct (m s) as [[a|e|] s1]; simpl in *; auto.
  rewrite Hk. exact Hm.
Qed.

Lemma keeps_config_for_each {A} (l : list A) (f : A → M unit) :
  (∀ a, keeps_config (f a)) → keeps_config (for_each l f).
Proof.
  intros Hf. induction l as [|x l IH]; simpl; [intros s; reflexivity|].
  apply keeps_config_bind; auto.
Qed.

Lemma keeps_config_call {A} e (op : World → result A * World) :
  keeps_config (call e op).
Proof.
  intros s. unfold call. destruct (op (world s)) as [[a|x] w]; reflexivity.
Qed.

Lemma discover_feed_keeps_config cfg : keeps_config (discover_feed env cfg).
Proof.
  unfold discover_feed. apply keeps_config_bind; [apply keeps_config_call|].
  intros l. apply keeps_config_for_each. intros torrent_info.
  apply keeps_config_bind; [intros s; reflexivity|]. intros rc.
  destruct (build_task_info torrent_info cfg rc); intros s; reflexivity.
Qed.

(** a loop body that raises ends the loop: the elements after it are not
    visited *)
Lemma for_each_raise {A} (l1 : list A) x l2 (f : A → M unit) s s1 e s' :
  for_each l1 f s = (Return tt, s1) →
  f x s1 = (Raise e, s') →
  for_each (l1 ++ x :: l2) f s = (Raise e, s').
Proof.
  revert s. induction l1 as [|y l1 IH]; intros s H1 H2; simpl in *.
  - inversion H1; subst. unfold bind. rewrite H2. reflexivity.
  - unfold bind in *. destruct (f y s) as [[[]|e'|] s0]; try discriminate.
    apply IH; assumption.
Qed.

(** C3, as amended. In a discovery tick, when the feed that is being read
    names a script or a parameter profile the routing configuration does not
    have, building the task for its first item raises [ValueError] before
    anything of that feed is submitted; the error leaves [Loop.start]: the
    feeds handled before it keep their submissions, nothing after the feed's
    parsing is done in that tick, and the loop does not go on to another
    tick. *)
Theorem unknown_profile_stops_the_driver
    fuel s rc w before cfg after s1 item items w1 :
  stop_event_is_set env (world s) = false →
  refresh_config env (rss_config s) (world s) = (Ok rc, w) →
  nyaa rc = before ++ cfg :: after →
  for_each before (discover_feed env)
           (mkState (json_store s) rc w (trace s ++ [RefreshConfig]))
  = (Return tt, s1) →
  parse_nyaa env cfg (world s1) = (Ok (item :: items), w1) →
  scripts rc !! nyaa_script cfg = None ∨ params rc !! nyaa_param cfg = None →
  ∃ msg,
    build_task_info item cfg rc = Err (ValueError msg)
    ∧ start env self (S fuel) s
      = (Raise (ValueError msg),
         mkState (json_store s1) rc w1 (trace s1 ++ [ParseNyaa cfg])).
Proof.
  intros Hstop Hrefresh Hnyaa Hbefore Hparse Hbad.
  assert (Hrc : rss_config s1 = rc).
  { pose proof (keeps_config_for_each before (discover_feed env)
                  (discover_feed_keeps_config)
                  (mkState (json_store s) rc w (trace s ++ [RefreshConfig])))
      as H.
    rewrite Hbefore in H. exact H. }
  destruct (build_task_info_unknown item cfg rc Hbad) as [msg Hb].
  exists msg. split; [exact Hb|].
  assert (Hfeed : discover_feed env cfg s1
                  = (Raise (ValueError msg),
                     mkState (json_store s1) rc w1
                             (trace s1 ++ [ParseNyaa cfg]))).
  { unfold discover_feed, bind, call, get_rss_config. rewrite Hparse.
    simpl. unfold bind. simpl. rewrite Hrc, Hb. reflexivity. }
  simpl start. unfold bind at 1. unfold is_set. rewrite Hstop.
  unfold bind at 1. unfold discovery_tick.
  unfold bind at 1. unfold do_refresh_config. rewrite Hrefresh.
  unfold bind at 1. unfold get_rss_config at 1. simpl rss_config.
  rewrite Hnyaa.
  rewrite (for_each_raise before cfg after (discover_feed env) _ _ _ _
             Hbefore Hfeed).
  reflexivity.
Qed.

End DriverFacts.

Lemma unknown_profile_stops_the_driver_witness :
  ∃ msg,
    build_task_info Scripted.item Scripted.bad_feed Scripted.two_feeds
    = Err (ValueError msg)
    ∧ start (Scripted.env Scripted.two_feeds_setup) Scripted.publishing 3
            (Scripted.init ∅ Scripted.two_feeds 0%nat)
      = (Raise (ValueError msg),
         mkState ∅ Scripted.two_feeds 0%nat
                 ([] ++ [RefreshConfig] ++ [ParseNyaa Scripted.bad_feed])).
Proof.
  apply (unknown_profile_stops_the_driver
           (Scripted.env Scripted.two_feeds_setup) Scripted.publishing 2
           (Scripted.init ∅ Scripted.two_feeds 0%nat) Scripted.two_feeds
           0%nat [] Scripted.bad_feed [Scripted.good_feed]
           (mkState ∅ Scripted.two_feeds 0%nat ([] ++ [RefreshConfig]))
           Scripted.item [] 0%nat);
    try reflexivity.
  left. reflexivity.
Defined.

(** C3, as stated, fails here: the first feed names a script that is not
    configured and the second feed is fine, with an item whose task can be
    built; the tick raises [ValueError] after parsing the first feed, the
    item of the second feed is never submitted, and [Loop.start], which had
    fuel for three ticks, ends with that error after one refresh. *)
Lemma driver_drops_the_rest_of_the_tick :
  let run := start (Scripted.env Scripted.two_feeds_setup) Scripted.publishing
                   3 (Scripted.init ∅ Scripted.two_feeds 0%nat) in
  (∃ task_info,
     build_task_info Scripted.other_item Scripted.good_feed Scripted.two_feeds
     = Ok task_info)
  ∧ run.1 = Raise (ValueError "script not found: missing")
  ∧ trace run.2 = [RefreshConfig; ParseNyaa Scripted.bad_feed].
Proof. repeat split. eexists. reflexivity. Qed.

(** ** [pathlib.Path] on examples *)

Example path_name_ex :
  Path.name (Path.of_string "/data/show/ep01.mkv") = "ep01.mkv".
Proof. reflexivity. Qed.

Example path_parent_ex :
  Path.to_string (Path.parent (Path.of_string "/data//show/./ep01.mkv"))
  = "/data/show".
Proof. reflexivity. Qed.

Example path_suffix_ex :
  Path.suffix (Path.of_string "/data/show/ep01.tar.mkv") = ".mkv"
  ∧ Path.suffix (Path.of_string "/data/.hidden") = EmptyString
  ∧ Path.suffix (Path.of_string "/data/clip.") = EmptyString.
Proof. repeat split; reflexivity. Qed.

Example path_div_ex :
  Path.to_string (Path.div (Path.of_string "/data/show") "ep01.mkv-encoded.mkv")
  = "/data/show/ep01.mkv-encoded.mkv".
Proof. reflexivity. Qed.

(** exactly two leading slashes are kept, three or more are one *)
Example path_root_ex :
  Path.to_string (Path.of_string "//data/show") = "//data/show"
  ∧ Path.to_string (Path.of_string "///data/show") = "/data/show"
  ∧ Path.to_string (Path.of_string "//") = "//"
  ∧ Path.to_string (Path.parent (Path.of_string "//data/show")) = "//data"
  ∧ Path.to_string (Path.div (Path.of_string "/data") "//host/share")
    = "//host/share"
  ∧ Path.to_string (Path.of_string EmptyString) = ".".
Proof. repeat split; reflexivity. Qed.


(** ** Two runs from the spec's scenarios *)

(** A task the store does not know, publishing disabled: the fresh record is
    created, the acquisition runs and its path is persisted, then the
    transcoding; the run ends at the assertion after the publish stage. *)
Example fresh_task_run :
  let run := pipeline (Scripted.env Scripted.plain) Scripted.not_publishing 5
                      Scripted.task
                      (Scripted.init ∅ Scripted.no_config 0%nat) in
  run.1 = Raise AssertionError
  ∧ omap store_write (trace run.2)
    = [("abc123", TaskStatus.new);
       ("abc123", Scripted.acquired);
       ("abc123", Scripted.transcoded)]
  ∧ json_store run.2 !! "abc123" = Some Scripted.transcoded.
Proof. repeat split; reflexivity. Qed.

(** The transcode server refuses to start the task: the acquired path is
    the last checkpoint, and it is what the store holds. *)
Example refused_start_run :
  let run := pipeline (Scripted.env Scripted.refusing) Scripted.publishing 5
                      Scripted.task
                      (Scripted.init ∅ Scripted.no_config 0%nat) in
  run.1 = Raise (OtherError "HTTPStatusError" "500 Internal Server Error")
  ∧ omap store_write (trace run.2)
    = [("abc123", TaskStatus.new); ("abc123", Scripted.acquired)]
  ∧ json_store run.2 !! "abc123" = Some Scripted.acquired.
Proof. repeat split; reflexivity. Qed.

(** * More of the code *)

(** ** [build_task_info] and the discovery tick *)

Section DiscoveryFacts.
Context {World : Type} (env : Env World) (self : Loop).
Local Abbreviation M := (M World).
Local Abbreviation state := (state World).
Implicit Types (P : event → Prop) (s : state).

Lemma build_task_info_spec torrent_info cfg rc task_info :
  build_task_info torrent_info cfg rc = Ok task_info
  ↔ ∃ script param,
      scripts rc !! nyaa_script cfg = Some script
      ∧ params rc !! nyaa_param cfg = Some param
      ∧ task_info
        = task_info_of torrent_info (nyaa_uploader cfg) script param.
Proof.
  unfold build_task_info, task_info_of. split.
  - destruct (scripts rc !! nyaa_script cfg) as [script|]; [|discriminate].
    destruct (params rc !! nyaa_param cfg) as [param|]; [|discriminate].
    intros [= <-]. eauto.
  - intros (script & param & -> & -> & ->). reflexivity.
Qed.

(** X1. [build_task_info] succeeds exactly when the feed's script name and
    parameter name are both in the configuration, and the task it returns
    keeps the seven fields of the item, takes the uploader of the feed and
    the configured text of the script and of the parameters. *)
Theorem build_task_info_ok torrent_info cfg rc task_info :
  build_task_info torrent_info cfg rc = Ok task_info
  ↔ ∃ script param,
      scripts rc !! nyaa_script cfg = Some script
      ∧ params rc !! nyaa_param cfg = Some param
      ∧ task_info
        = task_info_of torrent_info (nyaa_uploader cfg) script param.
Proof. apply build_task_info_spec. Qed.

Lemma build_task_info_hash torrent_info cfg rc task_info :
  build_task_info torrent_info cfg rc = Ok task_info →
  TaskInfo.hash task_info = TorrentInfo.hash torrent_info.
Proof.
  intros H. apply build_task_info_spec in H as (script & param & _ & _ & ->).
  reflexivity.
Qed.

(** X2. The script name is looked up first: when it is unknown the error
    is [ValueError "script not found: <name>"], whatever the parameter
    name; only with a known script does an unknown parameter name give
    [ValueError "param not found: <name>"]. *)
Theorem build_task_info_error_order torrent_info cfg rc :
  (scripts rc !! nyaa_script cfg = None →
   build_task_info torrent_info cfg rc
   = Err (ValueError ("script not found: " +:+ nyaa_script cfg)))
  ∧ (is_Some (scripts rc !! nyaa_script cfg) →
     params rc !! nyaa_param cfg = None →
     build_task_info torrent_info cfg rc
     = Err (ValueError ("param not found: " +:+ nyaa_param cfg))).
Proof.
  unfold build_task_info. split.
  - intros ->. reflexivity.
  - intros [script ->] ->. reflexivity.
Qed.

(** the submissions a feed with a resolved profile makes *)
Lemma for_each_submits cfg script param items s :
  scripts (rss_config s) !! nyaa_script cfg = Some script →
  params (rss_config s) !! nyaa_param cfg = Some param →
  for_each items
    (fun torrent_info =>
       bind get_rss_config
         (fun rc =>
            match build_task_info torrent_info cfg rc with
            | Ok task_info =>
                submit_task (TorrentInfo.hash torrent_info) task_info
            | Err e => raise e
            end)) s
  = (Return tt,
     mkState (json_store s) (rss_config s) (world s)
       (trace s
        ++ map (fun torrent_info =>
                  SubmitTask (TorrentInfo.hash torrent_info)
                    (task_info_of torrent_info (nyaa_uploader cfg)
                                  script param)) items)).
Proof.
  intros Hs Hp. revert s Hs Hp.
  induction items as [|item items IH]; intros s Hs Hp; simpl.
  - rewrite app_nil_r. destruct s; reflexivity.
  - unfold bind at 1. unfold bind at 1. unfold get_rss_config at 1.
    assert (Hb : build_task_info item cfg (rss_config s)
                 = Ok (task_info_of item (nyaa_uploader cfg) script param)).
    { apply build_task_info_spec. eauto. }
    rewrite Hb. unfold submit_task, emit. rewrite IH by assumption.
    simpl. rewrite <- app_assoc. reflexivity.
Qed.

Lemma discover_feed_known cfg s items w script param :
  parse_nyaa env cfg (world s) = (Ok items, w) →
  scripts (rss_config s) !! nyaa_script cfg = Some script →
  params (rss_config s) !! nyaa_param cfg = Some param →
  discover_feed env cfg s
  = (Return tt,
     mkState (json_store s) (rss_config s) w
       (trace s
        ++ ParseNyaa cfg
        :: map (fun torrent_info =>
                  SubmitTask (TorrentInfo.hash torrent_info)
                    (task_info_of torrent_info (nyaa_uploader cfg)
                                  script param)) items)).
Proof.
  intros Hparse Hs Hp. unfold discover_feed. unfold bind at 1, call.
  rewrite Hparse.
  rewrite (for_each_submits cfg script param items) by assumption.
  simpl. rewrite <- app_assoc. reflexivity.
Qed.

(** X3. A feed whose script and parameter names are configured: every
    item the feed yields is submitted, once and in the order of the feed,
    under the item's hash, with the task built for it; the store is not
    touched. *)
Theorem discover_feed_submits_all cfg s items w script param :
  parse_nyaa env cfg (world s) = (Ok items, w) →
  scripts (rss_config s) !! nyaa_script cfg = Some script →
  params (rss_config s) !! nyaa_param cfg = Some param →
  discover_feed env cfg s
  = (Return tt,
     mkState (json_store s) (rss_config s) w
       (trace s
        ++ ParseNyaa cfg
        :: map (fun torrent_info =>
                  SubmitTask (TorrentInfo.hash torrent_info)
                    (task_info_of torrent_info (nyaa_uploader cfg)
                                  script param)) items)).
Proof. apply discover_feed_known. Qed.

Lemma submissions_of_known rc cfg items script param :
  scripts rc !! nyaa_script cfg = Some script →
  params rc !! nyaa_param cfg = Some param →
  submissions_of rc cfg items
  = map (fun torrent_info =>
           SubmitTask (TorrentInfo.hash torrent_info)
             (task_info_of torrent_info (nyaa_uploader cfg) script param))
        items.
Proof.
  intros Hs Hp. unfold submissions_of.
  induction items as [|item items IH]; [reflexivity|]. simpl.
  assert (Hb : build_task_info item cfg rc
               = Ok (task_info_of item (nyaa_uploader cfg) script param)).
  { apply build_task_info_spec. eauto. }
  rewrite Hb. simpl. f_equal. exact IH.
Qed.

Lemma for_each_feeds (feed_of : NyaaConfig → list TorrentInfo.t) rc feeds s :
  (∀ cfg w, parse_nyaa env cfg w = (Ok (feed_of cfg), w)) →
  rss_config s = rc →
  Forall (profile_known rc) feeds →
  for_each feeds (discover_feed env) s
  = (Return tt,
     mkState (json_store s) rc (world s)
       (trace s
        ++ mjoin (map (fun cfg =>
                         ParseNyaa cfg
                         :: submissions_of rc cfg (feed_of cfg)) feeds))).
Proof.
  intros Hfeed Hrc Hknown. revert s Hrc.
  induction Hknown as [|cfg feeds [[script Hs] [param Hp]] _ IH];
    intros s Hrc; simpl.
  - rewrite app_nil_r. subst rc. destruct s; reflexivity.
  - unfold bind at 1.
    rewrite (discover_feed_known cfg s (feed_of cfg) (world s) script param);
      [|apply Hfeed|rewrite Hrc; exact Hs|rewrite Hrc; exact Hp].
    rewrite IH by exact Hrc. simpl.
    rewrite (submissions_of_known rc cfg _ script param Hs Hp).
    rewrite <- app_assoc. reflexivity.
Qed.

(** X4. One tick with feeds that answer the same whatever the moment and
    whose profiles are all configured: after the refresh every feed is
    parsed in the order of the configuration and every item of every feed
    is submitted, once and in order; the store is as before. *)
Theorem discovery_tick_submits_everything
    (feed_of : NyaaConfig → list TorrentInfo.t) s rc w :
  refresh_config env (rss_config s) (world s) = (Ok rc, w) →
  (∀ cfg w, parse_nyaa env cfg w = (Ok (feed_of cfg), w)) →
  Forall (profile_known rc) (nyaa rc) →
  discovery_tick env s
  = (Return tt,
     mkState (json_store s) rc w
       (trace s
        ++ RefreshConfig
        :: mjoin (map (fun cfg =>
                         ParseNyaa cfg
                         :: submissions_of rc cfg (feed_of cfg)) (nyaa rc))))
  ∧ ∀ cfg, cfg ∈ nyaa rc →
           length (submissions_of rc cfg (feed_of cfg))
           = length (feed_of cfg).
Proof.
  intros Hrefresh Hfeed Hknown. split.
  - unfold discovery_tick. unfold bind at 1. unfold do_refresh_config.
    rewrite Hrefresh. unfold bind at 1. unfold get_rss_config at 1.
    simpl rss_config.
    rewrite (for_each_feeds feed_of rc) by (assumption || reflexivity).
    simpl. rewrite <- app_assoc. reflexivity.
  - intros cfg Hin. rewrite Forall_forall in Hknown.
    destruct (Hknown cfg Hin) as [[script Hs] [param Hp]].
    rewrite (submissions_of_known rc cfg _ script param Hs Hp).
    apply length_map.
Qed.

(** what the driver adds to the trace, for any [P] that admits it *)
Lemma emits_for_each P {A} (l : list A) (f : A → M unit) :
  (∀ a, emits P (f a)) → emits P (for_each l f).
Proof.
  intros Hf. induction l as [|x l IH]; simpl; [apply emits_ret|].
  apply emits_bind; auto.
Qed.

Lemma discover_feed_emits P cfg :
  P (ParseNyaa cfg) →
  (∀ torrent_info rc task_info,
     build_task_info torrent_info cfg rc = Ok task_info →
     P (SubmitTask (TorrentInfo.hash torrent_info) task_info)) →
  emits P (discover_feed env cfg).
Proof.
  intros Hparse Hsubmit. unfold discover_feed.
  apply emits_bind; [apply emits_call; auto|]. intros items.
  apply emits_for_each. intros torrent_info.
  apply emits_bind; [intros s; apply since_refl|]. intros rc.
  destruct (build_task_info torrent_info cfg rc) eqn:E;
    [|apply emits_raise].
  apply emits_emit; [eapply Hsubmit; eauto | reflexivity].
Qed.

Lemma start_emits P fuel :
  P RefreshConfig → (∀ cfg, P (ParseNyaa cfg)) → (∀ n, P (Sleep n)) →
  (∀ torrent_info cfg rc task_info,
     build_task_info torrent_info cfg rc = Ok task_info →
     P (SubmitTask (TorrentInfo.hash torrent_info) task_info)) →
  emits P (start env self fuel).
Proof.
  intros Hr Hp Hsl Hsub. induction fuel as [|fuel IH]; simpl.
  - apply emits_pending.
  - apply emits_bind; [intros s; apply since_refl|]. intros [|].
    + apply emits_ret.
    + apply emits_bind; [|intros _; apply emits_bind;
                           [apply emits_emit; auto | intros _; exact IH]].
      unfold discovery_tick. apply emits_bind.
      * intros s. unfold do_refresh_config.
        destruct (refresh_config env (rss_config s) (world s)) as [[c|e] w];
          exists [RefreshConfig]; simpl; auto.
      * intros _. apply emits_bind; [intros s; apply since_refl|].
        intros rc. apply emits_for_each. intros cfg.
        apply discover_feed_emits; eauto.
Qed.

(** X5. Whatever the feeds and the configuration do and however long the
    driver runs, every submission it makes names the hash of the task it
    carries: the identity the executor deduplicates on is the key under
    which the pipeline keeps the task's status. *)
Theorem start_submissions_are_keyed fuel s :
  ∃ evs, trace (start env self fuel s).2 = trace s ++ evs
         ∧ ∀ task_id task_info,
             SubmitTask task_id task_info ∈ evs →
             TaskInfo.hash task_info = task_id.
Proof.
  destruct (start_emits submission_keyed fuel) with (s := s)
    as (evs & T & _ & F); simpl; auto.
  { intros torrent_info cfg rc task_info H.
    eapply build_task_info_hash; eauto. }
  exists evs. split; [exact T|]. intros task_id task_info Hin.
  rewrite Forall_forall in F. exact (F _ Hin).
Qed.

(** X6. The driver itself never calls a stage client and never writes the
    task-status store: all it does is refresh the configuration, parse
    feeds, submit tasks and sleep. *)
Theorem start_only_discovers fuel s :
  json_store (start env self fuel s).2 = json_store s
  ∧ ∃ evs, trace (start env self fuel s).2 = trace s ++ evs
           ∧ ∀ e, e ∈ evs →
                  is_driver_event e = true
                  ∧ is_bt_call e = false ∧ is_finalrip_call e = false
                  ∧ is_tg_call e = false ∧ is_store_write e = false.
Proof.
  pose proof (start_emits (fun e => is_driver_event e = true) fuel
                eq_refl (fun _ => eq_refl) (fun _ => eq_refl)
                (fun _ _ _ _ _ => eq_refl) s) as Hs.
  split.
  - eapply since_store; [|exact Hs]. intros e. destruct e; cbv; congruence.
  - destruct Hs as (evs & T & _ & F). exists evs. split; [exact T|].
    intros e Hin. rewrite Forall_forall in F. specialize (F e Hin).
    destruct e; cbv in F; try discriminate; repeat split.
Qed.

(** X7. The stop signal is looked at only between ticks: a driver that
    finds it set does nothing at all, and a driver that finds it set after
    a tick has finished that tick and slept the configured interval once. *)
Theorem start_stops_between_ticks fuel s s1 :
  (stop_event_is_set env (world s) = true →
   start env self (S fuel) s = (Return tt, s))
  ∧ (stop_event_is_set env (world s) = false →
     discovery_tick env s = (Return tt, s1) →
     stop_event_is_set env (world s1) = true →
     start env self (S (S fuel)) s
     = (Return tt,
        mkState (json_store s1) (rss_config s1) (world s1)
                (trace s1 ++ [Sleep (loop_interval self)]))).
Proof.
  split.
  - intros H. simpl. unfold bind, is_set. rewrite H. reflexivity.
  - intros H0 Ht H1. simpl. unfold bind at 1. unfold is_set at 1.
    rewrite H0. unfold bind at 1. rewrite Ht.
    unfold bind at 1. unfold sleep, emit.
    unfold bind at 1. unfold is_set. simpl. rewrite H1. reflexivity.
Qed.

End DiscoveryFacts.

(** ** More of the pipeline *)

Section PipelineMore.
Context {World : Type} (env : Env World) (self : Loop).
Local Abbreviation M := (M World).
Local Abbreviation state := (state World).
Implicit Types (P : event → Prop) (s : state).

Lemma bt_stage_emits P fuel task_info st :
  (∀ e, bt_event e → P e) →
  (∀ st', P (StoreUpdate (TaskInfo.hash task_info) st')) →
  emits P (bt_stage env fuel task_info st).
Proof.
  intros He Hw. unfold bt_stage.
  repeat first
    [ eapply emits_mono; [|apply bt_download_emits]; exact He
    | apply emits_update_task; apply Hw
    | emits_step ].
Qed.

Lemma finalrip_stage_emits P fuel task_info bt_path st :
  (∀ e, finalrip_event e → P e) →
  (∀ st', P (StoreUpdate (TaskInfo.hash task_info) st')) →
  emits P (finalrip_stage env fuel task_info bt_path st).
Proof.
  intros He Hw. unfold finalrip_stage.
  repeat first
    [ eapply emits_mono; [|apply finalrip_encode_emits]; exact He
    | apply emits_update_task; apply Hw
    | emits_step ].
Qed.

Lemma run_stages_emits P fuel task_info st :
  (∀ e, bt_event e → P e) →
  (∀ e, finalrip_event e → P e) →
  (∀ e, tg_event e → P e) →
  (∀ st', P (StoreUpdate (TaskInfo.hash task_info) st')) →
  emits P (run_stages env self fuel task_info st).
Proof.
  intros Hb Hf Ht Hw. unfold run_stages.
  repeat first
    [ apply bt_stage_emits; assumption
    | apply finalrip_stage_emits; assumption
    | apply tg_stage_emits; assumption
    | apply emits_assert_is_not_none
    | apply emits_update_task; apply Hw
    | emits_step ].
Qed.

Lemma pipeline_emits P fuel task_info :
  (∀ e, bt_event e → P e) →
  (∀ e, finalrip_event e → P e) →
  (∀ e, tg_event e → P e) →
  (∀ st', P (StoreUpdate (TaskInfo.hash task_info) st')) →
  P (StoreAdd (TaskInfo.hash task_info) TaskStatus.new) →
  emits P (pipeline env self fuel task_info).
Proof.
  intros Hb Hf Ht Hw Ha. unfold pipeline.
  repeat first
    [ apply run_stages_emits; assumption
    | apply emits_check_task_exist
    | apply emits_get_task
    | apply emits_add_task; exact Ha
    | emits_step ].
Qed.

Lemma replay_other h other evs (m : gmap string TaskStatus.t) :
  other ≠ h → Forall (writes_key h) evs →
  replay evs m !! other = m !! other.
Proof.
  intros Hne HF. revert m.
  induction HF as [|e evs He _ IH]; intros m; [reflexivity|].
  simpl. rewrite IH. unfold writes_key in He.
  destruct (store_write e) as [[i x]|]; [|reflexivity].
  rewrite lookup_insert_ne; [reflexivity|].
  rewrite (He i x eq_refl). congruence.
Qed.

(** X8. A run of the pipeline writes to the store under the hash of its
    own task only: the records of all other tasks are after the run what
    they were before, whatever the clients did and however the run ended. *)
Theorem pipeline_keeps_other_records fuel task_info s other :
  other ≠ TaskInfo.hash task_info →
  json_store (pipeline env self fuel task_info s).2 !! other
  = json_store s !! other
  ∧ ∃ evs, trace (pipeline env self fuel task_info s).2 = trace s ++ evs
           ∧ ∀ e i st, e ∈ evs → store_write e = Some (i, st) →
                       i = TaskInfo.hash task_info.
Proof.
  intros Hne.
  assert (Hs : since (writes_key (TaskInfo.hash task_info)) s
                 (pipeline env self fuel task_info s).2).
  { apply pipeline_emits.
    - intros e He i st Hw. apply bt_event_no_write in He.
      unfold is_store_write in He. rewrite Hw in He. discriminate.
    - intros e He i st Hw. apply finalrip_event_no_write in He.
      unfold is_store_write in He. rewrite Hw in He. discriminate.
    - intros e He i st Hw. apply tg_event_no_write in He.
      unfold is_store_write in He. rewrite Hw in He. discriminate.
    - intros st' i st [= <- <-]. reflexivity.
    - intros i st [= <- <-]. reflexivity. }
  destruct Hs as (evs & T & S & F). split.
  - rewrite S. apply (replay_other (TaskInfo.hash task_info)); assumption.
  - exists evs. split; [exact T|]. intros e i st Hin Hw.
    rewrite Forall_forall in F. exact (F e Hin i st Hw).
Qed.

(** X9. A run returns normally only with [done] in the store: either the
    record was done already and nothing happened, or the last thing the run
    did was write a record that is done, published and has both paths. *)
Theorem pipeline_returns_done fuel task_info s s' :
  pipeline env self fuel task_info s = (Return tt, s') →
  ∃ st, json_store s' !! TaskInfo.hash task_info = Some st
        ∧ TaskStatus.done st = true
        ∧ (s' = s
           ∨ (TaskStatus.tg_uploaded st = true
              ∧ is_Some (TaskStatus.bt_downloaded_path st)
              ∧ is_Some (TaskStatus.finalrip_downloaded_path st)
              ∧ ∃ tr, trace s'
                      = tr ++ [StoreUpdate (TaskInfo.hash task_info) st])).
Proof.
  intros H.
  assert (Hrun : ∀ st0 s0,
            TaskStatus.done st0 = false →
            run_stages env self fuel task_info st0 s0 = (Return tt, s') →
            ∃ st, json_store s' !! TaskInfo.hash task_info = Some st
                  ∧ TaskStatus.done st = true
                  ∧ TaskStatus.tg_uploaded st = true
                  ∧ is_Some (TaskStatus.bt_downloaded_path st)
                  ∧ is_Some (TaskStatus.finalrip_downloaded_path st)
                  ∧ ∃ tr, trace s'
                          = tr ++ [StoreUpdate (TaskInfo.hash task_info) st]).
  { intros st0 s0 Hd Hr.
    eapply (run_stages_steps env self (fun _ => True) (fun _ => True))
      in Hr; auto.
    destruct Hr as (s1 & st3 & _ & _ & _ & Hbt & Hfr & Htg & T & S).
    exists (TaskStatus.set_done true st3). rewrite S, lookup_insert_eq.
    simpl. repeat split; eauto. }
  destruct (json_store s !! TaskInfo.hash task_info) as [st|] eqn:E.
  - rewrite (pipeline_known _ _ _ _ _ _ E) in H.
    destruct (TaskStatus.done st) eqn:Hd.
    + inversion H; subst. exists st. auto.
    + destruct (Hrun _ _ Hd H) as (st' & ? & ? & ?). exists st'. auto.
  - rewrite (pipeline_new _ _ _ _ _ E) in H.
    destruct (Hrun TaskStatus.new _ eq_refl H) as (st' & ? & ? & ?). exists st'. auto.
Qed.

(** X10. Resuming at the last step: for a stored record that has both
    paths and is published but not done, the run calls no client at all;
    it writes the record with [done] set and returns. *)
Theorem pipeline_finishes_published_task
    fuel task_info s st bt_path finalrip_path :
  json_store s !! TaskInfo.hash task_info = Some st →
  TaskStatus.bt_downloaded_path st = Some bt_path →
  TaskStatus.finalrip_downloaded_path st = Some finalrip_path →
  TaskStatus.tg_uploaded st = true →
  TaskStatus.done st = false →
  pipeline env self fuel task_info s
  = (Return tt,
     mkState (<[TaskInfo.hash task_info := TaskStatus.set_done true st]>
                (json_store s))
             (rss_config s) (world s)
             (trace s ++ [StoreUpdate (TaskInfo.hash task_info)
                            (TaskStatus.set_done true st)])).
Proof.
  intros H Hbt Hfr Htg Hd. rewrite (pipeline_known _ _ _ _ _ _ H), Hd.
  unfold run_stages, bind, bt_stage, finalrip_stage, tg_stage.
  rewrite Hbt. simpl. rewrite Hbt, Hfr. simpl. rewrite Hfr, Htg. simpl.
  rewrite Htg. simpl. unfold update_task. rewrite H. reflexivity.
Qed.

(** with both paths stored, [run_stages] is the publish stage and the
    final write *)
Lemma run_stages_resume_publish fuel task_info st bt_path finalrip_path s :
  TaskStatus.bt_downloaded_path st = Some bt_path →
  TaskStatus.finalrip_downloaded_path st = Some finalrip_path →
  run_stages env self fuel task_info st s
  = bind (tg_stage env self task_info finalrip_path st)
         (fun task_status =>
            bind (assert (TaskStatus.tg_uploaded task_status))
                 (fun _ =>
                    update_task (TaskInfo.hash task_info)
                      (TaskStatus.set_done true task_status)))
         s.
Proof.
  intros Hbt Hfr. rewrite (run_stages_resume_transcode _ _ _ _ _ _ _ Hbt).
  unfold finalrip_stage. rewrite Hfr.
  unfold bind at 1. simpl. unfold bind at 1. rewrite Hfr. reflexivity.
Qed.

(** X11. A stored record that has the transcoded path (and, by the
    checkpoint order, the acquired one): whatever the run does next, it
    calls neither the acquisition client nor the transcode client. *)
Theorem resume_skips_transcode fuel task_info s st finalrip_path :
  json_store s !! TaskInfo.hash task_info = Some st →
  checkpoint_order st →
  TaskStatus.finalrip_downloaded_path st = Some finalrip_path →
  ∃ evs, trace (pipeline env self fuel task_info s).2 = trace s ++ evs
         ∧ ∀ e, e ∈ evs → is_bt_call e = false ∧ is_finalrip_call e = false.
Proof.
  intros Hst (H1 & H2 & H3) Hfr.
  destruct (H3 (ex_intro _ _ Hfr)) as [bt_path Hbt].
  assert (Hs : since (fun e => is_bt_call e = false
                               ∧ is_finalrip_call e = false) s
                 (pipeline env self fuel task_info s).2).
  { rewrite (pipeline_known _ _ _ _ _ _ Hst).
    destruct (TaskStatus.done st); [apply since_refl|].
    rewrite (run_stages_resume_publish _ _ _ _ _ _ Hbt Hfr).
    match goal with |- since _ s (?m s).2 => assert (Hm : emits
      (fun e => is_bt_call e = false ∧ is_finalrip_call e = false) m) end.
    { repeat first
        [ apply tg_stage_emits;
          [intros e; unfold tg_event; destruct e; cbv; intros; split;
           congruence | intros; split; reflexivity]
        | apply emits_update_task; split; reflexivity
        | emits_step ]. }
    apply Hm. }
  destruct Hs as (evs & T & _ & F). exists evs. split; [exact T|].
  apply Forall_forall. exact F.
Qed.

(** what a stage that returns has done to the status and to the store *)
Lemma bt_stage_returns fuel task_info st s st' s' :
  bt_stage env fuel task_info st s = (Return st', s') →
  (st' = st ∧ s' = s ∧ is_Some (TaskStatus.bt_downloaded_path st))
  ∨ (TaskStatus.bt_downloaded_path st = None
     ∧ (∃ p, st' = TaskStatus.set_bt_downloaded_path p st)
     ∧ json_store s' !! TaskInfo.hash task_info = Some st'
     ∧ ∃ tr, trace s' = tr ++ [StoreUpdate (TaskInfo.hash task_info) st']).
Proof.
  unfold bt_stage. intros H.
  destruct (TaskStatus.bt_downloaded_path st) eqn:E.
  - inversion H; subst. left. eauto.
  - eapply checkpoint_run in H; [|apply bt_download_emits].
    destruct H as [(x & s1 & [= ->] & _ & T & S)|[Hr _]];
      [|exfalso; eapply Hr; eauto].
    right. rewrite S, lookup_insert_eq. repeat split; eauto.
Qed.

Lemma finalrip_stage_returns fuel task_info bt_path st s st' s' :
  finalrip_stage env fuel task_info bt_path st s = (Return st', s') →
  (st' = st ∧ s' = s ∧ is_Some (TaskStatus.finalrip_downloaded_path st))
  ∨ (TaskStatus.finalrip_downloaded_path st = None
     ∧ (∃ p, st' = TaskStatus.set_finalrip_downloaded_path p st)
     ∧ json_store s' !! TaskInfo.hash task_info = Some st'
     ∧ ∃ tr, trace s' = tr ++ [StoreUpdate (TaskInfo.hash task_info) st']).
Proof.
  unfold finalrip_stage. intros H.
  destruct (TaskStatus.finalrip_downloaded_path st) eqn:E.
  - inversion H; subst. left. eauto.
  - eapply checkpoint_run in H; [|apply finalrip_encode_emits].
    destruct H as [(x & s1 & [= ->] & _ & T & S)|[Hr _]];
      [|exfalso; eapply Hr; eauto].
    right. rewrite S, lookup_insert_eq. repeat split; eauto.
Qed.

Lemma tg_stage_returns task_info finalrip_path st s st' s' :
  tg_stage env self task_info finalrip_path st s = (Return st', s') →
  (st' = st ∧ s' = s
   ∧ (TaskStatus.tg_uploaded st = true ∨ tg_channel_sender self = None))
  ∨ (TaskStatus.tg_uploaded st = false
     ∧ st' = TaskStatus.set_tg_uploaded true st
     ∧ json_store s' !! TaskInfo.hash task_info = Some st'
     ∧ ∃ tr, trace s' = tr ++ [StoreUpdate (TaskInfo.hash task_info) st']).
Proof.
  unfold tg_stage. intros H.
  destruct (TaskStatus.tg_uploaded st) eqn:Etg; simpl in H;
    [inversion H; subst; left; auto|].
  destruct (tg_channel_sender self) as [sender|];
    [|inversion H; subst; left; auto].
  unfold send_and_mark_uploaded in H.
  eapply (checkpoint_run tg_event _ (fun _ => _)) in H;
    [|apply send_video_emits].
  destruct H as [(x & s1 & [= ->] & _ & T & S)|[Hr _]];
    [|exfalso; eapply Hr; eauto].
  right. rewrite S, lookup_insert_eq. repeat split; eauto.
Qed.

(** X12. When a stage returns, the status it hands on is the status in the
    store: either the stage was skipped and changed nothing, or its last
    action was to write exactly the status it returns.  The acquisition and
    transcode stages change only their own path. *)
Theorem stages_return_what_they_stored fuel task_info st s st' s' :
  (bt_stage env fuel task_info st s = (Return st', s') →
   (st' = st ∧ s' = s)
   ∨ ((∃ p, st' = TaskStatus.set_bt_downloaded_path p st)
      ∧ json_store s' !! TaskInfo.hash task_info = Some st'
      ∧ ∃ tr, trace s' = tr ++ [StoreUpdate (TaskInfo.hash task_info) st']))
  ∧ (∀ bt_path,
       finalrip_stage env fuel task_info bt_path st s = (Return st', s') →
       (st' = st ∧ s' = s)
       ∨ ((∃ p, st' = TaskStatus.set_finalrip_downloaded_path p st)
          ∧ json_store s' !! TaskInfo.hash task_info = Some st'
          ∧ ∃ tr, trace s'
                  = tr ++ [StoreUpdate (TaskInfo.hash task_info) st']))
  ∧ (∀ finalrip_path,
       tg_stage env self task_info finalrip_path st s = (Return st', s') →
       (st' = st ∧ s' = s)
       ∨ (st' = TaskStatus.set_tg_uploaded true st
          ∧ json_store s' !! TaskInfo.hash task_info = Some st'
          ∧ ∃ tr, trace s'
                  = tr ++ [StoreUpdate (TaskInfo.hash task_info) st'])).
Proof.
  split; [|split].
  - intros H. apply bt_stage_returns in H as [(? & ? & _)|(_ & ? & ? & ?)];
      auto.
  - intros bt_path H.
    apply finalrip_stage_returns in H as [(? & ? & _)|(_ & ? & ? & ?)]; auto.
  - intros finalrip_path H.
    apply tg_stage_returns in H as [(? & ? & _)|(_ & ? & ? & ?)]; auto.
Qed.

(** the stages before the publish stage leave the published flag alone,
    and without a sender the publish stage does not set it *)
Lemma run_stages_unpublished fuel task_info st s r s' :
  tg_channel_sender self = None →
  TaskStatus.tg_uploaded st = false →
  run_stages env self fuel task_info st s = (r, s') →
  r ≠ Return tt.
Proof.
  intros Hnone Htg H Hr. subst r. unfold run_stages in H.
  apply bind_inv in H as [(st1 & s1 & H1 & H)|[(e & _ & ?)|[_ ?]]];
    try discriminate.
  assert (Htg1 : TaskStatus.tg_uploaded st1 = false).
  { apply bt_stage_returns in H1 as [(-> & _)|(_ & [p ->] & _)]; exact Htg. }
  apply bind_inv in H as [(bt_path & s1' & _ & H)|[(e & _ & ?)|[_ ?]]];
    try discriminate.
  apply bind_inv in H as [(st2 & s2 & H2 & H)|[(e & _ & ?)|[_ ?]]];
    try discriminate.
  assert (Htg2 : TaskStatus.tg_uploaded st2 = false).
  { apply finalrip_stage_returns in H2 as [(-> & _)|(_ & [p ->] & _)];
      exact Htg1. }
  apply bind_inv in H as [(fr_path & s2' & _ & H)|[(e & _ & ?)|[_ ?]]];
    try discriminate.
  apply bind_inv in H as [(st3 & s3 & H3 & H)|[(e & _ & ?)|[_ ?]]];
    try discriminate.
  assert (Htg3 : TaskStatus.tg_uploaded st3 = false).
  { unfold tg_stage in H3. rewrite Htg2, Hnone in H3. simpl in H3.
    inversion H3; subst. exact Htg2. }
  unfold bind, assert in H. rewrite Htg3 in H. discriminate.
Qed.

(** X13. With publishing disabled (no sender), a task that is not yet
    published cannot be completed: from a store that has no record for the
    task, or a record that is neither published nor done, no run returns
    normally, whatever the stage clients answer, and the record the run
    leaves is not done. *)
Theorem disabled_publishing_never_completes fuel task_info s r s' :
  tg_channel_sender self = None →
  (∀ st, json_store s !! TaskInfo.hash task_info = Some st →
         TaskStatus.tg_uploaded st = false ∧ TaskStatus.done st = false) →
  pipeline env self fuel task_info s = (r, s') →
  r ≠ Return tt
  ∧ ∃ st, json_store s' !! TaskInfo.hash task_info = Some st
          ∧ TaskStatus.done st = false.
Proof.
  intros Hnone Hinit H.
  set (P := writes_only (fun st => TaskStatus.done st = false)).
  assert (Hrun : ∀ st s0, TaskStatus.tg_uploaded st = false →
            TaskStatus.done st = false →
            (∃ x, json_store s0 !! TaskInfo.hash task_info = Some x
                  ∧ TaskStatus.done x = false) →
            run_stages env self fuel task_info st s0 = (r, s') →
            r ≠ Return tt
            ∧ ∃ x, json_store s' !! TaskInfo.hash task_info = Some x
                   ∧ TaskStatus.done x = false).
  { intros st s0 Htg Hd Hrec Hr.
    pose proof (run_stages_unpublished _ _ _ _ _ _ Hnone Htg Hr) as Hne.
    split; [exact Hne|].
    eapply (run_stages_steps env self (fun _ => True) P) in Hr; eauto.
    - assert (Hs : since P s0 s').
      { destruct r as [[]|e|]; [congruence | exact Hr | exact Hr]. }
      destruct Hs as (evs & _ & S & F). rewrite S.
      apply (replay_keeps (fun st => TaskStatus.done st = false)); assumption.
    - intros st1 st2 _ _ Hd2. split; [exact I|].
      intros i x [= <- <-]. exact Hd2.
    - intros _ x Hx i y Hw. apply bt_event_no_write in Hx.
      unfold is_store_write in Hx. rewrite Hw in Hx. discriminate.
    - intros x Hx i y Hw. apply finalrip_event_no_write in Hx.
      unfold is_store_write in Hx. rewrite Hw in Hx. discriminate.
    - intros x Hx i y Hw. apply tg_event_no_write in Hx.
      unfold is_store_write in Hx. rewrite Hw in Hx. discriminate. }
  destruct (json_store s !! TaskInfo.hash task_info) as [st|] eqn:E.
  - destruct (Hinit st eq_refl) as [Htg Hd].
    rewrite (pipeline_known _ _ _ _ _ _ E), Hd in H.
    eapply Hrun; eauto.
  - rewrite (pipeline_new _ _ _ _ _ E) in H.
    eapply (Hrun TaskStatus.new); eauto.
    exists TaskStatus.new. simpl. rewrite lookup_insert_eq. auto.
Qed.

(** X14. A task the store does not know: the run first creates the fresh
    record, with every field absent or false, and then (given fuel for one
    poll) asks the acquisition client whether it has the torrent. *)
Theorem pipeline_starts_fresh_task fuel task_info s :
  json_store s !! TaskInfo.hash task_info = None →
  ∃ rest,
    trace (pipeline env self (S fuel) task_info s).2
    = trace s
      ++ StoreAdd (TaskInfo.hash task_info)
                  (TaskStatus.mk None None false false)
      :: BtCheckTorrentExist (TaskInfo.hash task_info) :: rest.
Proof.
  intros Hnone. rewrite (pipeline_new _ _ _ _ _ Hnone).
  match goal with |- context [run_stages _ _ _ _ _ ?s0] => set (s_add := s0) end.
  destruct (run_stages env self (S fuel) task_info TaskStatus.new s_add)
    as [r s'] eqn:H. simpl.
  unfold run_stages, bt_stage in H. simpl TaskStatus.bt_downloaded_path in H.
  unfold bt_download in H. simpl while_not in H.
  rewrite !bind_assoc in H.
  apply bind_inv in H as [(b & s1 & H1 & H)|[(e & H1 & ->)|[H1 ->]]];
    apply call_trace in H1; simpl in H1;
    try (exists []; rewrite H1, <- app_assoc; reflexivity).
  assert (Hrest : since (fun _ => True) s1 s').
  { match type of H with
    | ?m s1 = _ => assert (Hm : emits (fun _ => True) m); [|specialize (Hm s1)]
    end.
    - repeat first
        [ apply finalrip_stage_emits; auto; fail
        | apply tg_stage_emits; auto; fail
        | apply emits_update_task; exact I
        | apply emits_assert_is_not_none
        | emits_step ].
    - rewrite H in Hm. exact Hm. }
  destruct Hrest as (evs & T & _). exists evs.
  rewrite T, H1, <- !app_assoc. reflexivity.
Qed.

End PipelineMore.

(** ** Polling in the acquisition stage *)

Section PollingFacts.
Context {World : Type} (env : Env World).
Local Abbreviation M := (M World).
Local Abbreviation state := (state World).
Implicit Types (s : state).

Lemma rounds_S n round : rounds (S n) round = round ++ rounds n round.
Proof. reflexivity. Qed.

(** a polling loop that ends has asked once more than it has run its
    body *)
Lemma while_not_poll fuel ec (opc : World → result bool * World)
    (body : M unit) bevs s s' :
  (∀ s0 s1, body s0 = (Return tt, s1) → trace s1 = trace s0 ++ bevs) →
  while_not fuel (call ec opc) body s = (Return tt, s') →
  ∃ k, (k < fuel)%nat
       ∧ trace s' = trace s ++ rounds k (ec :: bevs) ++ [ec].
Proof.
  intros Hbody. revert s. induction fuel as [|fuel IH]; intros s H; simpl in H.
  - discriminate.
  - apply bind_inv in H as [(b & s1 & H1 & H)|[(e & _ & ?)|[_ ?]]];
      try discriminate.
    apply call_trace in H1. destruct b.
    + inversion H; subst. exists 0%nat. split; [lia|]. exact H1.
    + apply bind_inv in H as [([] & s2 & H2 & H)|[(e & _ & ?)|[_ ?]]];
        try discriminate.
      apply Hbody in H2. apply IH in H as (k & Hk & T).
      exists (S k). split; [lia|].
      rewrite T, H2, H1, rounds_S. simpl. rewrite <- !app_assoc.
      reflexivity.
Qed.

(** X15. What a successful acquisition has done, in order: it asked the
    client for the torrent, adding it and sleeping ten seconds after each
    negative answer; then it asked for completion, sleeping ten seconds
    after each negative answer; then it resolved the path, once.  The
    torrent is added exactly as often as the client said it did not have
    it. *)
Theorem bt_download_trace fuel task_info s p s' :
  bt_download env fuel task_info s = (Return p, s') →
  let h := TaskInfo.hash task_info in
  ∃ k j, (k < fuel)%nat ∧ (j < fuel)%nat
         ∧ trace s'
           = trace s
             ++ rounds k [BtCheckTorrentExist h;
                          BtAddTorrent h (TaskInfo.link task_info);
                          Sleep 10]
             ++ [BtCheckTorrentExist h]
             ++ rounds j [BtCheckDownloadComplete h; Sleep 10]
             ++ [BtCheckDownloadComplete h]
             ++ [BtGetDownloadedPath h].
Proof.
  intros H h. unfold bt_download in H. fold h in H.
  apply bind_inv in H as [([] & s1 & H1 & H)|[(e & _ & ?)|[_ ?]]];
    try discriminate.
  apply bind_inv in H as [([] & s2 & H2 & H)|[(e & _ & ?)|[_ ?]]];
    try discriminate.
  apply call_trace in H.
  eapply (while_not_poll _ _ _ _
            [BtAddTorrent h (TaskInfo.link task_info); Sleep 10])
    in H1 as (k & Hk & T1).
  2:{ intros s0 s3 Hb.
      apply bind_inv in Hb as [([] & s4 & Ha & Hb)|[(e & _ & ?)|[_ ?]]];
        try discriminate.
      apply call_trace in Ha. inversion Hb; subst. simpl.
      rewrite Ha, <- app_assoc. reflexivity. }
  eapply (while_not_poll _ _ _ _ [Sleep 10]) in H2 as (j & Hj & T2).
  2:{ intros s0 s3 Hb. inversion Hb; subst. reflexivity. }
  exists k, j. split; [exact Hk|]. split; [exact Hj|].
  rewrite H, T2, T1, <- !app_assoc. reflexivity.
Qed.

End PollingFacts.

(** ** More of the stage clients *)

Section ClientMore.
Context {World : Type} (env : Env World).
Local Abbreviation M := (M World).
Local Abbreviation state := (state World).
Implicit Types (P : event → Prop) (s : state).

Lemma since_frame (C Q : event → Prop) s s' :
  (∀ e, C e → is_store_write e = false) → (∀ e, C e → Q e) →
  since C s s' →
  json_store s' = json_store s
  ∧ ∃ evs, trace s' = trace s ++ evs ∧ ∀ e, e ∈ evs → Q e.
Proof.
  intros HC HQ Hs. split; [eapply since_store; eauto|].
  destruct Hs as (evs & T & _ & F). exists evs. split; [exact T|].
  intros e Hin. rewrite Forall_forall in F. auto.
Qed.

(** X16. The client part of each stage keeps to itself: the acquisition
    talks to the downloader only, the transcoding to the transcode server
    and the local disk only, sending to the bot and the local disk only,
    and none of them writes the task-status store. *)
Theorem client_parts_keep_apart fuel task_info bt_downloaded_path sender
    video_path caption s :
  (json_store (bt_download env fuel task_info s).2 = json_store s
   ∧ ∃ evs, trace (bt_download env fuel task_info s).2 = trace s ++ evs
            ∧ ∀ e, e ∈ evs →
                   is_finalrip_call e = false ∧ is_tg_call e = false
                   ∧ is_local e = false)
  ∧ (json_store (finalrip_encode env fuel task_info bt_downloaded_path s).2
     = json_store s
     ∧ ∃ evs, trace (finalrip_encode env fuel task_info
                       bt_downloaded_path s).2 = trace s ++ evs
              ∧ ∀ e, e ∈ evs → is_bt_call e = false ∧ is_tg_call e = false)
  ∧ (json_store (send_video env sender video_path caption s).2
     = json_store s
     ∧ ∃ evs, trace (send_video env sender video_path caption s).2
              = trace s ++ evs
              ∧ ∀ e, e ∈ evs →
                     is_bt_call e = false ∧ is_finalrip_call e = false).
Proof.
  split; [|split].
  - apply (since_frame bt_event); [apply bt_event_no_write| |
                                   apply bt_download_emits].
    intros e. unfold bt_event. destruct e; cbv; intros; repeat split;
      congruence.
  - apply (since_frame finalrip_event);
      [apply finalrip_event_no_write| |apply finalrip_encode_emits].
    intros e. unfold finalrip_event. destruct e; cbv; intros; repeat split;
      congruence.
  - apply (since_frame tg_event);
      [apply tg_event_no_write| |apply send_video_emits].
    intros e. unfold tg_event. destruct e; cbv; intros; repeat split;
      congruence.
Qed.

(** *** Sending *)

(** X17. A send that works at once: the file is looked for and read, the
    bot is asked once, with the file name as [filename] and, when no caption
    is given, as the caption too; nothing is printed and nothing is
    retried. *)
Theorem send_video_first_attempt sender video_path caption s w1 video w2 w3 :
  let path := Path.to_string video_path in
  let video_name := Path.name video_path in
  let shown := default video_name caption in
  fs_exists env path (world s) = (true, w1) →
  fs_read env path w1 = (Ok video, w2) →
  bot_send_video env (channel_id sender) video video_name shown w2
  = (Ok tt, w3) →
  send_video env sender video_path caption s
  = (Return tt,
     mkState (json_store s) (rss_config s) w3
       (trace s ++ [FsExists path; FsRead path;
                    BotSendVideo (channel_id sender) video_name shown])).
Proof.
  intros path video_name shown H1 H2 H3.
  unfold send_video. simpl retrying. unfold try_except at 1.
  unfold send_video_once, bind, query, call, try_except.
  fold path video_name shown. rewrite H1. simpl. rewrite H2. simpl.
  rewrite H3. simpl. rewrite <- !app_assoc. reflexivity.
Qed.

(** X18. A video file that is never there: the call looks for it on each
    of its ten attempts, waits nine times in between, never asks the bot,
    and raises [RetryError] around the [FileNotFoundError] of the last
    attempt. *)
Theorem send_video_missing_file sender video_path caption s :
  let path := Path.to_string video_path in
  (∀ w, (fs_exists env path w).1 = false) →
  ∃ evs,
    (send_video env sender video_path caption s).1
    = Raise (RetryError
               (FileNotFoundError ("Video file not found: " +:+ path)))
    ∧ trace (send_video env sender video_path caption s).2 = trace s ++ evs
    ∧ bot_calls evs = 0%nat
    ∧ retry_waits evs = 9%nat
    ∧ lookups evs = 10%nat.
Proof.
  intros path Hmissing.
  destruct (retrying_always_raises 9
              (send_video_once env sender video_path caption)
              (fun e => e = FileNotFoundError
                              ("Video file not found: " +:+ path)) 0) with (s := s)
    as (e & evs & R & -> & T & Cb & Cw).
  { intros s0. unfold send_video_once, bind, query, call. fold path.
    specialize (Hmissing (world s0)).
    destruct (fs_exists env path (world s0)) as [b w1]. simpl in Hmissing.
    subst b. simpl. eexists _, [_]. repeat split; reflexivity. }
  destruct (retrying_always_looks 9
              (send_video_once env sender video_path caption) 1) with (s := s)
    as (evs' & T' & Cl).
  { intros s0. unfold send_video_once, bind, query, call. fold path.
    specialize (Hmissing (world s0)).
    destruct (fs_exists env path (world s0)) as [b w1]. simpl in Hmissing.
    subst b. simpl. eexists _, [_]. repeat split; reflexivity. }
  rewrite T in T'. apply app_inv_head in T'. subst evs'.
  exists evs. unfold send_video. simpl Nat.sub. auto.
Qed.

(** X19. A network that is down for the whole call, with the file in
    place: the bot is asked exactly ten times, the call waits nine times,
    and what it raises is [RetryError] around a network error. *)
Theorem send_video_network_always_down sender video_path caption s :
  let path := Path.to_string video_path in
  (∀ w, (fs_exists env path w).1 = true) →
  (∀ w, ∃ video, (fs_read env path w).1 = Ok video) →
  (∀ video name shown w,
     ∃ e, (bot_send_video env (channel_id sender) video name shown w).1
          = Err e ∧ is_network_error e = true) →
  ∃ e evs,
    (send_video env sender video_path caption s).1 = Raise (RetryError e)
    ∧ is_network_error e = true
    ∧ trace (send_video env sender video_path caption s).2 = trace s ++ evs
    ∧ bot_calls evs = 10%nat
    ∧ retry_waits evs = 9%nat.
Proof.
  intros path Hfile Hread Hbot.
  destruct (retrying_always_raises 9
              (send_video_once env sender video_path caption)
              (fun e => is_network_error e = true) 1) with (s := s)
    as (e & evs & R & HQ & T & Cb & Cw).
  { intros s0.
    unfold send_video_once, bind, query, call, try_except, print, emit.
    fold path.
    specialize (Hfile (world s0)).
    destruct (fs_exists env path (world s0)) as [b w1]. simpl in Hfile.
    subst b. simpl.
    destruct (Hread w1) as [video Hv].
    destruct (fs_read env path w1) as [r w2]. simpl in Hv. subst r. simpl.
    match goal with
    | |- context [bot_send_video env ?c ?v ?n ?sh ?w] =>
        destruct (Hbot v n sh w) as (e & He & Hn);
        destruct (bot_send_video env c v n sh w) as [r w3]
    end.
    simpl in He. subst r. simpl. rewrite Hn. simpl.
    exists e. eexists [_; _; _; _]. rewrite <- !app_assoc.
    repeat split; auto. }
  exists e, evs. unfold send_video. simpl Nat.sub. auto.
Qed.

(** *** Uploading and downloading *)

(** X20. An upload that goes through: the file is looked for, a presigned
    URL is asked for under the file's name, the file is read and put to
    that URL with the guessed content type, and the task is created under
    the same name; nothing else happens and nothing is printed. *)
Theorem upload_and_new_task_success
    video_path s w1 presigned w2 url file w3 response w4 created w5 :
  let path := Path.to_string video_path in
  let video_key := Path.name video_path in
  fs_exists env path (world s) = (true, w1) →
  Path.suffix video_path ∈ VIDEO_EXTENSIONS env →
  http_get_oss_presigned env video_key w1 = (Ok presigned, w2) →
  oss_success presigned = true →
  oss_data_url presigned = Some url →
  fs_read env path w2 = (Ok file, w3) →
  httpx_put env url path (content_type_of env path) w3 = (Ok response, w4) →
  status_code response = 200 →
  http_post_new_task env video_key w4 = (Ok created, w5) →
  nt_success created = true →
  upload_and_new_task env video_path s
  = (Return tt,
     mkState (json_store s) (rss_config s) w5
       (trace s
        ++ [FsExists path; FrGetOssPresignedUrl video_key; FsRead path;
            HttpxPut url path (content_type_of env path);
            FrNewTask video_key])).
Proof.
  intros path video_key H1 Hext H2 Hok Hurl H3 H4 H200 H5 Hcreated.
  unfold upload_and_new_task, get_oss_presigned_url, new_task,
    bind, query, call, try_except, attr_of_optional, ret.
  fold path video_key. rewrite H1. simpl.
  rewrite bool_decide_eq_true_2 by exact Hext. simpl.
  rewrite H2. simpl. rewrite Hok. simpl. rewrite H3. simpl.
  rewrite Hurl. simpl. rewrite H4. simpl. rewrite H200. simpl.
  rewrite H5. simpl. rewrite Hcreated. simpl.
  rewrite <- !app_assoc. reflexivity.
Qed.

(** X21. An upload stops at the first refusal.  When the server does not
    grant the presigned URL, [ValueError] carries the server's message and
    the file is neither read nor sent; when the PUT is answered with a
    status other than 200, [IOError] carries the response text and the task
    is not created. *)
Theorem upload_and_new_task_refused video_path s w1 presigned w2 :
  let path := Path.to_string video_path in
  let video_key := Path.name video_path in
  fs_exists env path (world s) = (true, w1) →
  Path.suffix video_path ∈ VIDEO_EXTENSIONS env →
  http_get_oss_presigned env video_key w1 = (Ok presigned, w2) →
  (∀ msg,
     oss_success presigned = false →
     oss_error_message presigned = Some msg →
     upload_and_new_task env video_path s
     = (Raise (ValueError ("Error getting presigned URL: " +:+ msg)),
        mkState (json_store s) (rss_config s) w2
          (trace s ++ [FsExists path; FrGetOssPresignedUrl video_key])))
  ∧ (∀ url file w3 response w4,
       oss_success presigned = true →
       oss_data_url presigned = Some url →
       fs_read env path w2 = (Ok file, w3) →
       httpx_put env url path (content_type_of env path) w3
       = (Ok response, w4) →
       status_code response ≠ 200 →
       upload_and_new_task env video_path s
       = (Raise (IOError ("Error uploading file: " +:+ text response)),
          mkState (json_store s) (rss_config s) w4
            (trace s
             ++ [FsExists path; FrGetOssPresignedUrl video_key; FsRead path;
                 HttpxPut url path (content_type_of env path)]))).
Proof.
  intros path video_key H1 Hext H2. split.
  - intros msg Hno Hmsg.
    unfold upload_and_new_task, get_oss_presigned_url,
      bind, query, call, try_except, attr_of_optional, ret, raise.
    fold path video_key. rewrite H1. simpl.
    rewrite bool_decide_eq_true_2 by exact Hext. simpl.
    rewrite H2. simpl. rewrite Hno. simpl. rewrite Hmsg.
    rewrite <- !app_assoc. reflexivity.
  - intros url file w3 response w4 Hok Hurl H3 H4 Hstatus.
    unfold upload_and_new_task, get_oss_presigned_url,
      bind, query, call, try_except, attr_of_optional, ret, raise.
    fold path video_key. rewrite H1. simpl.
    rewrite bool_decide_eq_true_2 by exact Hext. simpl.
    rewrite H2. simpl. rewrite Hok. simpl. rewrite H3. simpl.
    rewrite Hurl. simpl. rewrite H4. simpl.
    apply Z.eqb_neq in Hstatus. rewrite Hstatus. simpl.
    rewrite <- !app_assoc. reflexivity.
Qed.

(** X22. A download of a task that is not ready: when the server reports
    success with an empty [encode_url], the call raises
    [TaskNotCompletedError] having only asked for the progress; when it
    does not report success, [ValueError] carries its message.  In both
    cases nothing is fetched and no file is written. *)
Theorem download_completed_task_not_ready video_key save_path s progress w1 :
  http_get_task_progress env video_key (world s) = (Ok progress, w1) →
  let asked :=
    mkState (json_store s) (rss_config s) w1
            (trace s ++ [FrGetTaskProgress video_key]) in
  (gtp_success progress = true →
   gtp_data_encode_url progress = Some EmptyString →
   download_completed_task env video_key save_path s
   = (Raise TaskNotCompletedError, asked))
  ∧ (∀ msg,
       gtp_success progress = false →
       gtp_error_message progress = Some msg →
       download_completed_task env video_key save_path s
       = (Raise (ValueError ("Error getting task progress: " +:+ msg)),
          asked)).
Proof.
  intros H1 asked. split.
  - intros Hok Hurl.
    unfold download_completed_task, get_task_progress,
      bind, call, try_except, attr_of_optional, ret, raise.
    rewrite H1. simpl. rewrite Hok. simpl. rewrite Hurl. reflexivity.
  - intros msg Hno Hmsg.
    unfold download_completed_task, get_task_progress,
      bind, call, try_except, attr_of_optional, ret, raise.
    rewrite H1. simpl. rewrite Hno. simpl. rewrite Hmsg. reflexivity.
Qed.

(** X23. Whatever the server answers, [download_completed_task] writes a
    file only as the last of exactly three actions: asking for the
    progress, fetching the encoded file, writing it to [save_path].  No
    other file is written, and none at all unless the fetch was answered
    with status 200. *)
Theorem download_completed_task_writes_last video_key save_path s p :
  ∀ evs,
    trace (download_completed_task env video_key save_path s).2
    = trace s ++ evs →
    FsWrite p ∈ evs →
    p = Path.to_string save_path
    ∧ ∃ url response w w',
        evs = [FrGetTaskProgress video_key; FrClientGet url; FsWrite p]
        ∧ http_client_get env url w = (Ok response, w')
        ∧ status_code response = 200.
Proof.
  intros evs T Hin. revert T.
  unfold download_completed_task, get_task_progress,
    bind, call, try_except, attr_of_optional, ret, raise, print, emit.
  destruct (http_get_task_progress env video_key (world s))
    as [[progress|e] w1]; simpl.
  - destruct (gtp_success progress); simpl.
    + destruct (gtp_data_encode_url progress) as [url|]; simpl.
      * destruct (String.eqb url EmptyString); simpl.
        -- intros T. apply app_inv_head in T. subst evs.
           apply list_elem_of_In in Hin. destruct Hin as [|[]]; discriminate.
        -- destruct (http_client_get env url w1) as [[response|e] w2] eqn:G;
             simpl.
           ++ destruct (status_code response =? 200) eqn:E200; simpl.
              ** destruct (fs_write env (Path.to_string save_path)
                             (content response) w2) as [[[]|e] w3]; simpl;
                   rewrite <- !app_assoc; intros T;
                   apply app_inv_head in T; subst evs;
                   apply list_elem_of_In in Hin;
                   destruct Hin as [H|[H|[H|[]]]]; try discriminate;
                   injection H as <-; (split; [reflexivity|]);
                   exists url, response, w1, w2;
                   apply Z.eqb_eq in E200; auto.
              ** rewrite <- !app_assoc. intros T.
                 apply app_inv_head in T. subst evs.
                 apply list_elem_of_In in Hin.
                 destruct Hin as [H|[H|[]]]; discriminate.
           ++ rewrite <- !app_assoc. intros T.
              apply app_inv_head in T. subst evs.
              apply list_elem_of_In in Hin.
              destruct Hin as [H|[H|[]]]; discriminate.
      * intros T. apply app_inv_head in T. subst evs.
        apply list_elem_of_In in Hin. destruct Hin as [|[]]; discriminate.
    + destruct (gtp_error_message progress); simpl; intros T;
        apply app_inv_head in T; subst evs;
        apply list_elem_of_In in Hin; destruct Hin as [|[]]; discriminate.
  - rewrite <- !app_assoc. intros T. apply app_inv_head in T. subst evs.
    apply list_elem_of_In in Hin.
    destruct Hin as [H|[H|[]]]; discriminate.
Qed.

(** the key every request of the transcode stage names *)
Lemma upload_and_new_task_keyed video_path :
  emits (fun e => ∀ k, video_key_of e = Some k → k = Path.name video_path)
        (upload_and_new_task env video_path).
Proof.
  unfold upload_and_new_task, get_oss_presigned_url, new_task.
  repeat first
    [ apply emits_attr_of_optional
    | apply emits_call; [simpl; congruence | reflexivity]
    | apply emits_query; [simpl; congruence | reflexivity]
    | apply emits_emit; [simpl; congruence | reflexivity]
    | emits_step ].
Qed.

Lemma download_completed_task_keyed video_key save_path :
  emits (fun e => ∀ k, video_key_of e = Some k → k = video_key)
        (download_completed_task env video_key save_path).
Proof.
  unfold download_completed_task, get_task_progress.
  repeat first
    [ apply emits_attr_of_optional
    | apply emits_call; [simpl; congruence | reflexivity]
    | apply emits_emit; [simpl; congruence | reflexivity]
    | emits_step ].
Qed.

(** X24. One key throughout the transcode stage: every request that names
    a task (existence check, presigned URL, task creation, start, progress
    and completion polls) names the file name of the acquired artifact, so
    the task the upload registers is the task the loop polls, starts and
    downloads. *)
Theorem finalrip_encode_uses_one_key fuel task_info bt_downloaded_path s :
  ∃ evs,
    trace (finalrip_encode env fuel task_info bt_downloaded_path s).2
    = trace s ++ evs
    ∧ ∀ e k, e ∈ evs → video_key_of e = Some k →
             k = Path.name bt_downloaded_path.
Proof.
  assert (Hm : emits (fun e => ∀ k, video_key_of e = Some k →
                                    k = Path.name bt_downloaded_path)
                 (finalrip_encode env fuel task_info bt_downloaded_path)).
  { unfold finalrip_encode.
    repeat first
      [ apply upload_and_new_task_keyed
      | apply download_completed_task_keyed
      | apply emits_call; [simpl; congruence | reflexivity]
      | apply emits_emit; [simpl; congruence | reflexivity]
      | emits_step ]. }
  destruct (Hm s) as (evs & T & _ & F). exists evs. split; [exact T|].
  intros e k Hin. rewrite Forall_forall in F. exact (F e Hin k).
Qed.

End ClientMore.

(** ** Loading the server configuration *)

Section ConfigFacts.
Context {World : Type} (env : Env World) {YamlData : Type}.
Variable yaml_safe_load : string → result YamlData.
Variable is_yaml_error : exn → bool.
Variable is_validation_error : exn → bool.
Variable construct : YamlData → World → result ServerConfig.t * World.
Local Abbreviation state := (state World).
Local Abbreviation load :=
  (from_yaml env yaml_safe_load is_yaml_error is_validation_error construct).
Implicit Types (s : state).

(** X25. [from_yaml] gives up before it builds anything when the file is
    missing or cannot be parsed: a missing file raises [FileNotFoundError]
    without being opened; whatever exception the YAML loader raises comes
    out as a [ValueError] whose prefix tells a YAML error from any other,
    and the configuration class is never constructed. *)
Theorem from_yaml_rejects path s w1 :
  (fs_exists env path (world s) = (false, w1) →
   load path s
   = (Raise (FileNotFoundError ("Config file " +:+ path +:+ " not found")),
      mkState (json_store s) (rss_config s) w1 (trace s ++ [FsExists path])))
  ∧ (∀ file w2 e,
       fs_exists env path (world s) = (true, w1) →
       fs_read env path w1 = (Ok file, w2) →
       yaml_safe_load file = Err e →
       load path s
       = (Raise (ValueError
                   ((if is_yaml_error e then "Error loading YAML: "
                     else if is_validation_error e
                          then "Config validation error: "
                          else "Error loading config: ")
                    +:+ exn_str e)),
          mkState (json_store s) (rss_config s) w2
                  (trace s ++ [FsExists path; FsRead path]))).
Proof.
  split.
  - intros H. unfold from_yaml, bind, query, call. rewrite H.
    reflexivity.
  - intros file w2 e H1 H2 H3.
    unfold from_yaml, bind, query, call. rewrite H1. simpl.
    rewrite H2. simpl. rewrite H3.
    destruct (is_yaml_error e); [|destruct (is_validation_error e)];
      simpl; rewrite <- !app_assoc; reflexivity.
Qed.

(** X26. Once the file is parsed, the outcome is the constructor's: an
    exception the configuration class raises (a validation error, say)
    leaves [from_yaml] as it is, not turned into a [ValueError]; a
    configuration that is built comes back with [config_path] set to the
    path that was loaded, whatever the file said, and every other section
    as built. *)
Theorem from_yaml_constructs path s w1 file w2 config_data :
  fs_exists env path (world s) = (true, w1) →
  fs_read env path w1 = (Ok file, w2) →
  yaml_safe_load file = Ok config_data →
  let read :=
    fun w => mkState (json_store s) (rss_config s) w
                     (trace s ++ [FsExists path; FsRead path]) in
  (∀ e w3,
     construct config_data w2 = (Err e, w3) →
     load path s = (Raise e, read w3))
  ∧ (∀ config w3,
       construct config_data w2 = (Ok config, w3) →
       ∃ loaded,
         load path s = (Return loaded, read w3)
         ∧ ServerConfig.config_path loaded = Some (Path.of_string path)
         ∧ ServerConfig.db loaded = ServerConfig.db config
         ∧ ServerConfig.qbittorrent loaded = ServerConfig.qbittorrent config
         ∧ ServerConfig.finalrip loaded = ServerConfig.finalrip config).
Proof.
  intros H1 H2 H3 read. split.
  - intros e w3 Hc.
    unfold from_yaml, bind, query, call, construct_config.
    rewrite H1. simpl. rewrite H2. simpl. rewrite H3. simpl. rewrite Hc.
    unfold read. rewrite <- !app_assoc. reflexivity.
  - intros config w3 Hc.
    exists (ServerConfig.set_config_path (Path.of_string path) config).
    split; [|repeat split].
    unfold from_yaml, bind, query, call, construct_config.
    rewrite H1. simpl. rewrite H2. simpl. rewrite H3. simpl. rewrite Hc.
    unfold read. simpl. rewrite <- !app_assoc. reflexivity.
Qed.

End ConfigFacts.

(** ** The tests of the transcode client *)

Section TestFacts.
Context {World : Type} (env : Env World).
Local Abbreviation state := (state World).
Implicit Types (s : state).

Lemma test_download_loop fuel save_path s r s' :
  test_download_completed_task env fuel save_path s = (r, s') →
  (∀ e, r ≠ Raise e)
  ∧ (r = Return tt →
     ∃ s0, download_completed_task env video_key save_path s0
           = (Return tt, s')).
Proof.
  revert s. induction fuel as [|fuel IH]; intros s H; simpl in H.
  - inversion H; subst. split; [discriminate | discriminate].
  - unfold bind at 1, try_except in H. unfold bind at 1 in H.
    destruct (download_completed_task env video_key save_path s)
      as [[[]|e|] s1] eqn:D.
    + inversion H; subst. split; [discriminate|]. eauto.
    + assert (He : ∃ msg,
                (match e with
                 | TaskNotCompletedError =>
                     bind (print "Task not completed yet")
                          (fun _ => bind (sleep 5) (fun _ => ret false))
                 | _ => bind (print (exn_str e))
                             (fun _ => bind (sleep 5) (fun _ => ret false))
                 end) s1
                = (Return false,
                   mkState (json_store s1) (rss_config s1) (world s1)
                           ((trace s1 ++ [Print msg]) ++ [Sleep 5]))).
      { destruct e; eexists; reflexivity. }
      destruct He as [msg He]. rewrite He in H. apply IH in H. exact H.
    + inversion H; subst. split; discriminate.
Qed.

(** X27. Neither test of the transcode client can fail because of the
    server: [test_new_task] prints whatever the upload raises and passes;
    [test_download_completed_task] prints every exception, waits five
    seconds and tries again, so it never raises, and when it ends the
    attempt it ends on is a download that returned. *)
Theorem transcode_tests_never_raise fuel asset save_path s :
  (∀ e, (test_new_task env asset s).1 ≠ Raise e)
  ∧ (∀ e, (test_download_completed_task env fuel save_path s).1 ≠ Raise e)
  ∧ ((test_download_completed_task env fuel save_path s).1 = Return tt →
     ∃ s0,
       download_completed_task env video_key save_path s0
       = (Return tt, (test_download_completed_task env fuel save_path s).2)).
Proof.
  split; [|split].
  - intros e. unfold test_new_task, try_except.
    destruct (upload_and_new_task env asset s) as [[[]|x|] s1];
      simpl; discriminate.
  - eapply test_download_loop. apply surjective_pairing.
  - eapply test_download_loop. apply surjective_pairing.
Qed.

End TestFacts.

(** ** The properties above on concrete runs *)

Lemma build_task_info_error_order_witness :
  build_task_info Scripted.item Scripted.bad_feed Scripted.two_feeds
  = Err (ValueError "script not found: missing")
  ∧ build_task_info Scripted.item
      {| nyaa_name := "odd"; nyaa_script := "default";
         nyaa_param := "missing"; nyaa_uploader := "Group" |}
      Scripted.two_feeds
    = Err (ValueError "param not found: missing").
Proof.
  split.
  - apply (proj1 (build_task_info_error_order Scripted.item Scripted.bad_feed
                    Scripted.two_feeds)).
    reflexivity.
  - apply (proj2 (build_task_info_error_order Scripted.item
                    {| nyaa_name := "odd"; nyaa_script := "default";
                       nyaa_param := "missing"; nyaa_uploader := "Group" |}
                    Scripted.two_feeds)).
    + vm_compute. eauto.
    + reflexivity.
Defined.

Lemma discover_feed_submits_all_witness :
  discover_feed (Served.env Served.granting) Scripted.good_feed
                (Served.init ∅ Served.one_feed 0)
  = (Return tt,
     mkState ∅ Served.one_feed {| Served.pending := 0; Served.refreshes := 0 |}
       ([] ++ ParseNyaa Scripted.good_feed
           :: map (fun torrent_info =>
                     SubmitTask (TorrentInfo.hash torrent_info)
                       (task_info_of torrent_info "Group" "script.py"
                                     "--crf 18"))
                  [Scripted.item; Scripted.other_item])).
Proof.
  apply (discover_feed_submits_all (Served.env Served.granting)
           Scripted.good_feed (Served.init ∅ Served.one_feed 0)
           [Scripted.item; Scripted.other_item]
           {| Served.pending := 0; Served.refreshes := 0 |}
           "script.py" "--crf 18"); reflexivity.
Defined.

Lemma discovery_tick_submits_everything_witness :
  trace (discovery_tick (Served.env Served.granting)
           (Served.init ∅ Served.one_feed 0)).2
  = [RefreshConfig; ParseNyaa Scripted.good_feed;
     SubmitTask "abc123" Scripted.task;
     SubmitTask "def456"
       (task_info_of Scripted.other_item "Group" "script.py" "--crf 18")].
Proof.
  destruct (discovery_tick_submits_everything (Served.env Served.granting)
              (fun _ => [Scripted.item; Scripted.other_item])
              (Served.init ∅ Served.one_feed 0) Served.one_feed
              {| Served.pending := 0; Served.refreshes := 1 |})
    as [H _].
  - reflexivity.
  - intros cfg w. reflexivity.
  - constructor; [|constructor]. split; vm_compute; eauto.
  - rewrite H. reflexivity.
Defined.

Lemma start_stops_between_ticks_witness :
  start (Served.env Served.granting) Scripted.publishing 2
        (Served.init ∅ Served.one_feed 0)
  = (Return tt,
     mkState ∅ Served.one_feed {| Served.pending := 0; Served.refreshes := 1 |}
       ([RefreshConfig; ParseNyaa Scripted.good_feed;
         SubmitTask "abc123" Scripted.task;
         SubmitTask "def456"
           (task_info_of Scripted.other_item "Group" "script.py" "--crf 18")]
        ++ [Sleep 60])).
Proof.
  apply (proj2 (start_stops_between_ticks (Served.env Served.granting)
                  Scripted.publishing 0 (Served.init ∅ Served.one_feed 0)
                  (mkState ∅ Served.one_feed
                     {| Served.pending := 0; Served.refreshes := 1 |}
                     [RefreshConfig; ParseNyaa Scripted.good_feed;
                      SubmitTask "abc123" Scripted.task;
                      SubmitTask "def456"
                        (task_info_of Scripted.other_item "Group"
                                      "script.py" "--crf 18")])));
    reflexivity.
Defined.

Lemma pipeline_keeps_other_records_witness :
  json_store
    (pipeline (Scripted.env Scripted.plain) Scripted.not_publishing 5
       Scripted.task
       (Scripted.init {["def456" := Scripted.finished]}
                      Scripted.no_config 0%nat)).2 !! "def456"
  = Some Scripted.finished.
Proof.
  apply (proj1 (pipeline_keeps_other_records (Scripted.env Scripted.plain)
                  Scripted.not_publishing 5 Scripted.task
                  (Scripted.init {["def456" := Scripted.finished]}
                                 Scripted.no_config 0%nat)
                  "def456" ltac:(discriminate))).
Defined.

Lemma pipeline_finishes_published_task_witness :
  pipeline (Served.env Served.granting) Scripted.publishing 0 Scripted.task
           (Served.init {["abc123" := Served.published]} Served.one_feed 0)
  = (Return tt,
     mkState (<["abc123" := TaskStatus.set_done true Served.published]>
                {["abc123" := Served.published]})
             Served.one_feed {| Served.pending := 0; Served.refreshes := 0 |}
             ([] ++ [StoreUpdate "abc123"
                       (TaskStatus.set_done true Served.published)])).
Proof.
  exact (pipeline_finishes_published_task (Served.env Served.granting)
           Scripted.publishing 0 Scripted.task
           (Served.init {["abc123" := Served.published]} Served.one_feed 0)
           Served.published "/data/abc123.mkv" "/data/Show.mkv"
           eq_refl eq_refl eq_refl eq_refl eq_refl).
Defined.

Lemma pipeline_returns_done_witness :
  ∃ st,
    json_store
      (pipeline (Served.env Served.granting) Scripted.publishing 0
         Scripted.task
         (Served.init {["abc123" := Served.published]} Served.one_feed 0)).2
    !! "abc123" = Some st
    ∧ TaskStatus.done st = true.
Proof.
  destruct (pipeline_returns_done (Served.env Served.granting)
              Scripted.publishing 0 Scripted.task
              (Served.init {["abc123" := Served.published]} Served.one_feed 0)
              (pipeline (Served.env Served.granting) Scripted.publishing 0
                 Scripted.task
                 (Served.init {["abc123" := Served.published]}
                              Served.one_feed 0)).2)
    as (st & H1 & H2 & _); [reflexivity|].
  exists st. split; assumption.
Defined.

Lemma resume_skips_transcode_witness :
  ∃ evs,
    trace (pipeline (Scripted.env Scripted.rejecting) Scripted.publishing 5
             Scripted.task
             (Scripted.init {["abc123" := Scripted.transcoded]}
                            Scripted.no_config 0%nat)).2
    = [] ++ evs
    ∧ ∀ e, e ∈ evs → is_bt_call e = false ∧ is_finalrip_call e = false.
Proof.
  apply (resume_skips_transcode (Scripted.env Scripted.rejecting)
           Scripted.publishing 5 Scripted.task
           (Scripted.init {["abc123" := Scripted.transcoded]}
                          Scripted.no_config 0%nat)
           Scripted.transcoded "/data/[Group] Show - 1.mkv").
  - reflexivity.
  - refine (bool_decide_unpack _ _). vm_compute. exact I.
  - reflexivity.
Defined.

Lemma stages_return_what_they_stored_witness :
  let s := Scripted.init {["abc123" := TaskStatus.new]}
                         Scripted.no_config 0%nat in
  let run := bt_stage (Scripted.env Scripted.plain) 5 Scripted.task
                      TaskStatus.new s in
  run.1 = Return Scripted.acquired
  ∧ json_store run.2 !! "abc123" = Some Scripted.acquired.
Proof.
  intros s run. split; [reflexivity|].
  destruct (proj1 (stages_return_what_they_stored
                     (Scripted.env Scripted.plain) Scripted.publishing 5
                     Scripted.task TaskStatus.new s Scripted.acquired run.2))
    as [[H _]|(_ & H & _)]; [reflexivity | discriminate H | exact H].
Defined.

Lemma disabled_publishing_never_completes_witness :
  let run := pipeline (Scripted.env Scripted.plain) Scripted.not_publishing 5
                      Scripted.task
                      (Scripted.init ∅ Scripted.no_config 0%nat) in
  run.1 ≠ Return tt
  ∧ ∃ st, json_store run.2 !! "abc123" = Some st
          ∧ TaskStatus.done st = false.
Proof.
  intros run.
  apply (disabled_publishing_never_completes (Scripted.env Scripted.plain)
           Scripted.not_publishing 5 Scripted.task
           (Scripted.init ∅ Scripted.no_config 0%nat)).
  - reflexivity.
  - intros st H. vm_compute in H. discriminate H.
  - apply surjective_pairing.
Defined.

Lemma pipeline_starts_fresh_task_witness :
  ∃ rest,
    trace (pipeline (Scripted.env Scripted.plain) Scripted.publishing 5
             Scripted.task (Scripted.init ∅ Scripted.no_config 0%nat)).2
    = [] ++ StoreAdd "abc123" (TaskStatus.mk None None false false)
         :: BtCheckTorrentExist "abc123" :: rest.
Proof.
  apply (pipeline_starts_fresh_task (Scripted.env Scripted.plain)
           Scripted.publishing 4 Scripted.task
           (Scripted.init ∅ Scripted.no_config 0%nat)).
  reflexivity.
Defined.

Lemma bt_download_trace_witness :
  ∃ k j, (k < 5)%nat ∧ (j < 5)%nat
    ∧ trace (bt_download (Served.env Served.granting) 5 Scripted.task
               (Served.init ∅ Served.one_feed 2)).2
      = [] ++ rounds k [BtCheckTorrentExist "abc123";
                        BtAddTorrent "abc123"
                          "https://nyaa.example/abc123.torrent";
                        Sleep 10]
           ++ [BtCheckTorrentExist "abc123"]
           ++ rounds j [BtCheckDownloadComplete "abc123"; Sleep 10]
           ++ [BtCheckDownloadComplete "abc123"]
           ++ [BtGetDownloadedPath "abc123"].
Proof.
  apply (bt_download_trace (Served.env Served.granting) 5 Scripted.task
           (Served.init ∅ Served.one_feed 2)
           (Path.of_string "/data/abc123.mkv")).
  reflexivity.
Defined.

Lemma send_video_first_attempt_witness :
  send_video (Served.env Served.granting) {| channel_id := "@channel" |}
             (Path.of_string "/assets/test_144p.mp4") None
             (Served.init ∅ Served.one_feed 0)
  = (Return tt,
     mkState ∅ Served.one_feed {| Served.pending := 0; Served.refreshes := 0 |}
       ([] ++ [FsExists "/assets/test_144p.mp4";
               FsRead "/assets/test_144p.mp4";
               BotSendVideo "@channel" "test_144p.mp4" "test_144p.mp4"])).
Proof.
  exact (send_video_first_attempt (Served.env Served.granting)
           {| channel_id := "@channel" |}
           (Path.of_string "/assets/test_144p.mp4") None
           (Served.init ∅ Served.one_feed 0)
           {| Served.pending := 0; Served.refreshes := 0 |} "bytes"
           {| Served.pending := 0; Served.refreshes := 0 |}
           {| Served.pending := 0; Served.refreshes := 0 |}
           eq_refl eq_refl eq_refl).
Defined.

Lemma send_video_missing_file_witness :
  ∃ evs,
    (send_video (Served.env Served.granting) {| channel_id := "@channel" |}
       (Path.of_string "/assets/gone.mp4") None
       (Served.init ∅ Served.one_feed 0)).1
    = Raise (RetryError
               (FileNotFoundError
                  ("Video file not found: " +:+ "/assets/gone.mp4")))
    ∧ trace (send_video (Served.env Served.granting)
               {| channel_id := "@channel" |}
               (Path.of_string "/assets/gone.mp4") None
               (Served.init ∅ Served.one_feed 0)).2
      = [] ++ evs
    ∧ bot_calls evs = 0%nat
    ∧ retry_waits evs = 9%nat
    ∧ lookups evs = 10%nat.
Proof.
  apply (send_video_missing_file (Served.env Served.granting)
           {| channel_id := "@channel" |}
           (Path.of_string "/assets/gone.mp4") None
           (Served.init ∅ Served.one_feed 0)).
  intros w. reflexivity.
Defined.

Lemma send_video_network_always_down_witness :
  ∃ e evs,
    (send_video (Served.env Served.offline) {| channel_id := "@channel" |}
       (Path.of_string "/assets/test_144p.mp4") None
       (Served.init ∅ Served.one_feed 0)).1 = Raise (RetryError e)
    ∧ is_network_error e = true
    ∧ trace (send_video (Served.env Served.offline)
               {| channel_id := "@channel" |}
               (Path.of_string "/assets/test_144p.mp4") None
               (Served.init ∅ Served.one_feed 0)).2
      = [] ++ evs
    ∧ bot_calls evs = 10%nat
    ∧ retry_waits evs = 9%nat.
Proof.
  apply (send_video_network_always_down (Served.env Served.offline)
           {| channel_id := "@channel" |}
           (Path.of_string "/assets/test_144p.mp4") None
           (Served.init ∅ Served.one_feed 0)).
  - intros w. reflexivity.
  - intros w. exists "bytes". reflexivity.
  - intros video name shown w. exists (NetworkError "timed out").
    split; reflexivity.
Defined.

Lemma upload_and_new_task_success_witness :
  upload_and_new_task (Served.env Served.granting)
    (Path.of_string "/assets/test_144p.mp4")
    (Served.init ∅ Served.one_feed 0)
  = (Return tt,
     mkState ∅ Served.one_feed {| Served.pending := 0; Served.refreshes := 0 |}
       ([] ++ [FsExists "/assets/test_144p.mp4";
               FrGetOssPresignedUrl "test_144p.mp4";
               FsRead "/assets/test_144p.mp4";
               HttpxPut "https://oss.example/put" "/assets/test_144p.mp4"
                        "video/mp4";
               FrNewTask "test_144p.mp4"])).
Proof.
  refine (upload_and_new_task_success (Served.env Served.granting)
            (Path.of_string "/assets/test_144p.mp4")
            (Served.init ∅ Served.one_feed 0)
            {| Served.pending := 0; Served.refreshes := 0 |}
            {| oss_success := true;
               oss_data_url := Some "https://oss.example/put";
               oss_error_message := None |}
            {| Served.pending := 0; Served.refreshes := 0 |}
            "https://oss.example/put" "bytes"
            {| Served.pending := 0; Served.refreshes := 0 |}
            Served.ok_response
            {| Served.pending := 0; Served.refreshes := 0 |}
            {| nt_success := true; nt_error_message := None |}
            {| Served.pending := 0; Served.refreshes := 0 |}
            eq_refl _ eq_refl eq_refl eq_refl eq_refl eq_refl eq_refl
            eq_refl eq_refl).
  vm_compute. left.
Defined.

Lemma upload_and_new_task_refused_witness :
  upload_and_new_task (Served.env Served.no_url)
    (Path.of_string "/assets/test_144p.mp4")
    (Served.init ∅ Served.one_feed 0)
  = (Raise (ValueError ("Error getting presigned URL: " +:+ "quota exceeded")),
     mkState ∅ Served.one_feed {| Served.pending := 0; Served.refreshes := 0 |}
       ([] ++ [FsExists "/assets/test_144p.mp4";
               FrGetOssPresignedUrl "test_144p.mp4"]))
  ∧ upload_and_new_task (Served.env Served.forbidden_put)
      (Path.of_string "/assets/test_144p.mp4")
      (Served.init ∅ Served.one_feed 0)
    = (Raise (IOError ("Error uploading file: " +:+ "Forbidden")),
       mkState ∅ Served.one_feed
         {| Served.pending := 0; Served.refreshes := 0 |}
         ([] ++ [FsExists "/assets/test_144p.mp4";
                 FrGetOssPresignedUrl "test_144p.mp4";
                 FsRead "/assets/test_144p.mp4";
                 HttpxPut "https://oss.example/put" "/assets/test_144p.mp4"
                          "video/mp4"])).
Proof.
  assert (Hext : ".mp4" ∈ [".mp4"; ".mkv"]) by left.
  split.
  - refine (proj1 (upload_and_new_task_refused (Served.env Served.no_url)
                     (Path.of_string "/assets/test_144p.mp4")
                     (Served.init ∅ Served.one_feed 0)
                     {| Served.pending := 0; Served.refreshes := 0 |}
                     {| oss_success := false; oss_data_url := None;
                        oss_error_message := Some "quota exceeded" |}
                     {| Served.pending := 0; Served.refreshes := 0 |}
                     eq_refl Hext eq_refl)
                  "quota exceeded" eq_refl eq_refl).
  - refine (proj2 (upload_and_new_task_refused
                     (Served.env Served.forbidden_put)
                     (Path.of_string "/assets/test_144p.mp4")
                     (Served.init ∅ Served.one_feed 0)
                     {| Served.pending := 0; Served.refreshes := 0 |}
                     {| oss_success := true;
                        oss_data_url := Some "https://oss.example/put";
                        oss_error_message := None |}
                     {| Served.pending := 0; Served.refreshes := 0 |}
                     eq_refl Hext eq_refl)
                  "https://oss.example/put" "bytes"
                  {| Served.pending := 0; Served.refreshes := 0 |}
                  {| status_code := 403; text := "Forbidden";
                     content := EmptyString |}
                  {| Served.pending := 0; Served.refreshes := 0 |}
                  eq_refl eq_refl eq_refl eq_refl _).
    discriminate.
Defined.

Lemma download_completed_task_not_ready_witness :
  download_completed_task (Served.env Served.encoding) video_key
    (Path.of_string "/assets/new.mkv") (Served.init ∅ Served.one_feed 0)
  = (Raise TaskNotCompletedError,
     mkState ∅ Served.one_feed {| Served.pending := 0; Served.refreshes := 0 |}
       ([] ++ [FrGetTaskProgress video_key])).
Proof.
  exact (proj1 (download_completed_task_not_ready
                  (Served.env Served.encoding) video_key
                  (Path.of_string "/assets/new.mkv")
                  (Served.init ∅ Served.one_feed 0)
                  {| gtp_success := true;
                     gtp_data_encode_url := Some EmptyString;
                     gtp_error_message := None |}
                  {| Served.pending := 0; Served.refreshes := 0 |} eq_refl)
               eq_refl eq_refl).
Defined.

Lemma download_completed_task_writes_last_witness :
  "/assets/new.mkv" = Path.to_string (Path.of_string "/assets/new.mkv")
  ∧ ∃ url response w w',
      [FrGetTaskProgress video_key; FrClientGet "https://oss.example/get";
       FsWrite "/assets/new.mkv"]
      = [FrGetTaskProgress video_key; FrClientGet url;
         FsWrite "/assets/new.mkv"]
      ∧ http_client_get (Served.env Served.granting) url w = (Ok response, w')
      ∧ status_code response = 200%Z.
Proof.
  apply (download_completed_task_writes_last (Served.env Served.granting)
           video_key (Path.of_string "/assets/new.mkv")
           (Served.init ∅ Served.one_feed 0) "/assets/new.mkv").
  - reflexivity.
  - right. right. left.
Defined.

Lemma from_yaml_rejects_witness :
  from_yaml (Served.env Served.granting) Served.loader Served.yaml_error
            Served.validation_error Served.build "/etc/missing.yml"
            (Served.init ∅ Served.one_feed 0)
  = (Raise (FileNotFoundError
              ("Config file " +:+ "/etc/missing.yml" +:+ " not found")),
     mkState ∅ Served.one_feed {| Served.pending := 0; Served.refreshes := 0 |}
             ([] ++ [FsExists "/etc/missing.yml"])).
Proof.
  exact (proj1 (from_yaml_rejects (Served.env Served.granting) Served.loader
                  Served.yaml_error Served.validation_error Served.build
                  "/etc/missing.yml" (Served.init ∅ Served.one_feed 0)
                  {| Served.pending := 0; Served.refreshes := 0 |})
               eq_refl).
Defined.

Lemma from_yaml_constructs_witness :
  ∃ loaded,
    from_yaml (Served.env Served.granting) Served.loader Served.yaml_error
              Served.validation_error Served.build
              "/etc/animepipeline/server.yml"
              (Served.init ∅ Served.one_feed 0)
    = (Return loaded,
       mkState ∅ Served.one_feed
         {| Served.pending := 0; Served.refreshes := 0 |}
         ([] ++ [FsExists "/etc/animepipeline/server.yml";
                 FsRead "/etc/animepipeline/server.yml"]))
    ∧ ServerConfig.config_path loaded
      = Some (Path.of_string "/etc/animepipeline/server.yml")
    ∧ ServerConfig.db loaded = ServerConfig.db Served.config
    ∧ ServerConfig.qbittorrent loaded = ServerConfig.qbittorrent Served.config
    ∧ ServerConfig.finalrip loaded = ServerConfig.finalrip Served.config.
Proof.
  exact (proj2 (from_yaml_constructs (Served.env Served.granting)
                  Served.loader Served.yaml_error Served.validation_error
                  Served.build "/etc/animepipeline/server.yml"
                  (Served.init ∅ Served.one_feed 0)
                  {| Served.pending := 0; Served.refreshes := 0 |} "bytes"
                  {| Served.pending := 0; Served.refreshes := 0 |} "bytes"
                  eq_refl eq_refl eq_refl)
               Served.config
               {| Served.pending := 0; Served.refreshes := 0 |} eq_refl).
Defined.

Lemma transcode_tests_never_raise_witness :
  ∃ s0,
    download_completed_task (Served.env Served.granting) video_key
      (Path.of_string "/assets/new.mkv") s0
    = (Return tt,
       (test_download_completed_task (Served.env Served.granting) 3
          (Path.of_string "/assets/new.mkv")
          (Served.init ∅ Served.one_feed 0)).2).
Proof.
  apply (proj2 (proj2 (transcode_tests_never_raise
                         (Served.env Served.granting) 3
                         (Path.of_string "/assets/test_144p.mp4")
                         (Path.of_string "/assets/new.mkv")
                         (Served.init ∅ Served.one_feed 0)))).
  reflexivity.
Defined.

(** ** Checkpoints are never lost *)

Section KeepFacts.
Context {World : Type} (env : Env World) (self : Loop).
Local Abbreviation state := (state World).
Implicit Types (s : state).

Lemma advance_keeps_checkpoints st0 st1 st2 :
  keeps_checkpoints st0 st1 → advance st1 st2 → keeps_checkpoints st0 st2.
Proof.
  intros (H1 & H2 & H3 & H4) Ha.
  destruct Ha; repeat split; simpl; intros; auto.
  - specialize (H1 _ ltac:(eassumption)). congruence.
  - specialize (H2 _ ltac:(eassumption)). congruence.
Qed.

(** X28. A run never takes back a checkpoint it found: every record it
    writes, and the record it leaves in the store, has each path that the
    record loaded at the start had, unchanged, and keeps the published and
    done flags that were set. *)
Theorem pipeline_keeps_checkpoints fuel task_info s st0 :
  json_store s !! TaskInfo.hash task_info = Some st0 →
  (∃ evs,
     trace (pipeline env self fuel task_info s).2 = trace s ++ evs
     ∧ ∀ e i st, e ∈ evs → store_write e = Some (i, st) →
                 keeps_checkpoints st0 st)
  ∧ ∃ st, json_store (pipeline env self fuel task_info s).2
          !! TaskInfo.hash task_info = Some st
          ∧ keeps_checkpoints st0 st.
Proof.
  intros Hst.
  assert (Hrefl : keeps_checkpoints st0 st0) by (repeat split; auto).
  assert (Hs : since (writes_only (keeps_checkpoints st0)) s
                 (pipeline env self fuel task_info s).2).
  { rewrite (pipeline_known _ _ _ _ _ _ Hst).
    destruct (TaskStatus.done st0) eqn:Hd; [apply since_refl|].
    destruct (run_stages env self fuel task_info st0 s) as [r s'] eqn:H.
    simpl.
    eapply (run_stages_since env self (keeps_checkpoints st0)); eauto.
    - intros st1 st2 H1 Ha.
      pose proof (advance_keeps_checkpoints _ _ _ H1 Ha) as H2.
      split; [exact H2|]. intros i x [= <- <-]. exact H2.
    - intros _ e He i x Hw. apply bt_event_no_write in He.
      unfold is_store_write in He. rewrite Hw in He. discriminate.
    - intros e He i x Hw. apply finalrip_event_no_write in He.
      unfold is_store_write in He. rewrite Hw in He. discriminate.
    - intros e He i x Hw. apply tg_event_no_write in He.
      unfold is_store_write in He. rewrite Hw in He. discriminate. }
  destruct Hs as (evs & T & S & F). split.
  - exists evs. split; [exact T|]. intros e i st Hin Hw.
    rewrite Forall_forall in F. exact (F e Hin i st Hw).
  - rewrite S. apply (replay_keeps (keeps_checkpoints st0)); eauto.
Qed.

End KeepFacts.

Lemma pipeline_keeps_checkpoints_witness :
  ∃ st,
    json_store
      (pipeline (Scripted.env Scripted.refusing) Scripted.publishing 5
         Scripted.task
         (Scripted.init {["abc123" := Scripted.acquired]}
                        Scripted.no_config 0%nat)).2
    !! TaskInfo.hash Scripted.task = Some st
    ∧ keeps_checkpoints Scripted.acquired st.
Proof.
  apply (pipeline_keeps_checkpoints (Scripted.env Scripted.refusing)
           Scripted.publishing 5 Scripted.task
           (Scripted.init {["abc123" := Scripted.acquired]}
                          Scripted.no_config 0%nat)
           Scripted.acquired).
  reflexivity.
Defined.
